(** * search-stack: the resilient TikHub tool-call dispatcher

    A shallow embedding of the [tikhub_call] tool of the two hosts of the
    repository, the handler registered by the stdio MCP server
    ([src/proxy/mcp-server.ts], [Proxy.tikhub_call]) and [execute] of the
    in-process OpenClaw plugin ([src/plugin/index.ts], [Plugin.execute]),
    together with the helpers it relies on: [extractPlatform], [extractKeyword],
    [isEmptyData], [fallbackWebSearch] and the HTTP helper ([api] in the
    server, [apiCall] in the plugin).

    Conventions of the embedding.
    - A JavaScript string is the list of its UTF-16 code units, so that
      [len] and [slice0] are [String.prototype.length] and
      [String.prototype.slice(0, n)].
    - A value of type [unknown] that came out of [JSON.parse] or
      [Response.json] is a [JSON] tree; a possibly [undefined] value is an
      [option JSON].  A number is the rational value of the double
      ([Q]; every finite double is a rational, and the code cannot tell
      the two zeros apart); what a template literal prints for it is left
      to the host.
    - The two network operations ([fetch] towards TikHub, the HTTP helper
      towards the search service) are the nodes of a program tree [Prog];
      running a tree against a [World] gives the result of the handler and
      the trace of requests that were issued.
    - [JSON.parse], [JSON.stringify], the printing of a number, the
      members of [Object.prototype] and the text of the [TypeError] that
      the engine raises are builtins of the JavaScript host: the class
      [Host] takes them as parameters.  [Reference.host] is an executable
      instance used to evaluate the handlers on concrete inputs. *)

From Stdlib Require Import String Ascii DecimalString ZArith NArith QArith Bool Lia List.
Import ListNotations.

Set Implicit Arguments.
Close Scope Q_scope.
Local Open Scope list_scope.

(** An integer is read as a number where one is expected. *)
Coercion inject_Z : Z >-> Q.

(* ================================================================== *)
(** * JavaScript strings *)
(* ================================================================== *)

Definition jsstring := list N.

(** Decoding of the UTF-8 bytes of a literal into UTF-16 code units. *)
Fixpoint utf16_of_utf8 (bs : list N) : jsstring :=
  match bs with
  | [] => []
  | b0 :: r0 =>
    if (b0 <? 128)%N then b0 :: utf16_of_utf8 r0
    else if (b0 <? 224)%N then
      match r0 with
      | b1 :: r1 => ((b0 - 192) * 64 + (b1 - 128))%N :: utf16_of_utf8 r1
      | _ => []
      end
    else if (b0 <? 240)%N then
      match r0 with
      | b1 :: b2 :: r2 =>
        ((b0 - 224) * 4096 + (b1 - 128) * 64 + (b2 - 128))%N :: utf16_of_utf8 r2
      | _ => []
      end
    else
      match r0 with
      | b1 :: b2 :: b3 :: r3 =>
        let cp := ((b0 - 240) * 262144 + (b1 - 128) * 4096
                   + (b2 - 128) * 64 + (b3 - 128) - 65536)%N in
        (55296 + cp / 1024)%N :: (56320 + cp mod 1024)%N :: utf16_of_utf8 r3
      | _ => []
      end
  end.

(** [js "..."] is the JavaScript string written by the literal. *)
Definition js (s : string) : jsstring :=
  utf16_of_utf8 (map N_of_ascii (list_ascii_of_string s)).

(** Literals are kept as written: their code units are computed only by
    [vm_compute]. *)
Arguments js : simpl never.
Opaque js.

Fixpoint str_eqb (a b : jsstring) : bool :=
  match a, b with
  | [], [] => true
  | x :: a', y :: b' => (x =? y)%N && str_eqb a' b'
  | _, _ => false
  end.

(** Decimal rendering of an integer below [10^21] in absolute value (a
    length, a rank, an HTTP status), as a template literal prints it. *)
Definition dec (z : Z) : jsstring := js (NilZero.string_of_int (Z.to_int z)).

(** [Array.prototype.join]. *)
Fixpoint join (sep : jsstring) (parts : list jsstring) : jsstring :=
  match parts with
  | [] => []
  | [p] => p
  | p :: rest => p ++ sep ++ join sep rest
  end.

(** [Array.prototype.includes] on an array of strings. *)
Definition includes (l : list jsstring) (k : jsstring) : bool :=
  existsb (str_eqb k) l.

(** [s.split(sep)[0]] for a one-unit separator: the part of [s] before the
    first occurrence of the separator, all of [s] when there is none. *)
Fixpoint split_head (sep : N) (s : jsstring) : jsstring :=
  match s with
  | [] => []
  | c :: r => if (c =? sep)%N then [] else c :: split_head sep r
  end.

(** [s.length] and [s.slice(0, n)] for [n >= 0]. *)
Definition len (s : jsstring) : Z := Z.of_nat (length s).

Definition slice0 (n : Z) (s : jsstring) : jsstring := firstn (Z.to_nat n) s.

(** A string is truthy when it is not empty. *)
Definition nonempty (s : jsstring) : bool :=
  match s with [] => false | _ => true end.

(* ================================================================== *)
(** * JSON values and the JavaScript operations applied to them *)
(* ================================================================== *)

Unset Elimination Schemes.
Inductive JSON : Type :=
| JNull
| JBool (b : bool)
| JNum (n : Q)
| JStr (s : jsstring)
| JArr (items : list JSON)
| JObj (fields : list (jsstring * JSON)).
Set Elimination Schemes.

(** Induction with a hypothesis for every element of an array and every
    field of an object. *)
Definition JSON_induction (P : JSON -> Prop)
    (Hnull : P JNull)
    (Hbool : forall b, P (JBool b))
    (Hnum : forall n, P (JNum n))
    (Hstr : forall s, P (JStr s))
    (Harr : forall l, Forall P l -> P (JArr l))
    (Hobj : forall fs, Forall (fun kv => P (snd kv)) fs -> P (JObj fs)) :
  forall v, P v :=
  fix go (v : JSON) : P v :=
    match v with
    | JNull => Hnull
    | JBool b => Hbool b
    | JNum n => Hnum n
    | JStr s => Hstr s
    | JArr l =>
      Harr l ((fix all (l : list JSON) : Forall P l :=
                 match l with
                 | [] => Forall_nil _
                 | x :: r => Forall_cons x (go x) (all r)
                 end) l)
    | JObj fs =>
      Hobj fs ((fix all (fs : list (jsstring * JSON))
                  : Forall (fun kv => P (snd kv)) fs :=
                  match fs with
                  | [] => Forall_nil _
                  | kv :: r => Forall_cons kv (go (snd kv)) (all r)
                  end) fs)
    end.

(** Own-property lookup in an object literal or a parsed object: the first
    field named [k]. *)
Fixpoint lookup (V : Type) (fs : list (jsstring * V)) (k : jsstring) : option V :=
  match fs with
  | [] => None
  | (k', v) :: r => if str_eqb k' k then Some v else lookup r k
  end.

(** [Object.keys(obj)]. *)
Definition keys (fs : list (jsstring * JSON)) : list jsstring := map fst fs.

(** [k in obj] for an object that came out of JSON. *)
Definition has (fs : list (jsstring * JSON)) (k : jsstring) : bool :=
  includes (keys fs) k.

(** [v[k]] for a value that is neither [null] nor [undefined] and a
    key that is neither an index nor [length] nor a member of a prototype
    (every key the dispatcher reads from a response or from its arguments
    is of that kind): the field of an object, [undefined] on an array or
    a primitive.  Reading a property of [null] raises a [TypeError]; the
    call sites deal with it. *)
Definition get (v : JSON) (k : jsstring) : option JSON :=
  match v with
  | JObj fs => lookup fs k
  | _ => None
  end.

(** [ToBoolean]. *)
Definition truthy (v : JSON) : bool :=
  match v with
  | JNull => false
  | JBool b => b
  | JNum n => negb (Qeq_bool n 0)
  | JStr s => nonempty s
  | JArr _ | JObj _ => true
  end.

Definition truthy_u (o : option JSON) : bool :=
  match o with Some v => truthy v | None => false end.

(** [typeof v === "object"]: objects, arrays and [null]. *)
Definition typeof_object (o : option JSON) : bool :=
  match o with
  | Some JNull | Some (JArr _) | Some (JObj _) => true
  | _ => false
  end.

(** [Array.isArray(v) && v.length === 0] for a possibly missing [v]. *)
Definition is_empty_array (o : option JSON) : bool :=
  match o with
  | Some (JArr l) => Nat.eqb (length l) 0
  | _ => false
  end.

(** The characters that a Rocq literal cannot hold. *)
Definition nl : jsstring := [10%N].
Definition dquote : jsstring := [34%N].

(* ================================================================== *)
(** * The JavaScript host and the network *)
(* ================================================================== *)

(** Exceptions: an [Error] made by the code, a [TypeError] raised by the
    engine; both carry their [message]. *)
Inductive Exn : Type :=
| JsError (message : jsstring)
| JsTypeError (message : jsstring).

Inductive Completion (A : Type) : Type :=
| Normal (a : A)
| Abrupt (e : Exn).

Arguments Normal {A} a.
Arguments Abrupt {A} e.

(** The builtins of the host.  [JSON_parse s] is [None] when
    [JSON.parse(s)] throws; [JSON_stringify v] is
    [JSON.stringify(v, null, 2)]; [Number_toString n] is what a template
    literal prints for the number [n] ([Number::toString]: "400", "1.5",
    "1e+21"); [Object_prototype_member k] is, when [Object.prototype] has
    a member named [k] ([constructor], [toString], [valueOf], ...), what
    a template literal prints for it, the text of a function;
    [null_read_message k] is the message of the [TypeError] raised by
    reading property [k] of [null]. *)
Class Host : Type := {
  JSON_parse : jsstring -> option JSON;
  JSON_stringify : JSON -> jsstring;
  Number_toString : Q -> jsstring;
  Object_prototype_member : jsstring -> option jsstring;
  null_read_message : jsstring -> jsstring
}.

(** [ToString], as a template literal applies it to a JSON value. *)
Fixpoint ToString `{H : Host} (v : JSON) : jsstring :=
  match v with
  | JNull => js "null"
  | JBool true => js "true"
  | JBool false => js "false"
  | JNum n => Number_toString n
  | JStr s => s
  | JArr l =>
    join (js ",")
         (map (fun x => match x with JNull => [] | _ => ToString x end) l)
  | JObj _ => js "[object Object]"
  end.

(** What [PLATFORM_NAMES[prefix]] gives when it is not [undefined]: the
    label of an entry of the table, or a member that the table inherits
    from [Object.prototype], a function, of which the dispatcher only
    uses the text that a template literal prints. *)
Inductive Platform : Type :=
| Label (label : jsstring)
| Member (printed : jsstring).

(** The [RequestInit] handed to [fetch] for the TikHub gateway.  The body
    is kept as the object that is serialised, [{ tool_name, arguments }];
    [f_signal] is the delay of [AbortSignal.timeout], in milliseconds,
    when a signal is given. *)
Record FetchRequest : Type := {
  f_url : jsstring;
  f_method : jsstring;
  f_authorization : jsstring;
  f_content_type : jsstring;
  f_tool_name : jsstring;
  f_arguments : JSON;
  f_signal : option Z
}.

(** What the [try] block observes of that exchange:
    - [FetchThrows reason]: [fetch] rejected, [reason] is what the [catch]
      clause computes, [e.message] or [String(e)];
    - [FetchNotOk status text]: [res.ok] is false, [text] is
      [await res.text().catch(() => "")];
    - [FetchBodyThrows reason]: [res.json()] rejected;
    - [FetchJson data]: [res.json()] resolved to [data]. *)
Inductive FetchOutcome : Type :=
| FetchThrows (reason : jsstring)
| FetchNotOk (status : Z) (text : jsstring)
| FetchBodyThrows (reason : jsstring)
| FetchJson (data : JSON).

(** The request of the HTTP helper towards the search-stack REST API. *)
Record ApiRequest : Type := {
  a_method : jsstring;
  a_path : jsstring;
  a_body : option JSON;
  a_signal : option Z
}.

(** The reply of [POST /search], in the shape the code casts it to;
    [sr_results] is [None] when the field is missing. *)
Record SearchResult : Type := {
  title : jsstring;
  url : jsstring;
  snippet : option jsstring;
  content : option jsstring
}.

Record SearchResponse : Type := {
  sr_query : jsstring;
  sr_provider : jsstring;
  sr_results : option (list SearchResult)
}.

(** What the helper observes: [fetch] rejected (network error, or the
    abort of the signal), a response that is not [ok], a body that is not
    JSON, or the parsed body. *)
Inductive ApiOutcome : Type :=
| ApiThrows (message : jsstring)
| ApiNotOk (status : Z) (text : jsstring)
| ApiBodyThrows (message : jsstring)
| ApiJson (data : SearchResponse).

(** Programs over the two network operations. *)
Inductive Prog (A : Type) : Type :=
| Ret (a : A)
| Fetch (req : FetchRequest) (k : FetchOutcome -> Prog A)
| Api (req : ApiRequest) (k : ApiOutcome -> Prog A).

Arguments Ret {A} a.
Arguments Fetch {A} req k.
Arguments Api {A} req k.

Fixpoint bind (A B : Type) (p : Prog A) (f : A -> Prog B) : Prog B :=
  match p with
  | Ret a => f a
  | Fetch req k => Fetch req (fun o => bind (k o) f)
  | Api req k => Api req (fun o => bind (k o) f)
  end.

Notation "x <- p ;; q" := (bind p (fun x => q))
  (at level 61, p at next level, right associativity).

(** The remote side: what each service answers to each request. *)
Record World : Type := {
  tikhub : FetchRequest -> FetchOutcome;
  search_stack : ApiRequest -> ApiOutcome
}.

Inductive Event : Type :=
| EvFetch (req : FetchRequest)
| EvApi (req : ApiRequest).

(** Running a program: its result and the requests it issued, in order. *)
Fixpoint run (A : Type) (w : World) (p : Prog A) : A * list Event :=
  match p with
  | Ret a => (a, [])
  | Fetch req k =>
    let (a, t) := run w (k (tikhub w req)) in (a, EvFetch req :: t)
  | Api req k =>
    let (a, t) := run w (k (search_stack w req)) in (a, EvApi req :: t)
  end.

(** What a tool handler gives back to its host: a text content, flagged
    [isError] or not, or an exception. *)
Inductive ToolResult : Type :=
| Result (text : jsstring) (isError : bool)
| Throws (e : Exn).

(** The two variables of the handler after the TikHub attempt. *)
Record Failure : Type := {
  tikhubFailed : bool;
  failReason : jsstring
}.

(** The TikHub attempt either returns from the handler or falls through
    to the fallback with the two variables set. *)
Inductive Attempt : Type :=
| Returned (r : ToolResult)
| Continue (st : Failure).

Definition is_event_api (e : Event) : bool :=
  match e with EvApi _ => true | EvFetch _ => false end.

Definition is_event_fetch (e : Event) : bool :=
  match e with EvFetch _ => true | EvApi _ => false end.

(* ================================================================== *)
(** * The stdio MCP server, [src/proxy/mcp-server.ts] *)
(* ================================================================== *)

Module Proxy.
Section WithHost.
Context `{H : Host}.

(** [api(method, path, body)]: no [signal] is put in the options; a
    response that is not [ok] becomes an [Error]. *)
Definition api (method path : jsstring) (body : option JSON)
  : Prog (Completion SearchResponse) :=
  Api {| a_method := method; a_path := path; a_body := body;
         a_signal := None |}
      (fun o =>
         Ret match o with
             | ApiThrows m => Abrupt (JsError m)
             | ApiNotOk status text =>
               Abrupt (JsError (method ++ js " " ++ path ++ js " → "
                                ++ dec status ++ js ": " ++ text))
             | ApiBodyThrows m => Abrupt (JsError m)
             | ApiJson data => Normal data
             end).

Definition PLATFORM_NAMES : list (jsstring * jsstring) :=
  [ (js "douyin", js "抖音");
    (js "tiktok", js "TikTok");
    (js "xiaohongshu", js "小红书");
    (js "weibo", js "微博");
    (js "bilibili", js "B站");
    (js "instagram", js "Instagram");
    (js "youtube", js "YouTube");
    (js "twitter", js "Twitter");
    (js "kuaishou", js "快手");
    (js "reddit", js "Reddit") ].

(** [PLATFORM_NAMES[prefix]]: the table is an object literal, so that a
    prefix that is not one of its keys reads the member of
    [Object.prototype] of that name when there is one. *)
Definition extractPlatform (toolName : jsstring) : option Platform :=
  let prefix := split_head 95 toolName in
  match lookup PLATFORM_NAMES prefix with
  | Some label => Some (Label label)
  | None =>
    match Object_prototype_member prefix with
    | Some printed => Some (Member printed)
    | None => None
    end
  end.

Fixpoint extractKeyword_loop (args : JSON) (ks : list jsstring)
  : option jsstring :=
  match ks with
  | [] => None
  | key :: rest =>
    match get args key with
    | Some (JStr s) => if nonempty s then Some s else extractKeyword_loop args rest
    | _ => extractKeyword_loop args rest
    end
  end.

(** [args[key]] on [null] raises in the first turn of the loop. *)
Definition extractKeyword (args : JSON) : Completion (option jsstring) :=
  match args with
  | JNull => Abrupt (JsTypeError (null_read_message (js "keyword")))
  | _ =>
    Normal (extractKeyword_loop args
              [js "keyword"; js "query"; js "search_keyword"; js "keywords"])
  end.

(** [isEmptyData] on a value that is not [undefined].  The inner loop
    reads [obj.data] and applies the test to it, a missing field being
    [undefined], which is empty. *)
Fixpoint isEmptyData_value (data : JSON) : bool :=
  match data with
  | JNull => true
  | JArr l => Nat.eqb (length l) 0
  | JObj obj =>
    if Nat.eqb (length (keys obj)) 0 then true
    else if (has obj (js "data")
             && (fix obj_data (fs : list (jsstring * JSON)) : bool :=
                   match fs with
                   | [] => true
                   | (k, v) :: r =>
                     if str_eqb k (js "data") then isEmptyData_value v
                     else obj_data r
                   end) obj)
            && Nat.eqb
                 (length
                    (filter
                       (fun k =>
                          negb (includes [js "code"; js "data"; js "message";
                                          js "recordTime"; js "msg"] k))
                       (keys obj))) 0
    then true
    else
      existsb (fun k => has obj k && is_empty_array (lookup obj k))
              [js "items"; js "item_list"; js "notes"; js "note_list";
               js "list"; js "results"; js "video_list"]
  | _ => false
  end.

Definition isEmptyData (data : option JSON) : bool :=
  match data with
  | None => true
  | Some v => isEmptyData_value v
  end.

(** The lines pushed by one turn of the rendering loop. *)
Definition result_lines (i : nat) (r : SearchResult) : list jsstring :=
  [dec (Z.of_nat (i + 1)) ++ js ". " ++ title r;
   js "   " ++ url r]
  ++ match snippet r with
     | Some s => if nonempty s then [js "   " ++ s] else []
     | None => []
     end
  ++ match content r with
     | Some c =>
       if nonempty c
       then [ []; js "   --- Page Content ---"; js "   " ++ c ]
       else []
     | None => []
     end
  ++ [ [] ].

Fixpoint results_lines (i : nat) (rs : list SearchResult) : list jsstring :=
  match rs with
  | [] => []
  | r :: rest => result_lines i r ++ results_lines (S i) rest
  end.

Definition fallback_marker : jsstring :=
  js "[TikHub 不可用，已自动回退到网页搜索]".

(** [platform ? `${platform} ${keyword}` : keyword]: a label is truthy
    when it is not empty, a function always. *)
Definition fallback_query (keyword : jsstring) (platform : option Platform)
  : jsstring :=
  match platform with
  | Some (Label label) =>
    if nonempty label then label ++ js " " ++ keyword else keyword
  | Some (Member printed) => printed ++ js " " ++ keyword
  | None => keyword
  end.

Definition search_body (query : jsstring) : JSON :=
  JObj [ (js "query", JStr query);
         (js "count", JNum 5);
         (js "enrich", JBool true);
         (js "max_chars", JNum 5000) ].

(** [null] is [None]. *)
Definition fallbackWebSearch (keyword : jsstring) (platform : option Platform)
  : Prog (option jsstring) :=
  let query := fallback_query keyword platform in
  r <- api (js "POST") (js "/search") (Some (search_body query)) ;;
  match r with
  | Abrupt _ => Ret None
  | Normal data =>
    match sr_results data with
    | None => Ret None
    | Some results =>
      if Nat.eqb (length results) 0 then Ret None
      else
        Ret (Some
               (join nl
                     ([ fallback_marker;
                        js "Search: " ++ dquote ++ sr_query data ++ dquote
                        ++ js " (" ++ dec (Z.of_nat (length results))
                        ++ js " results via " ++ sr_provider data ++ js ")";
                        [] ]
                      ++ results_lines 0 results)))
    end
  end.

(** ** The [tikhub_call] handler *)

Variable TIKHUB_API_KEY : jsstring.

Definition TIKHUB_URL : jsstring := js "https://mcp.tikhub.io/tools/call".

Definition is_null (o : option JSON) : bool :=
  match o with Some JNull => true | _ => false end.

(** The first statement of the handler: [args] out of [params.arguments].
    [None] is the [catch] clause of [JSON.parse]. *)
Definition normalizeArguments (rawArgs : option JSON) : option JSON :=
  if typeof_object rawArgs && negb (is_null rawArgs) then rawArgs
  else
    JSON_parse match rawArgs with
               | Some v => if truthy v then ToString v else js "{}"
               | None => js "{}"
               end.

(** The [else] branch of [if (data.error)]: the reply carries no error
    and [data] is not [null]. *)
Definition classify_result (tool_name : jsstring) (data : JSON) : Attempt :=
  let result := get data (js "result") in
  match result with
  | Some r =>
    if truthy r && typeof_object result then
      let innerData := get r (js "data") in
      let code := get r (js "code") in
      let message := get r (js "message") in
      if truthy_u code
         && negb match code with
                 | Some (JNum n) => Qeq_bool n 200
                 | _ => false
                 end
      then
        Continue
          {| tikhubFailed := true;
             failReason :=
               tool_name ++ js " returned code "
               ++ match code with Some c => ToString c | None => [] end
               ++ js ": "
               ++ match message with
                  | Some m => if truthy m then ToString m else js "error"
                  | None => js "error"
                  end |}
      else if isEmptyData innerData then
        Continue
          {| tikhubFailed := true;
             failReason :=
               tool_name ++ js " returned empty data (platform anti-bot)" |}
      else
        let text :=
          JSON_stringify match innerData with
                         | None | Some JNull => r
                         | Some d => d
                         end in
        let text :=
          if (50000 <? len text)%Z
          then slice0 50000 text ++ nl ++ nl
               ++ js "... (truncated, result too large)"
          else text in
        Returned
          (Result (js "TikHub " ++ tool_name ++ js " result:" ++ nl ++ nl
                   ++ text) false)
    else
      let text := JSON_stringify data in
      let text :=
        if (50000 <? len text)%Z
        then slice0 50000 text ++ nl ++ nl ++ js "... (truncated)"
        else text in
      Returned (Result text false)
  | None =>
    let text := JSON_stringify data in
    let text :=
      if (50000 <? len text)%Z
      then slice0 50000 text ++ nl ++ nl ++ js "... (truncated)"
      else text in
    Returned (Result text false)
  end.

(** The body of the [try] block once [fetch] has settled, with its
    [catch] clause.  Reading [data.error] on a [null] body raises the
    [TypeError] that the clause turns into the failure reason. *)
Definition classify (tool_name : jsstring) (o : FetchOutcome) : Attempt :=
  match o with
  | FetchThrows reason =>
    Continue {| tikhubFailed := true; failReason := reason |}
  | FetchNotOk status text =>
    Continue {| tikhubFailed := true;
                failReason := js "HTTP " ++ dec status ++ js ": "
                              ++ slice0 200 text |}
  | FetchBodyThrows reason =>
    Continue {| tikhubFailed := true; failReason := reason |}
  | FetchJson JNull =>
    Continue {| tikhubFailed := true;
                failReason := null_read_message (js "error") |}
  | FetchJson data =>
    match get data (js "error") with
    | Some e =>
      if truthy e
      then Continue {| tikhubFailed := true; failReason := ToString e |}
      else classify_result tool_name data
    | None => classify_result tool_name data
    end
  end.

(** The TikHub attempt: the key check, then the call. *)
Definition tikhub_attempt (tool_name : jsstring) (args : JSON) : Prog Attempt :=
  let st := {| tikhubFailed := false; failReason := [] |} in
  let st :=
    if negb (nonempty TIKHUB_API_KEY)
    then {| tikhubFailed := true; failReason := js "API key not configured" |}
    else st in
  if negb (tikhubFailed st) then
    Fetch {| f_url := TIKHUB_URL;
             f_method := js "POST";
             f_authorization := js "Bearer " ++ TIKHUB_API_KEY;
             f_content_type := js "application/json";
             f_tool_name := tool_name;
             f_arguments := args;
             f_signal := Some 25000%Z |}
          (fun o => Ret (classify tool_name o))
  else Ret (Continue st).

Definition keyword_truthy (keyword : option jsstring) : bool :=
  match keyword with Some k => nonempty k | None => false end.

(** The end of the handler, after the [try] block. *)
Definition tikhub_fallback (st : Failure) (keyword : option jsstring)
    (platform : option Platform) : Prog ToolResult :=
  let errorMsg :=
    if tikhubFailed st
    then js "TikHub 失败: " ++ failReason st
         ++ (if keyword_truthy keyword
             then nl ++ js "网页搜索回退也失败了。"
             else nl ++ js "该工具没有 keyword 参数，无法自动回退到网页搜索。")
    else js "Unknown error" in
  match keyword with
  | Some k =>
    if tikhubFailed st && nonempty k then
      fallbackResult <- fallbackWebSearch k platform ;;
      match fallbackResult with
      | Some text =>
        if nonempty text
        then Ret (Result (js "TikHub 失败 (" ++ failReason st
                          ++ js ")，已自动回退到网页搜索:" ++ nl ++ nl ++ text)
                         false)
        else Ret (Result errorMsg true)
      | None => Ret (Result errorMsg true)
      end
    else Ret (Result errorMsg true)
  | None => Ret (Result errorMsg true)
  end.

Definition tikhub_call (tool_name : jsstring) (arguments : option JSON)
  : Prog ToolResult :=
  match normalizeArguments arguments with
  | None => Ret (Result (js "Invalid arguments JSON string") true)
  | Some args =>
    match extractKeyword args with
    | Abrupt e => Ret (Throws e)
    | Normal keyword =>
      let platform := extractPlatform tool_name in
      attempt <- tikhub_attempt tool_name args ;;
      match attempt with
      | Returned r => Ret r
      | Continue st => tikhub_fallback st keyword platform
      end
    end
  end.

End WithHost.
End Proxy.

(* ================================================================== *)
(** * The OpenClaw plugin, [src/plugin/index.ts] *)
(* ================================================================== *)

Module Plugin.
Section WithHost.
Context `{H : Host}.

(** [apiCall(method, path, body, timeoutMs = 28_000)]: the options carry
    [AbortSignal.timeout(timeoutMs)]; a response that is not [ok] becomes
    an [Error].  [timeoutMs] is [None] when the caller leaves it out. *)
Definition apiCall (method path : jsstring) (body : option JSON)
    (timeoutMs : option Z) : Prog (Completion SearchResponse) :=
  let timeoutMs := match timeoutMs with Some t => t | None => 28000%Z end in
  Api {| a_method := method; a_path := path; a_body := body;
         a_signal := Some timeoutMs |}
      (fun o =>
         Ret match o with
             | ApiThrows m => Abrupt (JsError m)
             | ApiNotOk status text =>
               Abrupt (JsError (method ++ js " " ++ path ++ js " → "
                                ++ dec status ++ js ": " ++ text))
             | ApiBodyThrows m => Abrupt (JsError m)
             | ApiJson data => Normal data
             end).

Definition PLATFORM_NAMES : list (jsstring * jsstring) :=
  [ (js "douyin", js "抖音");
    (js "tiktok", js "TikTok");
    (js "xiaohongshu", js "小红书");
    (js "weibo", js "微博");
    (js "bilibili", js "B站");
    (js "instagram", js "Instagram");
    (js "youtube", js "YouTube");
    (js "twitter", js "Twitter");
    (js "kuaishou", js "快手");
    (js "reddit", js "Reddit") ].

(** [PLATFORM_NAMES[prefix]]: the table is an object literal, so that a
    prefix that is not one of its keys reads the member of
    [Object.prototype] of that name when there is one. *)
Definition extractPlatform (toolName : jsstring) : option Platform :=
  let prefix := split_head 95 toolName in
  match lookup PLATFORM_NAMES prefix with
  | Some label => Some (Label label)
  | None =>
    match Object_prototype_member prefix with
    | Some printed => Some (Member printed)
    | None => None
    end
  end.

Fixpoint extractKeyword_loop (args : JSON) (ks : list jsstring)
  : option jsstring :=
  match ks with
  | [] => None
  | key :: rest =>
    match get args key with
    | Some (JStr s) => if nonempty s then Some s else extractKeyword_loop args rest
    | _ => extractKeyword_loop args rest
    end
  end.

(** [args[key]] on [null] raises in the first turn of the loop. *)
Definition extractKeyword (args : JSON) : Completion (option jsstring) :=
  match args with
  | JNull => Abrupt (JsTypeError (null_read_message (js "keyword")))
  | _ =>
    Normal (extractKeyword_loop args
              [js "keyword"; js "query"; js "search_keyword"; js "keywords"])
  end.

(** [isEmptyData] on a value that is not [undefined].  The inner loop
    reads [obj.data] and applies the test to it, a missing field being
    [undefined], which is empty. *)
Fixpoint isEmptyData_value (data : JSON) : bool :=
  match data with
  | JNull => true
  | JArr l => Nat.eqb (length l) 0
  | JObj obj =>
    if Nat.eqb (length (keys obj)) 0 then true
    else if (has obj (js "data")
             && (fix obj_data (fs : list (jsstring * JSON)) : bool :=
                   match fs with
                   | [] => true
                   | (k, v) :: r =>
                     if str_eqb k (js "data") then isEmptyData_value v
                     else obj_data r
                   end) obj)
            && Nat.eqb
                 (length
                    (filter
                       (fun k =>
                          negb (includes [js "code"; js "data"; js "message";
                                          js "recordTime"; js "msg"] k))
                       (keys obj))) 0
    then true
    else
      existsb (fun k => has obj k && is_empty_array (lookup obj k))
              [js "items"; js "item_list"; js "notes"; js "note_list";
               js "list"; js "results"; js "video_list"]
  | _ => false
  end.

Definition isEmptyData (data : option JSON) : bool :=
  match data with
  | None => true
  | Some v => isEmptyData_value v
  end.

(** The lines pushed by one turn of the rendering loop. *)
Definition result_lines (i : nat) (r : SearchResult) : list jsstring :=
  [dec (Z.of_nat (i + 1)) ++ js ". " ++ title r;
   js "   " ++ url r]
  ++ match snippet r with
     | Some s => if nonempty s then [js "   " ++ s] else []
     | None => []
     end
  ++ match content r with
     | Some c =>
       if nonempty c
       then [ []; js "   --- Page Content ---"; js "   " ++ c ]
       else []
     | None => []
     end
  ++ [ [] ].

Fixpoint results_lines (i : nat) (rs : list SearchResult) : list jsstring :=
  match rs with
  | [] => []
  | r :: rest => result_lines i r ++ results_lines (S i) rest
  end.

Definition fallback_marker : jsstring :=
  js "[TikHub 不可用，已自动回退到网页搜索]".

(** [platform ? `${platform} ${keyword}` : keyword]: a label is truthy
    when it is not empty, a function always. *)
Definition fallback_query (keyword : jsstring) (platform : option Platform)
  : jsstring :=
  match platform with
  | Some (Label label) =>
    if nonempty label then label ++ js " " ++ keyword else keyword
  | Some (Member printed) => printed ++ js " " ++ keyword
  | None => keyword
  end.

Definition search_body (query : jsstring) : JSON :=
  JObj [ (js "query", JStr query);
         (js "count", JNum 5);
         (js "enrich", JBool true);
         (js "max_chars", JNum 5000) ].

(** [null] is [None]. *)
Definition fallbackWebSearch (keyword : jsstring) (platform : option Platform)
  : Prog (option jsstring) :=
  let query := fallback_query keyword platform in
  r <- apiCall (js "POST") (js "/search") (Some (search_body query)) None ;;
  match r with
  | Abrupt _ => Ret None
  | Normal data =>
    match sr_results data with
    | None => Ret None
    | Some results =>
      if Nat.eqb (length results) 0 then Ret None
      else
        Ret (Some
               (join nl
                     ([ fallback_marker;
                        js "Search: " ++ dquote ++ sr_query data ++ dquote
                        ++ js " (" ++ dec (Z.of_nat (length results))
                        ++ js " results via " ++ sr_provider data ++ js ")";
                        [] ]
                      ++ results_lines 0 results)))
    end
  end.

(** ** [execute] of the [tikhub_call] tool *)

Variable TIKHUB_API_KEY : jsstring.

Definition TIKHUB_URL : jsstring := js "https://mcp.tikhub.io/tools/call".

Definition is_null (o : option JSON) : bool :=
  match o with Some JNull => true | _ => false end.

(** The first statement of [execute]: [args] out of [params.arguments].
    [None] is the [catch] clause of [JSON.parse]. *)
Definition normalizeArguments (rawArgs : option JSON) : option JSON :=
  if typeof_object rawArgs && negb (is_null rawArgs) then rawArgs
  else
    JSON_parse match rawArgs with
               | Some v => if truthy v then ToString v else js "{}"
               | None => js "{}"
               end.

(** The [else] branch of [if (data.error)]: the reply carries no error
    and [data] is not [null]. *)
Definition classify_result (toolName : jsstring) (data : JSON) : Attempt :=
  let result := get data (js "result") in
  match result with
  | Some r =>
    if truthy r && typeof_object result then
      let innerData := get r (js "data") in
      let code := get r (js "code") in
      let message := get r (js "message") in
      if truthy_u code
         && negb match code with
                 | Some (JNum n) => Qeq_bool n 200
                 | _ => false
                 end
      then
        Continue
          {| tikhubFailed := true;
             failReason :=
               toolName ++ js " returned code "
               ++ match code with Some c => ToString c | None => [] end
               ++ js ": "
               ++ match message with
                  | Some m => if truthy m then ToString m else js "error"
                  | None => js "error"
                  end |}
      else if isEmptyData innerData then
        Continue
          {| tikhubFailed := true;
             failReason :=
               toolName ++ js " returned empty data (platform anti-bot)" |}
      else
        let text :=
          JSON_stringify match innerData with
                         | None | Some JNull => r
                         | Some d => d
                         end in
        let text :=
          if (50000 <? len text)%Z
          then slice0 50000 text ++ nl ++ nl
               ++ js "... (truncated, result too large)"
          else text in
        Returned
          (Result (js "TikHub " ++ toolName ++ js " result:" ++ nl ++ nl
                   ++ text) false)
    else
      let text := JSON_stringify data in
      let text :=
        if (50000 <? len text)%Z
        then slice0 50000 text ++ nl ++ nl ++ js "... (truncated)"
        else text in
      Returned (Result text false)
  | None =>
    let text := JSON_stringify data in
    let text :=
      if (50000 <? len text)%Z
      then slice0 50000 text ++ nl ++ nl ++ js "... (truncated)"
      else text in
    Returned (Result text false)
  end.

(** The body of the [try] block once [fetch] has settled, with its
    [catch] clause.  Reading [data.error] on a [null] body raises the
    [TypeError] that the clause turns into the failure reason. *)
Definition classify (toolName : jsstring) (o : FetchOutcome) : Attempt :=
  match o with
  | FetchThrows reason =>
    Continue {| tikhubFailed := true; failReason := reason |}
  | FetchNotOk status text =>
    Continue {| tikhubFailed := true;
                failReason := js "HTTP " ++ dec status ++ js ": "
                              ++ slice0 200 text |}
  | FetchBodyThrows reason =>
    Continue {| tikhubFailed := true; failReason := reason |}
  | FetchJson JNull =>
    Continue {| tikhubFailed := true;
                failReason := null_read_message (js "error") |}
  | FetchJson data =>
    match get data (js "error") with
    | Some e =>
      if truthy e
      then Continue {| tikhubFailed := true; failReason := ToString e |}
      else classify_result toolName data
    | None => classify_result toolName data
    end
  end.

(** The TikHub attempt: the call is issued whatever the key is. *)
Definition tikhub_attempt (toolName : jsstring) (args : JSON) : Prog Attempt :=
  Fetch {| f_url := TIKHUB_URL;
           f_method := js "POST";
           f_authorization := js "Bearer " ++ TIKHUB_API_KEY;
           f_content_type := js "application/json";
           f_tool_name := toolName;
           f_arguments := args;
           f_signal := Some 25000%Z |}
        (fun o => Ret (classify toolName o)).

Definition keyword_truthy (keyword : option jsstring) : bool :=
  match keyword with Some k => nonempty k | None => false end.

(** The end of [execute], after the [try] block: the error is thrown. *)
Definition tikhub_fallback (st : Failure) (keyword : option jsstring)
    (platform : option Platform) : Prog ToolResult :=
  let errorMsg :=
    if keyword_truthy keyword
    then js "TikHub 失败: " ++ failReason st ++ nl ++ js "网页搜索回退也失败了。"
    else js "TikHub 失败: " ++ failReason st ++ nl
         ++ js "该工具没有 keyword 参数，无法自动回退到网页搜索。" in
  match keyword with
  | Some k =>
    if tikhubFailed st && nonempty k then
      fallbackResult <- fallbackWebSearch k platform ;;
      match fallbackResult with
      | Some text =>
        if nonempty text
        then Ret (Result (js "TikHub 失败 (" ++ failReason st
                          ++ js ")，已自动回退到网页搜索:" ++ nl ++ nl ++ text)
                         false)
        else Ret (Throws (JsError errorMsg))
      | None => Ret (Throws (JsError errorMsg))
      end
    else Ret (Throws (JsError errorMsg))
  | None => Ret (Throws (JsError errorMsg))
  end.

Definition execute (tool_name : jsstring) (arguments : option JSON)
  : Prog ToolResult :=
  match normalizeArguments arguments with
  | None => Ret (Throws (JsError (js "Invalid arguments JSON string")))
  | Some args =>
    let toolName := tool_name in
    match extractKeyword args with
    | Abrupt e => Ret (Throws e)
    | Normal keyword =>
      let platform := extractPlatform toolName in
      attempt <- tikhub_attempt toolName args ;;
      match attempt with
      | Returned r => Ret r
      | Continue st => tikhub_fallback st keyword platform
      end
    end
  end.

End WithHost.
End Plugin.

(* ================================================================== *)
(** * An executable host *)
(* ================================================================== *)

(** A host on which the handlers can be evaluated: a recursive-descent
    [JSON.parse] for the JSON grammar, a number literal being taken for
    its exact decimal value; [Number::toString] applied to the exact
    decimal expansion of a number; the two-space pretty-printer
    [JSON.stringify(v, null, 2)]; the members of [Object.prototype] and
    the message of a property read on [null] as V8 prints them.  It
    agrees with an engine on the integers below [2^53] in absolute value
    and on the decimals of at most 15 significant digits. *)
Module Reference.

Definition is_ws (c : N) : bool :=
  ((c =? 32) || (c =? 9) || (c =? 10) || (c =? 13))%N.

Fixpoint skip_ws (s : jsstring) : jsstring :=
  match s with
  | c :: r => if is_ws c then skip_ws r else s
  | [] => []
  end.

Definition is_digit (c : N) : bool := ((48 <=? c) && (c <=? 57))%N.

Definition hex_value (c : N) : option N :=
  if is_digit c then Some (c - 48)%N
  else if ((97 <=? c) && (c <=? 102))%N then Some (c - 87)%N
  else if ((65 <=? c) && (c <=? 70))%N then Some (c - 55)%N
  else None.

(** The characters of a string literal after its opening quote. *)
Fixpoint parse_string_body (s : jsstring) : option (jsstring * jsstring) :=
  let cons_to c o :=
    match o with Some (t, r) => Some (c :: t, r) | None => None end in
  match s with
  | [] => None
  | c :: r =>
    if (c =? 34)%N then Some ([], r)
    else if (c =? 92)%N then
      match r with
      | e :: r1 =>
        if ((e =? 34) || (e =? 92) || (e =? 47))%N
        then cons_to e (parse_string_body r1)
        else if (e =? 98)%N then cons_to 8%N (parse_string_body r1)
        else if (e =? 102)%N then cons_to 12%N (parse_string_body r1)
        else if (e =? 110)%N then cons_to 10%N (parse_string_body r1)
        else if (e =? 114)%N then cons_to 13%N (parse_string_body r1)
        else if (e =? 116)%N then cons_to 9%N (parse_string_body r1)
        else if (e =? 117)%N then
          match r1 with
          | h1 :: h2 :: h3 :: h4 :: r5 =>
            match hex_value h1, hex_value h2, hex_value h3, hex_value h4 with
            | Some a, Some b, Some c', Some d =>
              cons_to (a * 4096 + b * 256 + c' * 16 + d)%N
                      (parse_string_body r5)
            | _, _, _, _ => None
            end
          | _ => None
          end
        else None
      | [] => None
      end
    else if (c <? 32)%N then None
    else cons_to c (parse_string_body r)
  end.

Fixpoint parse_digits (acc : Z) (s : jsstring) : Z * jsstring :=
  match s with
  | c :: r =>
    if is_digit c then parse_digits (acc * 10 + Z.of_N (c - 48)) r
    else (acc, s)
  | [] => (acc, [])
  end.

(** [0] or a digit sequence without leading zero. *)
Definition parse_natural (s : jsstring) : option (Z * jsstring) :=
  match s with
  | c :: r =>
    if (c =? 48)%N then
      match r with
      | d :: _ => if is_digit d then None else Some (0%Z, r)
      | [] => Some (0%Z, r)
      end
    else if is_digit c then Some (parse_digits 0 s)
    else None
  | [] => None
  end.

(** The digits of a fraction: their value and the power of ten that
    scales it. *)
Fixpoint parse_scaled (acc scale : Z) (s : jsstring) : Z * Z * jsstring :=
  match s with
  | c :: r =>
    if is_digit c
    then parse_scaled (acc * 10 + Z.of_N (c - 48)) (scale * 10) r
    else (acc, scale, s)
  | [] => (acc, scale, [])
  end.

(** An optional fraction: a point and at least one digit. *)
Definition parse_fraction (s : jsstring) : option (Z * Z * jsstring) :=
  match s with
  | 46%N :: d :: r =>
    if is_digit d then Some (parse_scaled 0 1 (d :: r)) else None
  | 46%N :: [] => None
  | _ => Some (0%Z, 1%Z, s)
  end.

(** An optional exponent: [e] or [E], an optional sign and at least one
    digit. *)
Definition parse_exponent (s : jsstring) : option (Z * jsstring) :=
  match s with
  | c :: r =>
    if ((c =? 101) || (c =? 69))%N then
      let (sign, r1) :=
        match r with
        | 43%N :: r' => (1%Z, r')
        | 45%N :: r' => ((-1)%Z, r')
        | _ => (1%Z, r)
        end in
      match r1 with
      | d :: _ =>
        if is_digit d
        then let (e, r2) := parse_digits 0 r1 in Some ((sign * e)%Z, r2)
        else None
      | [] => None
      end
    else Some (0%Z, s)
  | [] => Some (0%Z, s)
  end.

(** A number literal without its sign, as its exact value. *)
Definition parse_number (s : jsstring) : option (Q * jsstring) :=
  match parse_natural s with
  | Some (n, r) =>
    match parse_fraction r with
    | Some (f, scale, r1) =>
      match parse_exponent r1 with
      | Some (e, r2) =>
        Some (Qred (Qmult (Qmake (n * scale + f) (Z.to_pos scale))
                          (Qpower (inject_Z 10) e)), r2)
      | None => None
      end
    | None => None
    end
  | None => None
  end.

(** [obj[k] = v] while an object is built: a repeated key keeps its first
    position and takes the last value. *)
Fixpoint set_field (k : jsstring) (v : JSON) (fs : list (jsstring * JSON))
  : list (jsstring * JSON) :=
  match fs with
  | [] => [(k, v)]
  | (k', v') :: r =>
    if str_eqb k' k then (k', v) :: r else (k', v') :: set_field k v r
  end.

Fixpoint parse_value (fuel : nat) (s : jsstring) {struct fuel}
  : option (JSON * jsstring) :=
  match fuel with
  | O => None
  | S fuel' =>
    match skip_ws s with
    | 110%N :: 117%N :: 108%N :: 108%N :: r => Some (JNull, r)
    | 116%N :: 114%N :: 117%N :: 101%N :: r => Some (JBool true, r)
    | 102%N :: 97%N :: 108%N :: 115%N :: 101%N :: r => Some (JBool false, r)
    | 34%N :: r =>
      match parse_string_body r with
      | Some (t, r') => Some (JStr t, r')
      | None => None
      end
    | 91%N :: r =>
      match skip_ws r with
      | 93%N :: r' => Some (JArr [], r')
      | _ =>
        match parse_elements fuel' r with
        | Some (l, r') => Some (JArr l, r')
        | None => None
        end
      end
    | 123%N :: r =>
      match skip_ws r with
      | 125%N :: r' => Some (JObj [], r')
      | _ =>
        match parse_members fuel' r with
        | Some (fs, r') =>
          Some (JObj (fold_left (fun acc kv => set_field (fst kv) (snd kv) acc)
                                fs []), r')
        | None => None
        end
      end
    | 45%N :: r =>
      match parse_number r with
      | Some (n, r') => Some (JNum (Qopp n), r')
      | None => None
      end
    | r =>
      match parse_number r with
      | Some (n, r') => Some (JNum n, r')
      | None => None
      end
    end
  end
with parse_elements (fuel : nat) (s : jsstring) {struct fuel}
  : option (list JSON * jsstring) :=
  match fuel with
  | O => None
  | S fuel' =>
    match parse_value fuel' s with
    | Some (v, r) =>
      match skip_ws r with
      | 44%N :: r' =>
        match parse_elements fuel' r' with
        | Some (l, r'') => Some (v :: l, r'')
        | None => None
        end
      | 93%N :: r' => Some ([v], r')
      | _ => None
      end
    | None => None
    end
  end
with parse_members (fuel : nat) (s : jsstring) {struct fuel}
  : option (list (jsstring * JSON) * jsstring) :=
  match fuel with
  | O => None
  | S fuel' =>
    match skip_ws s with
    | 34%N :: r =>
      match parse_string_body r with
      | Some (k, r1) =>
        match skip_ws r1 with
        | 58%N :: r2 =>
          match parse_value fuel' r2 with
          | Some (v, r3) =>
            match skip_ws r3 with
            | 44%N :: r4 =>
              match parse_members fuel' r4 with
              | Some (fs, r5) => Some ((k, v) :: fs, r5)
              | None => None
              end
            | 125%N :: r4 => Some ([(k, v)], r4)
            | _ => None
            end
          | None => None
          end
        | _ => None
        end
      | None => None
      end
    | _ => None
    end
  end.

Definition parse (s : jsstring) : option JSON :=
  match parse_value (2 * length s + 2) s with
  | Some (v, r) => match skip_ws r with [] => Some v | _ => None end
  | None => None
  end.

Definition hex_digit (n : N) : N :=
  if (n <? 10)%N then (48 + n)%N else (87 + n)%N.

(** The escapes of [JSON.stringify] in a string of well-formed UTF-16. *)
Fixpoint quote_body (s : jsstring) : jsstring :=
  match s with
  | [] => []
  | c :: r =>
    (if (c =? 34)%N then js "\" ++ dquote
     else if (c =? 92)%N then js "\\"
     else if (c =? 8)%N then js "\b"
     else if (c =? 12)%N then js "\f"
     else if (c =? 10)%N then js "\n"
     else if (c =? 13)%N then js "\r"
     else if (c =? 9)%N then js "\t"
     else if (c <? 32)%N
          then js "\u00" ++ [hex_digit (c / 16); hex_digit (c mod 16)]
     else [c]) ++ quote_body r
  end.

Definition quote (s : jsstring) : jsstring := dquote ++ quote_body s ++ dquote.

(** The least [m], from [m] on, such that [b] divides [10^m]: the number
    of decimals of a fraction of denominator [b]; the search stops after
    [fuel] steps, beyond the decimals of any double. *)
Fixpoint find_scale (fuel : nat) (b m : Z) : Z :=
  match fuel with
  | O => m
  | S fuel' =>
    if ((10 ^ m) mod b =? 0)%Z then m else find_scale fuel' b (m + 1)
  end.

Fixpoint drop_zeros (s : jsstring) : jsstring :=
  match s with
  | c :: r => if (c =? 48)%N then drop_zeros r else s
  | [] => []
  end.

(** The last steps of [Number::toString] for the digits [digits] of a
    positive number, without trailing zero, the number being
    [0.digits * 10^n]. *)
Definition format_decimal (digits : jsstring) (n : Z) : jsstring :=
  let k := Z.of_nat (length digits) in
  if ((k <=? n) && (n <=? 21))%Z
  then digits ++ repeat 48%N (Z.to_nat (n - k))
  else if ((0 <? n) && (n <=? 21))%Z
  then firstn (Z.to_nat n) digits ++ js "." ++ skipn (Z.to_nat n) digits
  else if ((-6 <? n) && (n <=? 0))%Z
  then js "0." ++ repeat 48%N (Z.to_nat (- n)) ++ digits
  else
    match digits with
    | [] => []
    | d :: rest =>
      (d :: match rest with [] => [] | _ => js "." ++ rest end)
      ++ js "e" ++ (if (n - 1 <? 0)%Z then js "-" else js "+")
      ++ dec (Z.abs (n - 1))
    end.

(** [Number::toString] on the exact decimal expansion of a number. *)
Definition number_to_string (q : Q) : jsstring :=
  let a := Qnum (Qred q) in
  let b := Z.pos (Qden (Qred q)) in
  let m := find_scale 1100 b 0 in
  let s0 := (Z.abs a * 10 ^ m / b)%Z in
  if (s0 =? 0)%Z then js "0"
  else
    let digits0 := dec s0 in
    let digits := rev (drop_zeros (rev digits0)) in
    let n := (Z.of_nat (length digits0) - m)%Z in
    (if (a <? 0)%Z then js "-" else []) ++ format_decimal digits n.

Fixpoint stringify_at (indent : jsstring) (v : JSON) : jsstring :=
  let inner := indent ++ js "  " in
  match v with
  | JNull => js "null"
  | JBool true => js "true"
  | JBool false => js "false"
  | JNum n => number_to_string n
  | JStr s => quote s
  | JArr [] => js "[]"
  | JArr l =>
    js "[" ++ nl
    ++ join (js "," ++ nl) (map (fun x => inner ++ stringify_at inner x) l)
    ++ nl ++ indent ++ js "]"
  | JObj [] => js "{}"
  | JObj fs =>
    js "{" ++ nl
    ++ join (js "," ++ nl)
            (map (fun kv => inner ++ quote (fst kv) ++ js ": "
                            ++ stringify_at inner (snd kv)) fs)
    ++ nl ++ indent ++ js "}"
  end.

Definition stringify (v : JSON) : jsstring := stringify_at [] v.

(** What a template literal prints for a builtin function. *)
Definition native (name : jsstring) : jsstring :=
  js "function " ++ name ++ js "() { [native code] }".

(** The members of [Object.prototype]: its functions, and [__proto__],
    which gives the prototype itself. *)
Definition object_prototype_member (k : jsstring) : option jsstring :=
  if str_eqb k (js "constructor") then Some (native (js "Object"))
  else if includes [ js "hasOwnProperty"; js "isPrototypeOf";
                     js "propertyIsEnumerable"; js "toLocaleString";
                     js "toString"; js "valueOf";
                     js "__defineGetter__"; js "__defineSetter__";
                     js "__lookupGetter__"; js "__lookupSetter__" ] k
  then Some (native k)
  else if str_eqb k (js "__proto__") then Some (js "[object Object]")
  else None.

Definition host : Host :=
  {| JSON_parse := parse;
     JSON_stringify := stringify;
     Number_toString := number_to_string;
     Object_prototype_member := object_prototype_member;
     null_read_message :=
       fun k => js "Cannot read properties of null (reading '" ++ k ++ js "')" |}.

End Reference.

(* ================================================================== *)
(** * Notions used to state the properties *)
(* ================================================================== *)

(** ** The emptiness test *)

Definition METADATA_KEYS : list jsstring :=
  [js "code"; js "data"; js "message"; js "recordTime"; js "msg"].

Definition LISTING_KEYS : list jsstring :=
  [js "items"; js "item_list"; js "notes"; js "note_list"; js "list";
   js "results"; js "video_list"].

(** The emptiness test in the words of the specification, on a value that
    may be absent. *)
Inductive spec_empty : option JSON -> Prop :=
| empty_absent : spec_empty None
| empty_null : spec_empty (Some JNull)
| empty_sequence (l : list JSON) :
    length l = 0 -> spec_empty (Some (JArr l))
| empty_no_keys (fs : list (jsstring * JSON)) :
    length (keys fs) = 0 -> spec_empty (Some (JObj fs))
| empty_wrapper (fs : list (jsstring * JSON)) (d : JSON) :
    lookup fs (js "data") = Some d ->
    spec_empty (Some d) ->
    (forall k, In k (keys fs) -> k <> js "data" -> In k METADATA_KEYS) ->
    spec_empty (Some (JObj fs))
| empty_listing (fs : list (jsstring * JSON)) (k : jsstring) (l : list JSON) :
    In k LISTING_KEYS ->
    lookup fs k = Some (JArr l) ->
    length l = 0 ->
    spec_empty (Some (JObj fs)).

(** ** Traces *)

(** The fallback search was invoked: the trace holds a request to the
    search service. *)
Definition fallback_invoked (t : list Event) : bool := existsb is_event_api t.

(** The rule of the fallback for a handler [call], made of its
    normalisation [normalize], its keyword extraction [extract] and its
    TikHub attempt [attempt]:
    - the search service is called exactly when the arguments were
      normalised, a keyword was extracted from them and the attempt ended
      with [tikhubFailed] set;
    - it is not called when the attempt returned a result, nor when no
      keyword was extracted;
    - in the trace every [fetch] comes before the request to the search
      service, and there is at most one such request. *)
Definition fallback_rule
    (normalize : option JSON -> option JSON)
    (extract : JSON -> Completion (option jsstring))
    (attempt : JSON -> Prog Attempt)
    (call : option JSON -> Prog ToolResult)
    (w : World) (raw : option JSON) : Prop :=
  let t := snd (run w (call raw)) in
  (fallback_invoked t = true <->
   exists args keyword st,
     normalize raw = Some args
     /\ extract args = Normal (Some keyword)
     /\ fst (run w (attempt args)) = Continue st
     /\ tikhubFailed st = true)
  /\ (forall args r,
        normalize raw = Some args ->
        fst (run w (attempt args)) = Returned r ->
        fallback_invoked t = false)
  /\ (forall args,
        normalize raw = Some args ->
        extract args = Normal None ->
        fallback_invoked t = false)
  /\ exists fetches fb,
       t = fetches ++ fb
       /\ forallb is_event_fetch fetches = true
       /\ forallb is_event_api fb = true
       /\ length fb <= 1.

(** The control flow shared by the two handlers, over the parts in which
    they differ. *)
Definition handler
    (normalize : option JSON -> option JSON)
    (extract : JSON -> Completion (option jsstring))
    (attempt : JSON -> Prog Attempt)
    (fallback : Failure -> option jsstring -> Prog ToolResult)
    (malformed : ToolResult)
    (raw : option JSON) : Prog ToolResult :=
  match normalize raw with
  | None => Ret malformed
  | Some args =>
    match extract args with
    | Abrupt e => Ret (Throws e)
    | Normal keyword =>
      a <- attempt args ;;
      match a with
      | Returned r => Ret r
      | Continue st => fallback st keyword
      end
    end
  end.

(** Every [fetch] of the trace carries [AbortSignal.timeout(25000)] and
    every request to the search service carries the signal [fallback]. *)
Definition signals (fallback : option Z) (t : list Event) : Prop :=
  Forall (fun e =>
            match e with
            | EvFetch req => f_signal req = Some 25000%Z
            | EvApi req => a_signal req = fallback
            end) t.

(** ** Classification *)

(** A non-null object, an array being one: [v && typeof v === "object"]. *)
Definition is_object_value (o : option JSON) : bool :=
  match o with
  | Some (JArr _) | Some (JObj _) => true
  | _ => false
  end.

(** The text shown for a serialisation [s]: cut at 50000 units and
    followed by [marker] when it is longer. *)
Definition shown (s marker : jsstring) : jsstring :=
  if (50000 <? len s)%Z then slice0 50000 s ++ marker else s.

Definition marker_structured : jsstring :=
  nl ++ nl ++ js "... (truncated, result too large)".

Definition marker_unstructured : jsstring :=
  nl ++ nl ++ js "... (truncated)".

(** ** The fallback invoker *)

(** An optional text that is present: neither missing nor empty. *)
Definition present (o : option jsstring) : list jsstring :=
  match o with
  | Some s => if nonempty s then [s] else []
  | None => []
  end.

(** The lines of the result of rank [rank] in a rendered list: its title
    under its rank, its URL, its snippet when present, its enriched
    content when present under a line that announces it, and an empty
    line. *)
Definition rendered_result (rank : nat) (r : SearchResult) : list jsstring :=
  [ dec (Z.of_nat rank) ++ js ". " ++ title r; js "   " ++ url r ]
  ++ flat_map (fun s => [js "   " ++ s]) (present (snippet r))
  ++ flat_map (fun c => [ []; js "   --- Page Content ---"; js "   " ++ c ])
              (present (content r))
  ++ [ [] ].

(** The rendered list: the results in their order, ranked from 1. *)
Definition rendered_results (results : list SearchResult) : list jsstring :=
  flat_map (fun p => rendered_result (fst p) (snd p))
           (combine (seq 1 (length results)) results).

(** The text of a fallback: the marker, the line of the search and the
    rendered list, one line each. *)
Definition rendered_fallback (marker : jsstring) (data : SearchResponse)
    (results : list SearchResult) : jsstring :=
  join nl ([ marker;
             js "Search: " ++ dquote ++ sr_query data ++ dquote
             ++ js " (" ++ dec (Z.of_nat (length results))
             ++ js " results via " ++ sr_provider data ++ js ")";
             [] ]
           ++ rendered_results results).

(** What one run of the invoker must look like: the request it issues,
    with the signal [signal] of the host, and its result, [None] being
    [null]. *)
Definition fallback_contract
    (invoke : jsstring -> option Platform -> Prog (option jsstring))
    (marker : jsstring) (signal : option Z)
    (w : World) (keyword : jsstring) (platform : option Platform) : Prop :=
  let query :=
    match platform with
    | Some (Label label) =>
      if nonempty label then label ++ js " " ++ keyword else keyword
    | Some (Member printed) => printed ++ js " " ++ keyword
    | None => keyword
    end in
  let request :=
    {| a_method := js "POST"; a_path := js "/search";
       a_body := Some (JObj [ (js "query", JStr query);
                              (js "count", JNum 5);
                              (js "enrich", JBool true);
                              (js "max_chars", JNum 5000) ]);
       a_signal := signal |} in
  let out := run w (invoke keyword platform) in
  snd out = [EvApi request]
  /\ match search_stack w request with
     | ApiJson data =>
       match sr_results data with
       | Some (r :: rs) =>
         fst out = Some (rendered_fallback marker data (r :: rs))
         /\ exists rest, rendered_fallback marker data (r :: rs) = marker ++ rest
       | Some [] | None => fst out = None
       end
     | ApiThrows _ | ApiNotOk _ _ | ApiBodyThrows _ => fst out = None
     end.

(** ** Remote sides used in examples *)

(** A remote side where TikHub is unreachable and the search service
    finds nothing. *)
Definition world_down : World :=
  {| tikhub := fun _ => FetchThrows (js "fetch failed");
     search_stack :=
       fun _ => ApiJson {| sr_query := []; sr_provider := [];
                           sr_results := Some [] |} |}.

(* ================================================================== *)
(** * The tools over the search-stack REST API *)
(* ================================================================== *)

(** What the HTTP helper observes of an exchange whose JSON body the
    caller casts to the shape [R]: [fetch] rejected, [message] being what
    a [catch] clause reads from the error; a response that is not [ok];
    a body that is not JSON; or the parsed body. *)
Inductive Reply (R : Type) : Type :=
| ReplyThrows (message : jsstring)
| ReplyNotOk (status : Z) (text : jsstring)
| ReplyBodyThrows (message : jsstring)
| ReplyJson (data : R).

Arguments ReplyThrows {R} message.
Arguments ReplyNotOk {R} status text.
Arguments ReplyBodyThrows {R} message.
Arguments ReplyJson {R} data.

(** Programs that call the REST API. *)
Inductive Rest (R A : Type) : Type :=
| Finish (a : A)
| Call (req : ApiRequest) (k : Reply R -> Rest R A).

Arguments Finish {R A} a.
Arguments Call {R A} req k.

Fixpoint rest_bind (R A B : Type) (p : Rest R A) (f : A -> Rest R B)
  : Rest R B :=
  match p with
  | Finish a => f a
  | Call req k => Call req (fun o => rest_bind (k o) f)
  end.

(** Running a program against a service: its result and its requests. *)
Fixpoint run_rest (R A : Type) (service : ApiRequest -> Reply R)
    (p : Rest R A) : A * list ApiRequest :=
  match p with
  | Finish a => (a, [])
  | Call req k =>
    let (a, t) := run_rest service (k (service req)) in (a, req :: t)
  end.

(** [e instanceof Error ? e.message : String(e)] for the exceptions of
    the model, which are all errors. *)
Definition message_of (e : Exn) : jsstring :=
  match e with JsError m | JsTypeError m => m end.

(** [s.startsWith(sub)] and [s.includes(sub)]. *)
Fixpoint starts_with (sub s : jsstring) : bool :=
  match sub, s with
  | [], _ => true
  | c :: sub', d :: s' => (c =? d)%N && starts_with sub' s'
  | _ :: _, [] => false
  end.

Fixpoint str_includes (s sub : jsstring) : bool :=
  starts_with sub s
  || match s with
     | [] => false
     | _ :: r => str_includes r sub
     end.

(** [obj[k] = v] on an object under construction. *)
Fixpoint assign (k : jsstring) (v : JSON) (fs : list (jsstring * JSON))
  : list (jsstring * JSON) :=
  match fs with
  | [] => [(k, v)]
  | (k', v') :: r =>
    if str_eqb k' k then (k', v) :: r else (k', v') :: assign k v r
  end.

(** [if (x !== undefined) body[k] = x]. *)
Definition assign_defined (k : jsstring) (x : option JSON)
    (body : list (jsstring * JSON)) : list (jsstring * JSON) :=
  match x with
  | Some v => assign k v body
  | None => body
  end.

(** The parameters of [web_search], as its schema declares them. *)
Record SearchParams : Type := {
  sp_query : jsstring;
  sp_count : option Z;
  sp_enrich : option bool;
  sp_max_chars : option Z;
  sp_provider : option jsstring;
  sp_render : option bool;
  sp_concurrency : option Z
}.

(** The reply of [POST /search] in the shape [web_search] casts it to. *)
Record SearchHit : Type := {
  hit_title : jsstring;
  hit_url : jsstring;
  hit_snippet : option jsstring;
  hit_content : option jsstring;
  hit_fetch_error : option jsstring
}.

Record SearchPage : Type := {
  page_query : jsstring;
  page_provider : jsstring;
  page_results : list SearchHit
}.

(** The parameters of [web_fetch] and the reply of [POST /fetch]. *)
Record FetchParams : Type := {
  fp_url : jsstring;
  fp_render : option bool;
  fp_max_chars : option Z;
  fp_timeout : option Z;
  fp_bypass_cache : option bool;
  fp_headers : option jsstring
}.

Record FetchPage : Type := {
  pg_url : jsstring;
  pg_title : option jsstring;
  pg_text : option jsstring;
  pg_status_code : option Z;
  pg_needs_login : option bool;
  pg_has_cookies : option bool;
  pg_cached : option bool
}.

(** The URL builtins of the host: [new URL(u).hostname], which throws on
    a string that is not a URL, and [encodeURIComponent]. *)
Class UrlHost : Type := {
  URL_hostname : jsstring -> Completion jsstring;
  encodeURIComponent : jsstring -> jsstring
}.

(** An optional string that is truthy. *)
Definition truthy_string (o : option jsstring) : bool :=
  match o with Some s => nonempty s | None => false end.

(** [hostname.replace(/^www\./, "")]. *)
Definition strip_www (hostname : jsstring) : jsstring :=
  if starts_with (js "www.") hostname
  then skipn 4 hostname
  else hostname.

Definition option_bool_json (o : option bool) : option JSON :=
  match o with Some b => Some (JBool b) | None => None end.

Definition option_num_json (o : option Z) : option JSON :=
  match o with Some n => Some (JNum n) | None => None end.

Definition option_str_json (o : option jsstring) : option JSON :=
  match o with Some s => Some (JStr s) | None => None end.

Definition LOGIN_REQUIRED : jsstring := js "** LOGIN REQUIRED **".

(** ** The tools of the stdio server *)

Module ProxyTools.
Section WithHost.
Context `{H : Host} `{U : UrlHost}.

(** [api(method, path, body)] for a reply cast to [R]. *)
Definition api (R : Type) (method path : jsstring) (body : option JSON)
  : Rest R (Completion R) :=
  Call {| a_method := method; a_path := path; a_body := body;
          a_signal := None |}
       (fun o =>
          Finish match o with
                 | ReplyThrows m => Abrupt (JsError m)
                 | ReplyNotOk status text =>
                   Abrupt (JsError (method ++ js " " ++ path ++ js " → "
                                    ++ dec status ++ js ": " ++ text))
                 | ReplyBodyThrows m => Abrupt (JsError m)
                 | ReplyJson data => Normal data
                 end).

(** The body that the [web_search] handler builds. *)
Definition web_search_body (params : SearchParams) : list (jsstring * JSON) :=
  let body := [(js "query", JStr (sp_query params))] in
  let body := assign_defined (js "count") (option_num_json (sp_count params)) body in
  let body := assign_defined (js "enrich") (option_bool_json (sp_enrich params)) body in
  let body := assign_defined (js "max_chars")
                             (option_num_json (sp_max_chars params)) body in
  let body := assign_defined (js "provider")
                             (option_str_json (sp_provider params)) body in
  let body := assign_defined (js "render") (option_bool_json (sp_render params)) body in
  let body := assign_defined (js "concurrency")
                             (option_num_json (sp_concurrency params)) body in
  body.

(** The lines pushed by one turn of the loop over the results. *)
Definition hit_lines (i : nat) (r : SearchHit) : list jsstring :=
  [dec (Z.of_nat (i + 1)) ++ js ". " ++ hit_title r;
   js "   " ++ hit_url r]
  ++ (if truthy_string (hit_snippet r)
      then [js "   " ++ match hit_snippet r with Some s => s | None => [] end]
      else [])
  ++ (if truthy_string (hit_content r)
      then [ []; js "   --- Page Content ---";
             js "   " ++ match hit_content r with Some c => c | None => [] end ]
      else [])
  ++ (if truthy_string (hit_fetch_error r)
      then [js "   [Fetch error: "
            ++ match hit_fetch_error r with Some e => e | None => [] end
            ++ js "]"]
      else [])
  ++ [ [] ].

Fixpoint hits_lines (i : nat) (rs : list SearchHit) : list jsstring :=
  match rs with
  | [] => []
  | r :: rest => hit_lines i r ++ hits_lines (S i) rest
  end.

Definition search_line (data : SearchPage) : jsstring :=
  js "Search: " ++ dquote ++ page_query data ++ dquote
  ++ js " (" ++ dec (Z.of_nat (length (page_results data)))
  ++ js " results via " ++ page_provider data ++ js ")".

(** The handler of [web_search]: an error of [api] is not caught. *)
Definition web_search (params : SearchParams) : Rest SearchPage ToolResult :=
  rest_bind
    (api SearchPage (js "POST") (js "/search")
         (Some (JObj (web_search_body params))))
    (fun r =>
       match r with
       | Abrupt e => Finish (Throws e)
       | Normal data =>
         Finish (Result (join nl ([search_line data; []]
                                  ++ hits_lines 0 (page_results data)))
                        false)
       end).

(** The body that the [web_fetch] handler builds; [None] when
    [JSON.parse] rejects the headers. *)
Definition web_fetch_body (params : FetchParams)
  : option (list (jsstring * JSON)) :=
  let body := [(js "url", JStr (fp_url params))] in
  let body := assign_defined (js "render") (option_bool_json (fp_render params)) body in
  let body := assign_defined (js "max_chars")
                             (option_num_json (fp_max_chars params)) body in
  let body := assign_defined (js "timeout")
                             (option_num_json (fp_timeout params)) body in
  let body := assign_defined (js "bypass_cache")
                             (option_bool_json (fp_bypass_cache params)) body in
  match fp_headers params with
  | Some headers =>
    match JSON_parse headers with
    | Some v => Some (assign (js "headers") v body)
    | None => None
    end
  | None => Some body
  end.

(** The lines of a page that does not need a login. *)
Definition page_lines (data : FetchPage) : list jsstring :=
  (if truthy_string (pg_title data)
   then [js "Title: " ++ match pg_title data with Some t => t | None => [] end]
   else [])
  ++ (if nonempty (pg_url data) then [js "URL: " ++ pg_url data] else [])
  ++ match pg_status_code data with
     | Some c => if (c =? 0)%Z then [] else [js "Status: " ++ dec c]
     | None => []
     end
  ++ match pg_cached data with
     | Some true => [js "(cached)"]
     | _ => []
     end
  ++ [ [];
       if truthy_string (pg_text data)
       then match pg_text data with Some t => t | None => [] end
       else js "(no content extracted)" ].

(** The lines of a page that needs a login, for the domain [domain]. *)
Definition login_lines (data : FetchPage) (domain : jsstring) : list jsstring :=
  [ LOGIN_REQUIRED; [];
    match pg_has_cookies data with
    | Some true =>
      js "The cookies for " ++ domain
      ++ js " appear to have expired. Please paste fresh cookies from your browser."
    | _ =>
      js "This site requires login. Please paste your browser cookies for "
      ++ domain ++ js "."
    end;
    js "(DevTools → Application → Cookies, or copy the Cookie header value)";
    [];
    js "After saving cookies with cookies_update, retry this fetch with bypass_cache=true." ].

(** The handler of [web_fetch]. *)
Definition web_fetch (params : FetchParams) : Rest FetchPage ToolResult :=
  match web_fetch_body params with
  | None => Finish (Result (js "Invalid headers JSON string") true)
  | Some body =>
    rest_bind
      (api FetchPage (js "POST") (js "/fetch") (Some (JObj body)))
      (fun r =>
         match r with
         | Abrupt e => Finish (Throws e)
         | Normal data =>
           match pg_needs_login data with
           | Some true =>
             match URL_hostname (pg_url data) with
             | Abrupt e => Finish (Throws e)
             | Normal hostname =>
               Finish (Result (join nl (login_lines data (strip_www hostname)))
                              false)
             end
           | _ => Finish (Result (join nl (page_lines data)) false)
           end
         end)
  end.

End WithHost.
End ProxyTools.

(** ** The tools of the plugin *)

Module PluginTools.
Section WithHost.
Context `{H : Host} `{U : UrlHost}.
Variable API_KEY : jsstring.
Variable PUBLIC_URL : jsstring.
Variable TIKHUB_API_KEY : jsstring.

(** [apiCall(method, path, body, timeoutMs = 28_000)] for a reply cast
    to [R]. *)
Definition apiCall (R : Type) (method path : jsstring) (body : option JSON)
    (timeoutMs : option Z) : Rest R (Completion R) :=
  let timeoutMs := match timeoutMs with Some t => t | None => 28000%Z end in
  Call {| a_method := method; a_path := path; a_body := body;
          a_signal := Some timeoutMs |}
       (fun o =>
          Finish match o with
                 | ReplyThrows m => Abrupt (JsError m)
                 | ReplyNotOk status text =>
                   Abrupt (JsError (method ++ js " " ++ path ++ js " → "
                                    ++ dec status ++ js ": " ++ text))
                 | ReplyBodyThrows m => Abrupt (JsError m)
                 | ReplyJson data => Normal data
                 end).

(** The body that [execute] of [web_search] builds. *)
Definition web_search_body (params : SearchParams) : list (jsstring * JSON) :=
  let body := [(js "query", JStr (sp_query params))] in
  let body := assign_defined (js "count") (option_num_json (sp_count params)) body in
  let body := assign_defined (js "enrich") (option_bool_json (sp_enrich params)) body in
  let body := assign_defined (js "max_chars")
                             (option_num_json (sp_max_chars params)) body in
  let body := assign_defined (js "provider")
                             (option_str_json (sp_provider params)) body in
  let body := assign_defined (js "render") (option_bool_json (sp_render params)) body in
  let body := assign_defined (js "concurrency")
                             (option_num_json (sp_concurrency params)) body in
  body.

Definition hit_lines (i : nat) (r : SearchHit) : list jsstring :=
  [dec (Z.of_nat (i + 1)) ++ js ". " ++ hit_title r;
   js "   " ++ hit_url r]
  ++ (if truthy_string (hit_snippet r)
      then [js "   " ++ match hit_snippet r with Some s => s | None => [] end]
      else [])
  ++ (if truthy_string (hit_content r)
      then [ []; js "   --- Page Content ---";
             js "   " ++ match hit_content r with Some c => c | None => [] end ]
      else [])
  ++ (if truthy_string (hit_fetch_error r)
      then [js "   [Fetch error: "
            ++ match hit_fetch_error r with Some e => e | None => [] end
            ++ js "]"]
      else [])
  ++ [ [] ].

Fixpoint hits_lines (i : nat) (rs : list SearchHit) : list jsstring :=
  match rs with
  | [] => []
  | r :: rest => hit_lines i r ++ hits_lines (S i) rest
  end.

(** The loop of the retry: title, url and snippet only. *)
Definition short_hit_lines (i : nat) (r : SearchHit) : list jsstring :=
  [dec (Z.of_nat (i + 1)) ++ js ". " ++ hit_title r;
   js "   " ++ hit_url r]
  ++ (if truthy_string (hit_snippet r)
      then [js "   " ++ match hit_snippet r with Some s => s | None => [] end]
      else [])
  ++ [ [] ].

Fixpoint short_hits_lines (i : nat) (rs : list SearchHit) : list jsstring :=
  match rs with
  | [] => []
  | r :: rest => short_hit_lines i r ++ short_hits_lines (S i) rest
  end.

Definition search_line (data : SearchPage) : jsstring :=
  js "Search: " ++ dquote ++ page_query data ++ dquote
  ++ js " (" ++ dec (Z.of_nat (length (page_results data)))
  ++ js " results via " ++ page_provider data ++ js ")".

Definition ENRICH_TIMED_OUT : jsstring :=
  js "[Enrich timed out — returning search results without full text]".

(** [{ query, count: params.count || 5, enrich: false }]. *)
Definition fallbackBody (params : SearchParams) : JSON :=
  JObj [ (js "query", JStr (sp_query params));
         (js "count",
          JNum match sp_count params with
               | Some c => if (c =? 0)%Z then 5%Z else c
               | None => 5%Z
               end);
         (js "enrich", JBool false) ].

(** [params.enrich && (msg.includes("TimeoutError") ||
    msg.includes("abort"))]. *)
Definition retries (params : SearchParams) (msg : jsstring) : bool :=
  match sp_enrich params with Some true => true | _ => false end
  && (str_includes msg (js "TimeoutError") || str_includes msg (js "abort")).

(** [execute] of [web_search]: a failed enriched search that looks like a
    timeout is tried once more without enrichment. *)
Definition web_search (params : SearchParams) : Rest SearchPage ToolResult :=
  rest_bind
    (apiCall SearchPage (js "POST") (js "/search")
             (Some (JObj (web_search_body params))) None)
    (fun r =>
       match r with
       | Normal data =>
         Finish (Result (join nl ([search_line data; []]
                                  ++ hits_lines 0 (page_results data)))
                        false)
       | Abrupt e =>
         let msg := message_of e in
         if retries params msg then
           rest_bind
             (apiCall SearchPage (js "POST") (js "/search")
                      (Some (fallbackBody params)) (Some 10000%Z))
             (fun r' =>
                match r' with
                | Normal data =>
                  Finish (Result (join nl ([ENRICH_TIMED_OUT; search_line data; []]
                                           ++ short_hits_lines 0 (page_results data)))
                                 false)
                | Abrupt _ =>
                  Finish (Throws (JsError (js "Search failed: " ++ msg)))
                end)
         else Finish (Throws (JsError (js "Search failed: " ++ msg)))
       end).

(** The body that [execute] of [web_fetch] builds; [None] when
    [JSON.parse] rejects the headers. *)
Definition web_fetch_body (params : FetchParams)
  : option (list (jsstring * JSON)) :=
  let body := [(js "url", JStr (fp_url params))] in
  let body := assign_defined (js "render") (option_bool_json (fp_render params)) body in
  let body := assign_defined (js "max_chars")
                             (option_num_json (fp_max_chars params)) body in
  let body := assign_defined (js "timeout")
                             (option_num_json (fp_timeout params)) body in
  let body := assign_defined (js "bypass_cache")
                             (option_bool_json (fp_bypass_cache params)) body in
  match fp_headers params with
  | Some headers =>
    match JSON_parse headers with
    | Some v => Some (assign (js "headers") v body)
    | None => None
    end
  | None => Some body
  end.

Definition page_lines (data : FetchPage) : list jsstring :=
  (if truthy_string (pg_title data)
   then [js "Title: " ++ match pg_title data with Some t => t | None => [] end]
   else [])
  ++ (if nonempty (pg_url data) then [js "URL: " ++ pg_url data] else [])
  ++ match pg_status_code data with
     | Some c => if (c =? 0)%Z then [] else [js "Status: " ++ dec c]
     | None => []
     end
  ++ match pg_cached data with
     | Some true => [js "(cached)"]
     | _ => []
     end
  ++ [ [];
       if truthy_string (pg_text data)
       then match pg_text data with Some t => t | None => [] end
       else js "(no content extracted)" ].

(** The lines of a page that needs a login: they carry the link to the
    Cookie Catcher for [https://domain]. *)
Definition login_lines (data : FetchPage) (domain : jsstring) : list jsstring :=
  let loginTarget := js "https://" ++ domain in
  let link := PUBLIC_URL ++ js "/cookie-catcher?key=" ++ encodeURIComponent API_KEY
              ++ js "&url=" ++ encodeURIComponent loginTarget in
  [ LOGIN_REQUIRED; [];
    match pg_has_cookies data with
    | Some true => domain ++ js " 的 Cookie 已过期，需要重新登录。"
    | _ => domain ++ js " 需要登录才能访问完整内容。"
    end;
    [];
    js "请在浏览器中打开以下链接登录，Cookie 会自动保存：";
    link;
    [];
    js "登录完成后告诉我，我会用 bypass_cache=true 重新抓取。" ].

(** [execute] of [web_fetch]. *)
Definition web_fetch (params : FetchParams) : Rest FetchPage ToolResult :=
  match web_fetch_body params with
  | None => Finish (Throws (JsError (js "Invalid headers JSON string")))
  | Some body =>
    rest_bind
      (apiCall FetchPage (js "POST") (js "/fetch") (Some (JObj body)) None)
      (fun r =>
         match r with
         | Abrupt e => Finish (Throws e)
         | Normal data =>
           match pg_needs_login data with
           | Some true =>
             match URL_hostname (pg_url data) with
             | Abrupt e => Finish (Throws e)
             | Normal hostname =>
               Finish (Result (join nl (login_lines data (strip_www hostname)))
                              false)
             end
           | _ => Finish (Result (join nl (page_lines data)) false)
           end
         end)
  end.

(** [execute] of [cookie_catcher_link]; [url] is [None] when the
    parameter is left out. *)
Definition cookie_catcher_link (url : option jsstring) : ToolResult :=
  let targetUrl := if truthy_string url
                   then match url with Some u => u | None => [] end
                   else [] in
  let link := PUBLIC_URL ++ js "/cookie-catcher?key="
              ++ encodeURIComponent API_KEY in
  let link := if nonempty targetUrl
              then link ++ js "&url=" ++ encodeURIComponent targetUrl
              else link in
  Result (js "请在浏览器中打开以下链接登录，Cookie 会自动保存：" ++ nl ++ link
          ++ nl ++ nl ++ js "登录完成后告诉我，我会重新抓取。") false.

(** The names of the tools that [register] registers, in order: the
    TikHub tool only under [if (TIKHUB_API_KEY)]. *)
Definition register : list jsstring :=
  [ js "web_search"; js "web_fetch"; js "cookies_list"; js "cookies_update";
    js "cookies_delete"; js "cookie_catcher_link" ]
  ++ (if nonempty TIKHUB_API_KEY then [js "tikhub_call"] else []).

End WithHost.
End PluginTools.

(** An executable [UrlHost]: the host name of an absolute URL with an
    authority (a scheme, [//], an optional user information up to [@],
    the host, in lower case, up to the port or the path), and the
    percent-encoding of the UTF-8 bytes of every character outside the
    unreserved set, for strings of well-formed UTF-16. *)
Module ReferenceUrl.

Definition is_alpha (c : N) : bool :=
  ((97 <=? c) && (c <=? 122) || (65 <=? c) && (c <=? 90))%N.

(** The rest of a scheme, up to [://]. *)
Fixpoint scheme_rest (s : jsstring) : option jsstring :=
  match s with
  | 58%N :: 47%N :: 47%N :: r => Some r
  | c :: r =>
    if (is_alpha c || (48 <=? c) && (c <=? 57)
        || (c =? 43) || (c =? 45) || (c =? 46))%N
    then scheme_rest r else None
  | [] => None
  end.

Definition after_scheme (s : jsstring) : option jsstring :=
  match s with
  | c :: r => if is_alpha c then scheme_rest r else None
  | [] => None
  end.

(** The authority: up to the first of [/ ? # \]. *)
Fixpoint authority (s : jsstring) : jsstring :=
  match s with
  | c :: r =>
    if ((c =? 47) || (c =? 63) || (c =? 35) || (c =? 92))%N then []
    else c :: authority r
  | [] => []
  end.

(** What follows the last [@]. *)
Fixpoint after_last_at (s : jsstring) : jsstring :=
  match s with
  | [] => []
  | _ :: r => if existsb (N.eqb 64) s then after_last_at r else s
  end.

Fixpoint until (stop : N) (s : jsstring) : jsstring :=
  match s with
  | c :: r => if (c =? stop)%N then [] else c :: until stop r
  | [] => []
  end.

(** The host without its port: an address in brackets, or the part
    before the first colon. *)
Definition host_part (a : jsstring) : jsstring :=
  match a with
  | 91%N :: r => 91%N :: until 93 r ++ [93%N]
  | _ => until 58 a
  end.

Definition lower (c : N) : N :=
  if ((65 <=? c) && (c <=? 90))%N then (c + 32)%N else c.

Definition hostname (u : jsstring) : Completion jsstring :=
  match after_scheme u with
  | Some r =>
    match map lower (host_part (after_last_at (authority r))) with
    | [] => Abrupt (JsTypeError (js "Invalid URL"))
    | h => Normal h
    end
  | None => Abrupt (JsTypeError (js "Invalid URL"))
  end.

Definition unreserved (c : N) : bool :=
  ((97 <=? c) && (c <=? 122) || (65 <=? c) && (c <=? 90)
   || (48 <=? c) && (c <=? 57)
   || (c =? 45) || (c =? 95) || (c =? 46) || (c =? 33) || (c =? 126)
   || (c =? 42) || (c =? 39) || (c =? 40) || (c =? 41))%N.

Definition hex_upper (n : N) : N :=
  if (n <? 10)%N then (48 + n)%N else (55 + n)%N.

Definition percent (b : N) : jsstring :=
  [37%N; hex_upper (b / 16); hex_upper (b mod 16)].

Definition encode_unit (c : N) : jsstring :=
  if unreserved c then [c]
  else if (c <? 128)%N then percent c
  else if (c <? 2048)%N then percent (192 + c / 64) ++ percent (128 + c mod 64)
  else percent (224 + c / 4096) ++ percent (128 + (c / 64) mod 64)
       ++ percent (128 + c mod 64).

(** A character outside the Basic Multilingual Plane, from its two
    surrogates. *)
Definition encode_pair (hi lo : N) : jsstring :=
  let cp := (65536 + (hi - 55296) * 1024 + (lo - 56320))%N in
  percent (240 + cp / 262144) ++ percent (128 + (cp / 4096) mod 64)
  ++ percent (128 + (cp / 64) mod 64) ++ percent (128 + cp mod 64).

Fixpoint encode (s : jsstring) : jsstring :=
  match s with
  | hi :: ((lo :: r) as t) =>
    if ((55296 <=? hi) && (hi <=? 56319) && (56320 <=? lo) && (lo <=? 57343))%N
    then encode_pair hi lo ++ encode r
    else encode_unit hi ++ encode t
  | [c] => encode_unit c
  | [] => []
  end.

Definition host : UrlHost :=
  {| URL_hostname := hostname; encodeURIComponent := encode |}.

End ReferenceUrl.

(* ================================================================== *)
(** * Notions used by the further properties *)
(* ================================================================== *)

(** The keys read by [extractKeyword], in the order of its loop. *)
Definition KEYWORD_KEYS : list jsstring :=
  [js "keyword"; js "query"; js "search_keyword"; js "keywords"].

(** [typeof v === "string" && v]: the value when it is a non-empty
    string. *)
Definition nonempty_string (o : option JSON) : option jsstring :=
  match o with
  | Some (JStr s) => if nonempty s then Some s else None
  | _ => None
  end.

(** The test [code && code !== 200] does not fire: the code is missing
    or falsy, or it is the number 200. *)
Definition code_passes (code : option JSON) : bool :=
  negb (truthy_u code)
  || match code with Some (JNum n) => Qeq_bool n 200 | _ => false end.

(** The way the plugin reports what the server returns: an error result
    becomes a thrown [Error] with the same message. *)
Definition surface (r : ToolResult) : ToolResult :=
  match r with
  | Result text true => Throws (JsError text)
  | _ => r
  end.

(** The search service does not look at the signal of a request. *)
Definition signal_blind (w : World) : Prop :=
  forall method path body s1 s2,
    search_stack w {| a_method := method; a_path := path; a_body := body;
                      a_signal := s1 |} =
    search_stack w {| a_method := method; a_path := path; a_body := body;
                      a_signal := s2 |}.

(** A metadata wrapper around a payload, as TikHub nests them. *)
Definition wrapper (d : JSON) : JSON :=
  JObj [ (js "code", JNum 0); (js "data", d); (js "message", JNull);
         (js "recordTime", JStr (js "2026-01-01 00:00:00")) ].

(** A reply is taken as a success: it is not [null], carries no truthy
    [error], and either has no [result] object or has one whose code
    passes and whose [data] the test [isEmpty] does not find empty. *)
Definition reply_succeeds (isEmpty : option JSON -> bool) (data : JSON) : bool :=
  match data with
  | JNull => false
  | _ =>
    negb (truthy_u (get data (js "error")))
    && match get data (js "result") with
       | Some result =>
         if is_object_value (Some result)
         then code_passes (get result (js "code"))
              && negb (isEmpty (get result (js "data")))
         else true
       | None => true
       end
  end.

(** The message of the error that the HTTP helper throws for a reply,
    [None] for a reply that it returns. *)
Definition failure_message (R : Type) (method path : jsstring) (o : Reply R)
  : option jsstring :=
  match o with
  | ReplyThrows m => Some m
  | ReplyNotOk status text =>
    Some (method ++ js " " ++ path ++ js " → " ++ dec status ++ js ": " ++ text)
  | ReplyBodyThrows m => Some m
  | ReplyJson _ => None
  end.

(** The request of the primary call: [fetch(TIKHUB_URL, ...)] with the
    key as bearer and a signal of 25 seconds. *)
Definition primary_request (key tool_name : jsstring) (args : JSON)
  : FetchRequest :=
  {| f_url := js "https://mcp.tikhub.io/tools/call";
     f_method := js "POST";
     f_authorization := js "Bearer " ++ key;
     f_content_type := js "application/json";
     f_tool_name := tool_name;
     f_arguments := args;
     f_signal := Some 25000%Z |}.

(** The seven keys of the body of [web_search]. *)
Definition SEARCH_BODY_KEYS : list jsstring :=
  [js "query"; js "count"; js "enrich"; js "max_chars"; js "provider";
   js "render"; js "concurrency"].

(** The request of [web_search] and the request of its retry. *)
Definition first_request (params : SearchParams) (signal : option Z)
  : ApiRequest :=
  {| a_method := js "POST"; a_path := js "/search";
     a_body := Some (JObj (PluginTools.web_search_body params));
     a_signal := signal |}.

Definition second_request (params : SearchParams) : ApiRequest :=
  {| a_method := js "POST"; a_path := js "/search";
     a_body := Some (PluginTools.fallbackBody params);
     a_signal := Some 10000%Z |}.

(** A line that cannot be taken for the first line of a result: it is
    empty or it starts with three spaces. *)
Definition is_indented (l : jsstring) : bool :=
  match l with
  | [] => true
  | _ => starts_with (js "   ") l
  end.

(** [block] is the block of lines of a result of rank [rank]: the line
    "{rank}. {title}", the line of the URL under three spaces, then only
    lines that are empty or indented. *)
Definition opens_block (rank : nat) (ttl u : jsstring)
    (block : list jsstring) : Prop :=
  exists more,
    block = (dec (Z.of_nat rank) ++ js ". " ++ ttl) :: (js "   " ++ u) :: more
    /\ forallb is_indented more = true.

(** [blocks] are the blocks of [results], one for each, in their order
    and ranked from 1. *)
Definition listed_in_order (A : Type) (ttl u : A -> jsstring)
    (results : list A) (blocks : list (list jsstring)) : Prop :=
  length blocks = length results
  /\ forall k r,
       nth_error results k = Some r ->
       exists block,
         nth_error blocks k = Some block
         /\ opens_block (k + 1) (ttl r) (u r) block.

(** The request of [web_fetch] for a body. *)
Definition fetch_request (body : list (jsstring * JSON)) (signal : option Z)
  : ApiRequest :=
  {| a_method := js "POST"; a_path := js "/fetch";
     a_body := Some (JObj body); a_signal := signal |}.

(** The value that [web_fetch] puts under [headers]: what [JSON.parse]
    gives for the string of the caller. *)
Definition parsed_headers `{H : Host} (params : FetchParams) : option JSON :=
  match fp_headers params with
  | Some headers => JSON_parse headers
  | None => None
  end.

(** A reply of [POST /fetch] for a page behind a login, and parameters
    that ask for it. *)
Definition login_page : FetchPage :=
  {| pg_url := js "https://www.youtube.com/feed/history";
     pg_title := None; pg_text := None; pg_status_code := Some 200%Z;
     pg_needs_login := Some true; pg_has_cookies := Some false;
     pg_cached := None |}.

Definition login_page_params : FetchParams :=
  {| fp_url := js "https://www.youtube.com/feed/history";
     fp_render := Some true; fp_max_chars := None; fp_timeout := None;
     fp_bypass_cache := None; fp_headers := None |}.

(* ================================================================== *)
(** * Basic facts *)
(* ================================================================== *)

Lemma str_eqb_eq (a b : jsstring) : str_eqb a b = true <-> a = b.
Proof.
  revert b; induction a as [|x a IH]; intros [|y b]; simpl;
    try (split; [discriminate | congruence]); try tauto.
  rewrite andb_true_iff, N.eqb_eq, IH.
  split; [intros [-> ->]; reflexivity | intros E; injection E; auto].
Qed.

Lemma str_eqb_refl (a : jsstring) : str_eqb a a = true.
Proof. apply str_eqb_eq; reflexivity. Qed.

Lemma str_eqb_sym (a b : jsstring) : str_eqb a b = str_eqb b a.
Proof.
  destruct (str_eqb a b) eqn:E.
  - apply str_eqb_eq in E; subst; symmetry; apply str_eqb_refl.
  - destruct (str_eqb b a) eqn:E'; [|reflexivity].
    apply str_eqb_eq in E'; subst; rewrite str_eqb_refl in E; discriminate.
Qed.

Lemma includes_In (l : list jsstring) (k : jsstring) :
  includes l k = true <-> In k l.
Proof.
  unfold includes; rewrite existsb_exists; split.
  - intros (x & Hx & E); apply str_eqb_eq in E; subst; exact Hx.
  - intros Hk; exists k; split; [exact Hk | apply str_eqb_refl].
Qed.

Lemma has_lookup (fs : list (jsstring * JSON)) (k : jsstring) :
  has fs k = true <-> exists v, lookup fs k = Some v.
Proof.
  unfold has, keys; induction fs as [|[k' v'] r IH]; simpl.
  - split; [discriminate | intros [v E]; discriminate].
  - rewrite (str_eqb_sym k k'); destruct (str_eqb k' k); simpl.
    + split; [intros _; eauto | reflexivity].
    + exact IH.
Qed.

Lemma run_bind (A B : Type) (w : World) (p : Prog A) (f : A -> Prog B) :
  run w (bind p f) =
  (fst (run w (f (fst (run w p)))),
   snd (run w p) ++ snd (run w (f (fst (run w p))))).
Proof.
  induction p as [a | req k IH | req k IH]; simpl.
  - destruct (run w (f a)); reflexivity.
  - rewrite IH; destruct (run w (k (tikhub w req))); reflexivity.
  - rewrite IH; destruct (run w (k (search_stack w req))); reflexivity.
Qed.

Lemma len_nonneg (s : jsstring) : (0 <= len s)%Z.
Proof. unfold len; lia. Qed.

Lemma len_app (s t : jsstring) : len (s ++ t) = (len s + len t)%Z.
Proof. unfold len; rewrite length_app; lia. Qed.

Lemma len_slice0 (n : Z) (s : jsstring) :
  (0 <= n)%Z -> len (slice0 n s) = Z.min n (len s).
Proof. intros Hn; unfold len, slice0; rewrite length_firstn; lia. Qed.

Lemma lookup_In_pair (V : Type) (fs : list (jsstring * V)) (k : jsstring) (v : V) :
  lookup fs k = Some v -> exists k', In (k', v) fs.
Proof.
  induction fs as [|[k' v'] r IH]; simpl; [discriminate|].
  destruct (str_eqb k' k).
  - intros E; injection E as ->; eauto.
  - intros E; destruct (IH E) as [k'' Hk]; eauto.
Qed.

Lemma filter_length_0 (A : Type) (f : A -> bool) (l : list A) :
  Nat.eqb (length (filter f l)) 0 = true <-> forall x, In x l -> f x = false.
Proof.
  rewrite Nat.eqb_eq; induction l as [|a l IH]; simpl.
  - split; [intros _ x [] | reflexivity].
  - destruct (f a) eqn:E; simpl.
    + split; [discriminate | intros Hall].
      specialize (Hall a (or_introl eq_refl)); congruence.
    + rewrite IH; split.
      * intros Hall x [<- | Hx]; auto.
      * intros Hall x Hx; apply Hall; auto.
Qed.

(* ================================================================== *)
(** * The scenarios of the specification, evaluated *)
(* ================================================================== *)

(** Scenario A: an empty listing under code 200 is an empty-data failure;
    the fallback is queried with "TikTok AI" and its two results are
    listed under the marker. *)
Example scenario_A_empty_listing_falls_back :
  let H := Reference.host in
  let tool := js "tiktok_web_fetch_search_video" in
  let args := JObj [(js "keyword", JStr (js "AI")); (js "count", JNum 3)] in
  let reply := JObj [(js "result",
                      JObj [(js "code", JNum 200);
                            (js "data", JObj [(js "item_list", JArr [])])])] in
  let found :=
    {| sr_query := js "TikTok AI"; sr_provider := js "tavily";
       sr_results :=
         Some [ {| title := js "T1"; url := js "http://a";
                   snippet := Some (js "snip"); content := None |};
                {| title := js "T2"; url := js "http://b";
                   snippet := None; content := Some (js "body") |} ] |} in
  let w := {| tikhub := fun _ => FetchJson reply;
              search_stack := fun _ => ApiJson found |} in
  Proxy.classify tool (FetchJson reply) =
    Continue {| tikhubFailed := true;
                failReason := tool ++ js " returned empty data (platform anti-bot)" |}
  /\ fst (run w (Proxy.tikhub_call (js "key") tool (Some args))) =
     Result (js "TikHub 失败 (" ++ tool
             ++ js " returned empty data (platform anti-bot))，已自动回退到网页搜索:"
             ++ nl ++ nl
             ++ js "[TikHub 不可用，已自动回退到网页搜索]" ++ nl
             ++ js "Search: " ++ dquote ++ js "TikTok AI" ++ dquote
             ++ js " (2 results via tavily)" ++ nl ++ nl
             ++ js "1. T1" ++ nl ++ js "   http://a" ++ nl ++ js "   snip" ++ nl
             ++ nl
             ++ js "2. T2" ++ nl ++ js "   http://b" ++ nl ++ nl
             ++ js "   --- Page Content ---" ++ nl ++ js "   body" ++ nl)
            false
  /\ map is_event_api (snd (run w (Proxy.tikhub_call (js "key") tool (Some args))))
     = [false; true].
Proof. vm_compute; repeat split. Qed.

(** Scenario B: code 400 with a message is an upstream failure whose
    reason holds both. *)
Example scenario_B_upstream_code :
  let H := Reference.host in
  let tool := js "tiktok_web_fetch_search_video" in
  let reply := JObj [(js "result",
                      JObj [(js "code", JNum 400);
                            (js "message", JStr (js "rate limited"))])] in
  Plugin.classify tool (FetchJson reply) =
    Continue {| tikhubFailed := true;
                failReason := tool ++ js " returned code 400: rate limited" |}.
Proof. vm_compute; reflexivity. Qed.

(** Scenario C: without a keyword a failing call ends with the message
    that no fallback was possible, and the search service is not called. *)
Example scenario_C_no_keyword :
  let H := Reference.host in
  let tool := js "tiktok_web_fetch_search_video" in
  let args := JObj [(js "count", JNum 3)] in
  run world_down (Proxy.tikhub_call (js "key") tool (Some args)) =
    (Result (js "TikHub 失败: fetch failed" ++ nl
             ++ js "该工具没有 keyword 参数，无法自动回退到网页搜索。") true,
     [EvFetch {| f_url := Proxy.TIKHUB_URL; f_method := js "POST";
                 f_authorization := js "Bearer key";
                 f_content_type := js "application/json";
                 f_tool_name := tool; f_arguments := args;
                 f_signal := Some 25000%Z |}]).
Proof. vm_compute; reflexivity. Qed.

(** Scenario E: a fallback without results ends with both failures, as an
    error result in the server and as a thrown error in the plugin. *)
Example scenario_E_fallback_without_results :
  let H := Reference.host in
  let tool := js "tiktok_web_fetch_search_video" in
  let args := JObj [(js "keyword", JStr (js "AI"))] in
  let message := js "TikHub 失败: fetch failed" ++ nl
                 ++ js "网页搜索回退也失败了。" in
  fst (run world_down (Proxy.tikhub_call (js "key") tool (Some args))) =
    Result message true
  /\ fst (run world_down (Plugin.execute (js "key") tool (Some args))) =
     Throws (JsError message).
Proof. vm_compute; split; reflexivity. Qed.

(* ================================================================== *)
(** * The emptiness test *)
(* ================================================================== *)

(** The test unfolded once on an object, the inner loop read as the
    lookup of [obj.data]. *)
Lemma isEmptyData_value_object (obj : list (jsstring * JSON)) :
  Proxy.isEmptyData_value (JObj obj) =
  if Nat.eqb (length (keys obj)) 0 then true
  else if (has obj (js "data") && Proxy.isEmptyData (lookup obj (js "data")))
          && Nat.eqb
               (length (filter (fun k => negb (includes METADATA_KEYS k))
                               (keys obj))) 0
  then true
  else existsb (fun k => has obj k && is_empty_array (lookup obj k))
               LISTING_KEYS.
Proof.
  assert (E : (fix obj_data (fs : list (jsstring * JSON)) : bool :=
                 match fs with
                 | [] => true
                 | (k, v) :: r =>
                   if str_eqb k (js "data") then Proxy.isEmptyData_value v
                   else obj_data r
                 end) obj
              = Proxy.isEmptyData (lookup obj (js "data"))).
  { induction obj as [|[k v] r IH]; [reflexivity|].
    simpl lookup. destruct (str_eqb k (js "data")); [reflexivity | exact IH]. }
  change (Proxy.isEmptyData_value (JObj obj)) with
    (if Nat.eqb (length (keys obj)) 0 then true
     else if (has obj (js "data")
              && (fix obj_data (fs : list (jsstring * JSON)) : bool :=
                    match fs with
                    | [] => true
                    | (k, v) :: r =>
                      if str_eqb k (js "data") then Proxy.isEmptyData_value v
                      else obj_data r
                    end) obj)
             && Nat.eqb
                  (length (filter (fun k => negb (includes METADATA_KEYS k))
                                  (keys obj))) 0
     then true
     else existsb (fun k => has obj k && is_empty_array (lookup obj k))
                  LISTING_KEYS).
  rewrite E; reflexivity.
Qed.

Lemma is_empty_array_spec (o : option JSON) :
  is_empty_array o = true <-> exists l, o = Some (JArr l) /\ length l = 0.
Proof.
  destruct o as [[]|]; simpl;
    try (split; [discriminate | intros (l & E & _); discriminate]).
  rewrite Nat.eqb_eq; split.
  - intros E; eauto.
  - intros (l & E & Hl); injection E as ->; exact Hl.
Qed.

Lemma isEmptyData_sound (v : JSON) :
  Proxy.isEmptyData_value v = true -> spec_empty (Some v).
Proof.
  induction v as [ | b | n | s | l IH | fs IH ] using JSON_induction;
    try discriminate.
  - intros _; constructor.
  - simpl; rewrite Nat.eqb_eq; intros E; constructor; exact E.
  - rewrite isEmptyData_value_object.
    destruct (Nat.eqb (length (keys fs)) 0) eqn:E0.
    { intros _; apply empty_no_keys; apply Nat.eqb_eq; exact E0. }
    destruct ((has fs (js "data") && Proxy.isEmptyData (lookup fs (js "data")))
              && Nat.eqb (length (filter (fun k => negb (includes METADATA_KEYS k))
                                         (keys fs))) 0) eqn:E1.
    + intros _.
      apply andb_true_iff in E1 as [E1 E2].
      apply andb_true_iff in E1 as [Ehas Edata].
      apply has_lookup in Ehas as [d Hd].
      rewrite Hd in Edata; simpl in Edata.
      apply empty_wrapper with (d := d); [exact Hd | |].
      * destruct (lookup_In_pair _ _ Hd) as [k' Hin].
        rewrite Forall_forall in IH. exact (IH _ Hin Edata).
      * intros k Hk _.
        pose proof (proj1 (filter_length_0 _ _) E2 k Hk) as Hm.
        apply negb_false_iff in Hm. apply includes_In; exact Hm.
    + intros Hex. apply existsb_exists in Hex as (k & Hk & Hb).
      apply andb_true_iff in Hb as [_ Hb].
      apply is_empty_array_spec in Hb as (l & Hl & Hlen).
      eapply empty_listing; eassumption.
Qed.

Lemma isEmptyData_complete (o : option JSON) :
  spec_empty o -> Proxy.isEmptyData o = true.
Proof.
  induction 1 as [ | | l Hl | fs Hfs | fs d Hd _ IH Hkeys | fs k l Hk Hl Hlen ];
    try reflexivity.
  - simpl; apply Nat.eqb_eq; exact Hl.
  - unfold Proxy.isEmptyData; rewrite isEmptyData_value_object.
    apply Nat.eqb_eq in Hfs; rewrite Hfs; reflexivity.
  - unfold Proxy.isEmptyData; rewrite isEmptyData_value_object.
    destruct (Nat.eqb (length (keys fs)) 0); [reflexivity|].
    assert (Ehas : has fs (js "data") = true) by (apply has_lookup; eauto).
    rewrite Ehas, Hd. simpl in IH. simpl Proxy.isEmptyData. rewrite IH.
    assert (E2 : Nat.eqb (length (filter (fun k => negb (includes METADATA_KEYS k))
                                         (keys fs))) 0 = true).
    { apply filter_length_0; intros x Hx. apply negb_false_iff, includes_In.
      destruct (str_eqb x (js "data")) eqn:Ex.
      - apply str_eqb_eq in Ex; subst; right; left; reflexivity.
      - apply Hkeys; [exact Hx|]. intros ->. rewrite str_eqb_refl in Ex.
        discriminate. }
    rewrite E2; reflexivity.
  - unfold Proxy.isEmptyData; rewrite isEmptyData_value_object.
    destruct (Nat.eqb (length (keys fs)) 0); [reflexivity|].
    destruct (_ && _); [reflexivity|].
    apply existsb_exists; exists k; split; [exact Hk|].
    apply andb_true_iff; split.
    + apply has_lookup; eauto.
    + apply is_empty_array_spec; eauto.
Qed.

(** The plugin carries the same helper. *)
Lemma isEmptyData_same : Plugin.isEmptyData = Proxy.isEmptyData.
Proof. reflexivity. Qed.

(** C2. In both hosts [isEmptyData] holds of a value exactly when the
    specification calls it empty: an absent value or [null]; a sequence of
    length 0; a mapping with no key, or with a [data] key whose value is
    itself empty while every other key is one of code, data, message,
    recordTime, msg, or with one of the keys items, item_list, notes,
    note_list, list, results, video_list holding an empty sequence; and no
    other value, in particular no string, number or boolean. *)
Theorem C2_isEmptyData_refines_spec (data : option JSON) :
  (Proxy.isEmptyData data = true <-> spec_empty data)
  /\ (Plugin.isEmptyData data = true <-> spec_empty data).
Proof.
  rewrite isEmptyData_same.
  assert (E : Proxy.isEmptyData data = true <-> spec_empty data).
  { split; [|apply isEmptyData_complete].
    destruct data as [v|]; [apply isEmptyData_sound | intros _; constructor]. }
  split; exact E.
Qed.

(* ================================================================== *)
(** * Traces of the handlers *)
(* ================================================================== *)

Section Traces.
Context `{H : Host}.
Variable TIKHUB_API_KEY : jsstring.
Variable w : World.

Lemma proxy_fallbackWebSearch_trace (keyword : jsstring) (platform : option Platform) :
  snd (run w (Proxy.fallbackWebSearch keyword platform)) =
  [EvApi {| a_method := js "POST"; a_path := js "/search";
            a_body := Some (Proxy.search_body
                              (Proxy.fallback_query keyword platform));
            a_signal := None |}].
Proof.
  unfold Proxy.fallbackWebSearch, Proxy.api; simpl.
  destruct (search_stack w _) as [m | st tx | m | data]; simpl; try reflexivity.
  destruct (sr_results data) as [rs|]; [|reflexivity].
  destruct (Nat.eqb (length rs) 0); reflexivity.
Qed.

Lemma plugin_fallbackWebSearch_trace (keyword : jsstring) (platform : option Platform) :
  snd (run w (Plugin.fallbackWebSearch keyword platform)) =
  [EvApi {| a_method := js "POST"; a_path := js "/search";
            a_body := Some (Plugin.search_body
                              (Plugin.fallback_query keyword platform));
            a_signal := Some 28000%Z |}].
Proof.
  unfold Plugin.fallbackWebSearch, Plugin.apiCall; simpl.
  destruct (search_stack w _) as [m | st tx | m | data]; simpl; try reflexivity.
  destruct (sr_results data) as [rs|]; [|reflexivity].
  destruct (Nat.eqb (length rs) 0); reflexivity.
Qed.

Lemma proxy_fallback_trace (st : Failure) (keyword : option jsstring)
    (platform : option Platform) :
  snd (run w (Proxy.tikhub_fallback st keyword platform)) =
  match keyword with
  | Some k =>
    if tikhubFailed st && nonempty k
    then snd (run w (Proxy.fallbackWebSearch k platform))
    else []
  | None => []
  end.
Proof.
  unfold Proxy.tikhub_fallback.
  destruct keyword as [k|]; [|reflexivity].
  destruct (tikhubFailed st && nonempty k); [|reflexivity].
  rewrite run_bind; cbn [snd].
  destruct (run w (Proxy.fallbackWebSearch k platform)) as [[text|] t]; cbn [fst snd];
    [destruct (nonempty text)|]; cbn [run snd]; apply app_nil_r.
Qed.

Lemma plugin_fallback_trace (st : Failure) (keyword : option jsstring)
    (platform : option Platform) :
  snd (run w (Plugin.tikhub_fallback st keyword platform)) =
  match keyword with
  | Some k =>
    if tikhubFailed st && nonempty k
    then snd (run w (Plugin.fallbackWebSearch k platform))
    else []
  | None => []
  end.
Proof.
  unfold Plugin.tikhub_fallback.
  destruct keyword as [k|]; [|reflexivity].
  destruct (tikhubFailed st && nonempty k); [|reflexivity].
  rewrite run_bind; cbn [snd].
  destruct (run w (Plugin.fallbackWebSearch k platform)) as [[text|] t]; cbn [fst snd];
    [destruct (nonempty text)|]; cbn [run snd]; apply app_nil_r.
Qed.

(** The TikHub attempt issues at most one request, a [fetch]. *)
Lemma proxy_attempt_trace (tool_name : jsstring) (args : JSON) :
  let t := snd (run w (Proxy.tikhub_attempt TIKHUB_API_KEY tool_name args)) in
  forallb is_event_fetch t = true /\ length t <= 1.
Proof.
  unfold Proxy.tikhub_attempt.
  destruct (nonempty TIKHUB_API_KEY); simpl; split; auto.
Qed.

Lemma plugin_attempt_trace (tool_name : jsstring) (args : JSON) :
  let t := snd (run w (Plugin.tikhub_attempt TIKHUB_API_KEY tool_name args)) in
  forallb is_event_fetch t = true /\ length t <= 1.
Proof. unfold Plugin.tikhub_attempt; simpl; split; auto. Qed.

(** A keyword that was extracted is a non-empty string. *)
Lemma extractKeyword_nonempty (args : JSON) (k : jsstring) :
  Proxy.extractKeyword args = Normal (Some k) -> nonempty k = true.
Proof.
  unfold Proxy.extractKeyword.
  assert (L : forall ks, Proxy.extractKeyword_loop args ks = Some k ->
                         nonempty k = true).
  { induction ks as [|key rest IH]; simpl; [discriminate|].
    destruct (get args key) as [[ | | | s | | ]|]; auto.
    destruct (nonempty s) eqn:E; auto.
    intros E'; injection E' as <-; exact E. }
  destruct args; intros E; try discriminate E;
    apply (L [js "keyword"; js "query"; js "search_keyword"; js "keywords"]);
    congruence.
Qed.

End Traces.

(* ================================================================== *)
(** * When the fallback search is invoked *)
(* ================================================================== *)

Section FallbackRule.
Variable w : World.
Variable normalize : option JSON -> option JSON.
Variable extract : JSON -> Completion (option jsstring).
Variable attempt : JSON -> Prog Attempt.
Variable fallback : Failure -> option jsstring -> Prog ToolResult.
Variable malformed : ToolResult.

Hypothesis extract_nonempty :
  forall args k, extract args = Normal (Some k) -> nonempty k = true.
Hypothesis attempt_fetches :
  forall args, forallb is_event_fetch (snd (run w (attempt args))) = true.
Hypothesis fallback_trace :
  forall st keyword,
    exists req,
      snd (run w (fallback st keyword)) =
      match keyword with
      | Some k => if tikhubFailed st && nonempty k then [EvApi req] else []
      | None => []
      end.

Lemma fetches_not_fallback (t : list Event) :
  forallb is_event_fetch t = true -> fallback_invoked t = false.
Proof.
  unfold fallback_invoked; induction t as [|[r|r] t IH]; simpl; auto.
Qed.

Lemma fallback_invoked_app (t u : list Event) :
  fallback_invoked (t ++ u) = fallback_invoked t || fallback_invoked u.
Proof. apply existsb_app. Qed.

Lemma handler_fallback_rule (raw : option JSON) :
  fallback_rule normalize extract attempt
                (handler normalize extract attempt fallback malformed) w raw.
Proof.
  unfold fallback_rule, handler.
  destruct (normalize raw) as [args|] eqn:En.
  2:{ simpl. repeat split; try discriminate.
      - intros (a & k & st & E & _); discriminate.
      - exists [], []; simpl; auto. }
  destruct (extract args) as [keyword|e] eqn:Ex.
  2:{ simpl. repeat split; try discriminate.
      - intros (a & k & st & E & E' & _).
        injection E as <-; rewrite Ex in E'; discriminate.
      - exists [], []; simpl; auto. }
  rewrite run_bind; cbn [snd].
  pose proof (attempt_fetches args) as Hf.
  rewrite fallback_invoked_app, (fetches_not_fallback _ Hf); cbn [orb].
  destruct (fst (run w (attempt args))) as [r|st] eqn:Ea.
  - cbn [run snd fallback_invoked existsb]. repeat split; try discriminate; auto.
    + intros (a & k & st & E & _ & E' & _).
      injection E as <-; rewrite Ea in E'; discriminate.
    + exists (snd (run w (attempt args))), []; rewrite app_nil_r; simpl; auto.
  - destruct (fallback_trace st keyword) as [req Ht]; rewrite Ht.
    destruct keyword as [k|].
    + rewrite (extract_nonempty Ex), andb_true_r.
      destruct (tikhubFailed st) eqn:Est.
      * repeat split; auto.
        -- intros _; exists args, k, st; auto.
        -- intros a r E; injection E as <-; rewrite Ea; discriminate.
        -- intros a E; injection E as <-; rewrite Ex; discriminate.
        -- exists (snd (run w (attempt args))), [EvApi req]; simpl; auto.
      * repeat split; auto; try discriminate.
        -- intros (a & k' & st' & E & _ & E' & Hst).
           injection E as <-; rewrite Ea in E'; injection E' as <-.
           congruence.
        -- exists (snd (run w (attempt args))), []; rewrite app_nil_r; simpl; auto.
    + repeat split; auto; try discriminate.
      * intros (a & k' & st' & E & E' & _).
        injection E as <-; rewrite Ex in E'; discriminate.
      * exists (snd (run w (attempt args))), []; rewrite app_nil_r; simpl; auto.
Qed.

(** A property of every request of the attempt and of the fallback is a
    property of every request of the handler. *)
Lemma handler_trace_Forall (P : Event -> Prop) (raw : option JSON) :
  (forall args, Forall P (snd (run w (attempt args)))) ->
  (forall st keyword, Forall P (snd (run w (fallback st keyword)))) ->
  Forall P (snd (run w (handler normalize extract attempt fallback malformed
                                raw))).
Proof.
  intros Ha Hf; unfold handler.
  destruct (normalize raw) as [args|]; [|constructor].
  destruct (extract args) as [keyword|e]; [|constructor].
  rewrite run_bind; cbn [snd]. apply Forall_app; split; [apply Ha|].
  destruct (fst (run w (attempt args))) as [r|st]; [constructor | apply Hf].
Qed.

End FallbackRule.

(** C1. In both hosts, for every key, tool name, arguments and remote
    world: the fallback web search is invoked if and only if the arguments
    were normalised, a keyword was extracted from them and the TikHub
    attempt was classified as failed; it is not invoked when the attempt
    returned a result, nor when no keyword was extracted; and the request
    of the fallback comes after the primary call in the trace, at most
    once. *)
Theorem C1_fallback_iff_failure_and_keyword
    (H : Host) (TIKHUB_API_KEY tool_name : jsstring)
    (w : World) (arguments : option JSON) :
  fallback_rule Proxy.normalizeArguments Proxy.extractKeyword
                (Proxy.tikhub_attempt TIKHUB_API_KEY tool_name)
                (Proxy.tikhub_call TIKHUB_API_KEY tool_name) w arguments
  /\ fallback_rule Plugin.normalizeArguments Plugin.extractKeyword
                   (Plugin.tikhub_attempt TIKHUB_API_KEY tool_name)
                   (Plugin.execute TIKHUB_API_KEY tool_name) w arguments.
Proof.
  split.
  - apply (handler_fallback_rule w Proxy.normalizeArguments Proxy.extractKeyword
             (Proxy.tikhub_attempt TIKHUB_API_KEY tool_name)
             (fun st keyword =>
                Proxy.tikhub_fallback st keyword (Proxy.extractPlatform tool_name))
             (Result (js "Invalid arguments JSON string") true)).
    + apply extractKeyword_nonempty.
    + intros args; apply proxy_attempt_trace.
    + intros st [k|]; rewrite proxy_fallback_trace.
      * rewrite proxy_fallbackWebSearch_trace; eexists; reflexivity.
      * exists {| a_method := []; a_path := []; a_body := None;
                  a_signal := None |}; reflexivity.
  - apply (handler_fallback_rule w Plugin.normalizeArguments Plugin.extractKeyword
             (Plugin.tikhub_attempt TIKHUB_API_KEY tool_name)
             (fun st keyword =>
                Plugin.tikhub_fallback st keyword (Plugin.extractPlatform tool_name))
             (Throws (JsError (js "Invalid arguments JSON string")))).
    + apply extractKeyword_nonempty.
    + intros args; apply plugin_attempt_trace.
    + intros st [k|]; rewrite plugin_fallback_trace.
      * rewrite plugin_fallbackWebSearch_trace; eexists; reflexivity.
      * exists {| a_method := []; a_path := []; a_body := None;
                  a_signal := None |}; reflexivity.
Qed.

(* ================================================================== *)
(** * Classification of a reply *)
(* ================================================================== *)

Lemma truthy_object (o : option JSON) :
  truthy_u o && typeof_object o = is_object_value o.
Proof. destruct o as [[ | [] | n | s | l | fs ]|]; simpl; auto using andb_false_r. Qed.

Section Classification.
Context `{H : Host}.

(** The plugin carries the same classification code. *)
Lemma classify_same : Plugin.classify = Proxy.classify.
Proof. reflexivity. Qed.

Lemma classify_no_error (tool_name : jsstring) (data : JSON) :
  data <> JNull ->
  truthy_u (get data (js "error")) = false ->
  Proxy.classify tool_name (FetchJson data) =
  Proxy.classify_result tool_name data.
Proof.
  intros Hnn He; unfold Proxy.classify.
  destruct (get data (js "error")) as [e|]; simpl in He; [rewrite He|];
    destruct data; try reflexivity; congruence.
Qed.

Lemma classify_result_unstructured (tool_name : jsstring) (data : JSON) :
  is_object_value (get data (js "result")) = false ->
  Proxy.classify_result tool_name data =
  Returned (Result (shown (JSON_stringify data) marker_unstructured) false).
Proof.
  intros Hr; unfold Proxy.classify_result.
  destruct (get data (js "result")) as [r|]; [|reflexivity].
  rewrite <- truthy_object in Hr; simpl truthy_u in Hr; rewrite Hr.
  reflexivity.
Qed.

Lemma classify_result_structured (tool_name : jsstring) (data r : JSON) :
  get data (js "result") = Some r ->
  is_object_value (Some r) = true ->
  Proxy.classify_result tool_name data =
  let innerData := get r (js "data") in
  let code := get r (js "code") in
  let message := get r (js "message") in
  if truthy_u code
     && negb match code with Some (JNum n) => Qeq_bool n 200 | _ => false end
  then
    Continue
      {| tikhubFailed := true;
         failReason :=
           tool_name ++ js " returned code "
           ++ match code with Some c => ToString c | None => [] end
           ++ js ": "
           ++ match message with
              | Some m => if truthy m then ToString m else js "error"
              | None => js "error"
              end |}
  else if Proxy.isEmptyData innerData then
    Continue
      {| tikhubFailed := true;
         failReason :=
           tool_name ++ js " returned empty data (platform anti-bot)" |}
  else
    Returned
      (Result (js "TikHub " ++ tool_name ++ js " result:" ++ nl ++ nl
               ++ shown (JSON_stringify match innerData with
                                        | None | Some JNull => r
                                        | Some d => d
                                        end)
                        marker_structured) false).
Proof.
  intros Hr Ho; unfold Proxy.classify_result; rewrite Hr.
  rewrite <- truthy_object in Ho; simpl truthy_u in Ho; rewrite Ho.
  reflexivity.
Qed.

End Classification.

(** C3, as stated, fails: the reply [{}] completes at the transport level,
    carries no error and no [result] wrapper, and is empty; both hosts
    return its serialisation as a result instead of classifying it as an
    empty-data failure. *)
Lemma C3_counterexample :
  let H := Reference.host in
  let tool := js "tiktok_web_fetch_search_video" in
  let data := JObj [] in
  get data (js "error") = None
  /\ get data (js "result") = None
  /\ Proxy.isEmptyData (Some data) = true
  /\ Proxy.classify tool (FetchJson data) = Returned (Result (js "{}") false)
  /\ Plugin.classify tool (FetchJson data) = Returned (Result (js "{}") false)
  /\ Proxy.classify tool (FetchJson data) <>
     Continue {| tikhubFailed := true;
                 failReason :=
                   tool ++ js " returned empty data (platform anti-bot)" |}.
Proof. vm_compute; repeat split; discriminate. Qed.

(** C3, amended. In both hosts, a reply that is not [null], carries no
    truthy top-level [error] and whose [result] is not an object is not
    put to the emptiness test: its serialisation, cut at 50000 characters
    and marked when longer, is returned as a result, whether the reply is
    empty or not. *)
Theorem C3_unstructured_reply_is_returned
    (H : Host) (tool_name : jsstring) (data : JSON)
    (Hnotnull : data <> JNull)
    (Herror : truthy_u (get data (js "error")) = false)
    (Hresult : is_object_value (get data (js "result")) = false) :
  Proxy.classify tool_name (FetchJson data) =
    Returned (Result (shown (JSON_stringify data) marker_unstructured) false)
  /\ Plugin.classify tool_name (FetchJson data) =
    Returned (Result (shown (JSON_stringify data) marker_unstructured) false).
Proof.
  assert (E : Proxy.classify tool_name (FetchJson data) =
              Returned (Result (shown (JSON_stringify data) marker_unstructured)
                               false)).
  { rewrite classify_no_error by assumption.
    apply classify_result_unstructured; assumption. }
  split; [exact E | rewrite classify_same; exact E].
Qed.

(** The amended C3 on the reply [[]], an empty array in place of the
    expected object. *)
Lemma C3_unstructured_reply_is_returned_witness :
  let H := Reference.host in
  Proxy.classify (js "douyin_app_fetch_hot_search_list")
                 (FetchJson (JArr [])) =
    Returned (Result (shown (JSON_stringify (JArr [])) marker_unstructured) false)
  /\ Plugin.classify (js "douyin_app_fetch_hot_search_list")
                     (FetchJson (JArr [])) =
    Returned (Result (shown (JSON_stringify (JArr [])) marker_unstructured) false).
Proof.
  apply (@C3_unstructured_reply_is_returned Reference.host
           (js "douyin_app_fetch_hot_search_list") (JArr []));
    [discriminate | reflexivity | reflexivity].
Defined.




(* ================================================================== *)
(** * The text of a successful reply *)
(* ================================================================== *)

Lemma shown_bounded (s marker : jsstring) :
  (len (shown s marker) <= 50000 + len marker)%Z
  /\ ((50000 < len s)%Z -> len (slice0 50000 s) = 50000%Z).
Proof.
  unfold shown; split.
  - destruct (50000 <? len s)%Z eqn:E.
    + rewrite len_app, len_slice0 by lia. lia.
    + apply Z.ltb_ge in E. pose proof (len_nonneg marker). lia.
  - intros Hl; rewrite len_slice0 by lia. lia.
Qed.

Lemma isEmptyData_false_payload (o : option JSON) :
  Proxy.isEmptyData o = false -> exists d, o = Some d /\ d <> JNull.
Proof.
  destruct o as [d|]; [|discriminate].
  intros E; exists d; split; [reflexivity|]. intros ->; discriminate.
Qed.

(* ================================================================== *)
(** * Normalisation of the arguments *)
(* ================================================================== *)

Section Normalisation.
Context `{H : Host}.

Lemma normalizeArguments_object (v : JSON) :
  is_object_value (Some v) = true -> Proxy.normalizeArguments (Some v) = Some v.
Proof. destruct v; try discriminate; reflexivity. Qed.

Lemma normalizeArguments_string (s : jsstring) :
  Proxy.normalizeArguments (Some (JStr s)) =
  JSON_parse (if nonempty s then s else js "{}").
Proof. unfold Proxy.normalizeArguments; simpl; destruct (nonempty s); reflexivity. Qed.

End Normalisation.

(** C5. In both hosts: an input that is already an object is the
    normalised value, unchanged; an absent input and the empty string
    give the empty mapping; and any other string that [JSON.parse]
    rejects ends the dispatch at once with the error
    "Invalid arguments JSON string", returned as an error result by the
    server and thrown by the plugin, no request having been issued to
    TikHub or to the search service. *)
Theorem C5_argument_normalization
    (H : Host) (s : jsstring)
    (Hbraces : JSON_parse (js "{}") = Some (JObj []))
    (Hnonempty : s <> [])
    (Hmalformed : JSON_parse s = None) :
  (forall v, is_object_value (Some v) = true ->
             Proxy.normalizeArguments (Some v) = Some v
             /\ Plugin.normalizeArguments (Some v) = Some v)
  /\ (Proxy.normalizeArguments None = Some (JObj [])
      /\ Proxy.normalizeArguments (Some (JStr [])) = Some (JObj [])
      /\ Plugin.normalizeArguments None = Some (JObj [])
      /\ Plugin.normalizeArguments (Some (JStr [])) = Some (JObj []))
  /\ (forall (TIKHUB_API_KEY tool_name : jsstring) (w : World),
        run w (Proxy.tikhub_call TIKHUB_API_KEY tool_name (Some (JStr s))) =
          (Result (js "Invalid arguments JSON string") true, [])
        /\ run w (Plugin.execute TIKHUB_API_KEY tool_name (Some (JStr s))) =
          (Throws (JsError (js "Invalid arguments JSON string")), [])).
Proof.
  split; [|split].
  - intros v Hv; split; [|change Plugin.normalizeArguments
                              with Proxy.normalizeArguments];
      apply normalizeArguments_object; exact Hv.
  - unfold Plugin.normalizeArguments, Proxy.normalizeArguments; simpl.
    rewrite Hbraces; auto.
  - intros key tool w.
    assert (E : Proxy.normalizeArguments (Some (JStr s)) = None).
    { rewrite normalizeArguments_string.
      destruct s; [congruence | exact Hmalformed]. }
    assert (E' : Plugin.normalizeArguments (Some (JStr s)) = None) by exact E.
    unfold Proxy.tikhub_call, Plugin.execute.
    rewrite E, E'; split; reflexivity.
Qed.

(** C5 on the reference host, for a string with an unquoted key. *)
Lemma C5_argument_normalization_witness :
  let H := Reference.host in
  let s := js "{keyword: AI" in
  JSON_parse (js "{}") = Some (JObj [])
  /\ s <> []
  /\ JSON_parse s = None
  /\ Proxy.normalizeArguments None = Some (JObj [])
  /\ (forall (TIKHUB_API_KEY tool_name : jsstring) (w : World),
        run w (Proxy.tikhub_call TIKHUB_API_KEY tool_name (Some (JStr s))) =
          (Result (js "Invalid arguments JSON string") true, [])
        /\ run w (Plugin.execute TIKHUB_API_KEY tool_name (Some (JStr s))) =
          (Throws (JsError (js "Invalid arguments JSON string")), [])).
Proof.
  assert (Hbraces : @JSON_parse Reference.host (js "{}") = Some (JObj []))
    by reflexivity.
  assert (Hnonempty : js "{keyword: AI" <> []) by discriminate.
  assert (Hmalformed : @JSON_parse Reference.host (js "{keyword: AI") = None)
    by reflexivity.
  pose proof (@C5_argument_normalization Reference.host (js "{keyword: AI")
                Hbraces Hnonempty Hmalformed) as (_ & (Hnone & _) & Hcall).
  repeat split; try assumption; apply Hcall.
Defined.

(** C7, on the code. A string that is a JSON text other than an object is
    accepted by the normalisation and becomes the arguments as such: a
    number, a string, an array, [null].  With [null] the keyword
    extraction raises the [TypeError] of a property read on [null], which
    no clause catches: the handler ends with that exception, before any
    request. *)
Lemma C7_parsed_non_object_is_kept :
  let H := Reference.host in
  let tool := js "tiktok_web_fetch_search_video" in
  Proxy.normalizeArguments (Some (JStr (js "5"))) = Some (JNum 5)
  /\ Plugin.normalizeArguments (Some (JStr (js "5"))) = Some (JNum 5)
  /\ Proxy.normalizeArguments (Some (JStr (js "[1]"))) = Some (JArr [JNum 1])
  /\ Proxy.normalizeArguments (Some (JStr (dquote ++ js "AI" ++ dquote))) =
     Some (JStr (js "AI"))
  /\ Proxy.normalizeArguments (Some (JStr (js "null"))) = Some JNull
  /\ Plugin.normalizeArguments (Some (JStr (js "null"))) = Some JNull
  /\ (forall key w,
        run w (Proxy.tikhub_call key tool (Some (JStr (js "null")))) =
          (Throws (JsTypeError (null_read_message (js "keyword"))), [])
        /\ run w (Plugin.execute key tool (Some (JStr (js "null")))) =
          (Throws (JsTypeError (null_read_message (js "keyword"))), [])).
Proof.
  repeat split; reflexivity.
Qed.

(* ================================================================== *)
(** * Timeouts of the two network calls *)
(* ================================================================== *)

(** C6, as stated, fails on the fallback: on a dispatch that falls back,
    the request of the plugin to the search service carries a signal of
    28000 ms, more than 25 s, and the request of the server carries no
    signal at all. *)
Lemma C6_counterexample :
  let H := Reference.host in
  let tool := js "tiktok_web_fetch_search_video" in
  let args := Some (JObj [(js "keyword", JStr (js "AI"))]) in
  let request signal :=
    EvApi {| a_method := js "POST"; a_path := js "/search";
             a_body := Some (JObj [ (js "query", JStr (js "TikTok AI"));
                                    (js "count", JNum 5);
                                    (js "enrich", JBool true);
                                    (js "max_chars", JNum 5000) ]);
             a_signal := signal |} in
  (exists fetched,
      snd (run world_down (Plugin.execute (js "key") tool args)) =
      [EvFetch fetched; request (Some 28000%Z)])
  /\ (exists fetched,
         snd (run world_down (Proxy.tikhub_call (js "key") tool args)) =
         [EvFetch fetched; request None])
  /\ ~ (28000 <= 25000)%Z.
Proof.
  split; [|split].
  - eexists; vm_compute; reflexivity.
  - eexists; vm_compute; reflexivity.
  - lia.
Qed.

(** C6, amended. In both hosts every call to TikHub is issued with a
    timeout of 25000 ms.  The fallback search has a timeout of 28000 ms
    in the plugin, the default of [apiCall], and no timeout in the
    server, whose [api] passes no signal. *)
Theorem C6_timeouts_of_the_calls
    (H : Host) (TIKHUB_API_KEY tool_name : jsstring)
    (arguments : option JSON) (w : World) :
  signals None (snd (run w (Proxy.tikhub_call TIKHUB_API_KEY tool_name arguments)))
  /\ signals (Some 28000%Z)
             (snd (run w (Plugin.execute TIKHUB_API_KEY tool_name arguments))).
Proof.
  split.
  - apply (handler_trace_Forall w Proxy.normalizeArguments Proxy.extractKeyword
             (Proxy.tikhub_attempt TIKHUB_API_KEY tool_name)
             (fun st keyword =>
                Proxy.tikhub_fallback st keyword (Proxy.extractPlatform tool_name))
             (Result (js "Invalid arguments JSON string") true)).
    + intros args; unfold Proxy.tikhub_attempt.
      destruct (nonempty TIKHUB_API_KEY); cbn [negb tikhubFailed run snd];
        repeat constructor.
    + intros st [k|]; rewrite proxy_fallback_trace; [|constructor].
      destruct (tikhubFailed st && nonempty k); [|constructor].
      rewrite proxy_fallbackWebSearch_trace; repeat constructor.
  - apply (handler_trace_Forall w Plugin.normalizeArguments Plugin.extractKeyword
             (Plugin.tikhub_attempt TIKHUB_API_KEY tool_name)
             (fun st keyword =>
                Plugin.tikhub_fallback st keyword (Plugin.extractPlatform tool_name))
             (Throws (JsError (js "Invalid arguments JSON string")))).
    + intros args; unfold Plugin.tikhub_attempt; cbn [run snd];
        repeat constructor.
    + intros st [k|]; rewrite plugin_fallback_trace; [|constructor].
      destruct (tikhubFailed st && nonempty k); [|constructor].
      rewrite plugin_fallbackWebSearch_trace; repeat constructor.
Qed.

(* ================================================================== *)
(** * The fallback search invoker *)
(* ================================================================== *)

Lemma join_cons_prefix (sep p : jsstring) (rest : list jsstring) :
  exists tail, join sep (p :: rest) = p ++ tail.
Proof.
  destruct rest as [|q rest]; simpl.
  - exists []; symmetry; apply app_nil_r.
  - eexists; reflexivity.
Qed.

(** Every label of the table is a non-empty string. *)
Lemma label_nonempty (prefix label : jsstring) :
  lookup Proxy.PLATFORM_NAMES prefix = Some label -> nonempty label = true.
Proof.
  unfold Proxy.PLATFORM_NAMES; simpl lookup.
  repeat match goal with
         | |- context [if ?b then _ else _] => destruct b
         end;
    intros E; try discriminate E; injection E as <-; reflexivity.
Qed.

Lemma extractPlatform_nonempty `{H : Host} (toolName label : jsstring) :
  Proxy.extractPlatform toolName = Some (Label label) -> nonempty label = true.
Proof.
  unfold Proxy.extractPlatform; cbv zeta.
  destruct (lookup Proxy.PLATFORM_NAMES (split_head 95 toolName))
    as [l|] eqn:E.
  - intros E'; assert (El : l = label) by congruence; subst l.
    exact (label_nonempty _ E).
  - destruct (Object_prototype_member (split_head 95 toolName));
      intros E'; discriminate E'.
Qed.

(** The loop of the source numbers the results as the rendered list
    does. *)
Lemma result_lines_rendered (i : nat) (r : SearchResult) :
  Proxy.result_lines i r = rendered_result (S i) r.
Proof.
  unfold Proxy.result_lines, rendered_result, present.
  rewrite Nat.add_1_r.
  destruct (snippet r) as [s|]; destruct (content r) as [c|];
    try destruct (nonempty s); try destruct (nonempty c); reflexivity.
Qed.

Lemma results_lines_rendered_from (i : nat) (rs : list SearchResult) :
  Proxy.results_lines i rs =
  flat_map (fun p => rendered_result (fst p) (snd p))
           (combine (seq (S i) (length rs)) rs).
Proof.
  revert i; induction rs as [|r rs IH]; intros i; [reflexivity|].
  cbn [Proxy.results_lines length seq combine flat_map fst snd].
  rewrite result_lines_rendered, IH; reflexivity.
Qed.

Lemma results_lines_rendered (rs : list SearchResult) :
  Proxy.results_lines 0 rs = rendered_results rs.
Proof. apply results_lines_rendered_from. Qed.

Lemma plugin_results_lines_same (i : nat) (rs : list SearchResult) :
  Plugin.results_lines i rs = Proxy.results_lines i rs.
Proof.
  revert i; induction rs as [|r rs IH]; intros i; [reflexivity|].
  cbn [Plugin.results_lines Proxy.results_lines]; rewrite IH; reflexivity.
Qed.

Lemma rendered_fallback_marker (marker : jsstring) (data : SearchResponse)
    (results : list SearchResult) :
  exists rest, rendered_fallback marker data results = marker ++ rest.
Proof. unfold rendered_fallback; apply join_cons_prefix. Qed.

(** C8. In both hosts the fallback invoker builds the query from what it
    is given as the platform, followed by a space and the keyword, and
    from the keyword alone when it is given none; every label derived
    from a tool name is a non-empty string, and so enters the query, as
    does the text of the member of [Object.prototype] that a prefix such
    as [constructor] derives.  The invoker issues exactly one request,
    [POST /search] with count 5, enrich true and max_chars 5000; its
    result is [null], never an exception, when the request throws (a
    timeout included), when the response is not ok or is not JSON, and
    when there are no results; otherwise it is the text made of the
    marker of the fallback, the line of the search and, for every result
    in order, its title under its rank counted from 1, its URL, its
    snippet and its enriched content when present. *)
Theorem C8_fallbackWebSearch_contract
    (H : Host) (w : World) (keyword : jsstring) (platform : option Platform)
    (toolName : jsstring) :
  fallback_contract Proxy.fallbackWebSearch Proxy.fallback_marker None
                    w keyword platform
  /\ fallback_contract Plugin.fallbackWebSearch Plugin.fallback_marker
                       (Some 28000%Z) w keyword platform
  /\ match Proxy.extractPlatform toolName with
     | Some (Label label) =>
       nonempty label = true
       /\ Proxy.fallback_query keyword (Some (Label label)) =
          label ++ js " " ++ keyword
     | Some (Member printed) =>
       Proxy.fallback_query keyword (Some (Member printed)) =
       printed ++ js " " ++ keyword
     | None => Proxy.fallback_query keyword None = keyword
     end
  /\ Plugin.extractPlatform toolName = Proxy.extractPlatform toolName.
Proof.
  split; [|split; [|split; [|reflexivity]]].
  - unfold fallback_contract. split; [apply proxy_fallbackWebSearch_trace|].
    unfold Proxy.fallbackWebSearch, Proxy.api; cbn [bind run fst].
    fold (Proxy.fallback_query keyword platform).
    fold (Proxy.search_body (Proxy.fallback_query keyword platform)).
    destruct (search_stack w _) as [m | st tx | m | data]; try reflexivity.
    cbn [bind run fst].
    destruct (sr_results data) as [[|r rs]|]; try reflexivity.
    cbn [length Nat.eqb run fst].
    split; [|apply rendered_fallback_marker].
    unfold rendered_fallback. rewrite <- results_lines_rendered. reflexivity.
  - unfold fallback_contract. split; [apply plugin_fallbackWebSearch_trace|].
    unfold Plugin.fallbackWebSearch, Plugin.apiCall; cbn [bind run fst].
    fold (Plugin.fallback_query keyword platform).
    fold (Plugin.search_body (Plugin.fallback_query keyword platform)).
    destruct (search_stack w _) as [m | st tx | m | data]; try reflexivity.
    cbn [bind run fst].
    destruct (sr_results data) as [[|r rs]|]; try reflexivity.
    cbn [length Nat.eqb run fst].
    split; [|apply rendered_fallback_marker].
    unfold rendered_fallback.
    rewrite <- results_lines_rendered, plugin_results_lines_same. reflexivity.
  - destruct (Proxy.extractPlatform toolName) as [[label | printed]|] eqn:E;
      [|reflexivity|reflexivity].
    pose proof (extractPlatform_nonempty _ E) as Hl.
    split; [exact Hl|]. unfold Proxy.fallback_query; rewrite Hl; reflexivity.
Qed.

(* ================================================================== *)
(** * The two hosts compared *)
(* ================================================================== *)

Lemma fallback_rule_agree
    (normalize : option JSON -> option JSON)
    (extract : JSON -> Completion (option jsstring))
    (attempt1 attempt2 : JSON -> Prog Attempt)
    (call1 call2 : option JSON -> Prog ToolResult)
    (w : World) (raw : option JSON) :
  (forall args, fst (run w (attempt1 args)) = fst (run w (attempt2 args))) ->
  fallback_rule normalize extract attempt1 call1 w raw ->
  fallback_rule normalize extract attempt2 call2 w raw ->
  fallback_invoked (snd (run w (call1 raw))) =
  fallback_invoked (snd (run w (call2 raw))).
Proof.
  intros Ha (R1 & _) (R2 & _); cbv zeta in R1, R2.
  destruct (fallback_invoked (snd (run w (call1 raw)))) eqn:E1.
  - symmetry; apply R2.
    destruct (proj1 R1 eq_refl) as (args & k & st & En & Ex & Ea & Hst).
    exists args, k, st; rewrite <- Ha; auto.
  - destruct (fallback_invoked (snd (run w (call2 raw)))) eqn:E2; [|reflexivity].
    destruct (proj1 R2 eq_refl) as (args & k & st & En & Ex & Ea & Hst).
    assert (Hc : false = true); [|discriminate Hc].
    apply R1. exists args, k, st; rewrite Ha; auto.
Qed.

(** The plugin registers [tikhub_call] only with a key. *)
Lemma registered_key (TIKHUB_API_KEY : jsstring) :
  In (js "tikhub_call") (PluginTools.register TIKHUB_API_KEY) ->
  nonempty TIKHUB_API_KEY = true.
Proof.
  unfold PluginTools.register.
  destruct (nonempty TIKHUB_API_KEY); [reflexivity|].
  intros Hin; apply includes_In in Hin. vm_compute in Hin. discriminate Hin.
Qed.

(** C9. The plugin registers [tikhub_call] only under
    [if (TIKHUB_API_KEY)], so that its call site exists only with a key
    configured.  Whenever it exists, the two hosts agree for every tool
    name, arguments and remote side: they normalise the arguments to the
    same value, extract the same keyword and the same platform, classify
    every reply alike, with the same failure reason or the same result,
    issue the same call to TikHub with the same outcome, and take the
    same decision to invoke the fallback search. *)
Theorem C9_hosts_agree_when_key_configured
    (H : Host) (TIKHUB_API_KEY tool_name : jsstring)
    (arguments : option JSON) (w : World)
    (Hregistered : In (js "tikhub_call") (PluginTools.register TIKHUB_API_KEY)) :
  Proxy.normalizeArguments arguments = Plugin.normalizeArguments arguments
  /\ (forall args, Proxy.extractKeyword args = Plugin.extractKeyword args)
  /\ Proxy.extractPlatform tool_name = Plugin.extractPlatform tool_name
  /\ (forall o, Proxy.classify tool_name o = Plugin.classify tool_name o)
  /\ (forall args,
        run w (Proxy.tikhub_attempt TIKHUB_API_KEY tool_name args) =
        run w (Plugin.tikhub_attempt TIKHUB_API_KEY tool_name args))
  /\ fallback_invoked
       (snd (run w (Proxy.tikhub_call TIKHUB_API_KEY tool_name arguments))) =
     fallback_invoked
       (snd (run w (Plugin.execute TIKHUB_API_KEY tool_name arguments))).
Proof.
  assert (Ha : forall args,
             run w (Proxy.tikhub_attempt TIKHUB_API_KEY tool_name args) =
             run w (Plugin.tikhub_attempt TIKHUB_API_KEY tool_name args)).
  { intros args; unfold Proxy.tikhub_attempt, Plugin.tikhub_attempt.
    cbv zeta; rewrite (@registered_key TIKHUB_API_KEY Hregistered).
    cbn [negb tikhubFailed]; reflexivity. }
  split; [reflexivity|].
  split; [reflexivity|].
  split; [reflexivity|].
  split; [reflexivity|].
  split; [exact Ha|].
  apply (fallback_rule_agree (normalize := Proxy.normalizeArguments)
                             (extract := Proxy.extractKeyword)
                             (attempt1 := Proxy.tikhub_attempt TIKHUB_API_KEY tool_name)
                             (attempt2 := Plugin.tikhub_attempt TIKHUB_API_KEY tool_name)).
  - intros args; rewrite Ha; reflexivity.
  - apply (handler_fallback_rule w Proxy.normalizeArguments Proxy.extractKeyword
             (Proxy.tikhub_attempt TIKHUB_API_KEY tool_name)
             (fun st keyword =>
                Proxy.tikhub_fallback st keyword (Proxy.extractPlatform tool_name))
             (Result (js "Invalid arguments JSON string") true)).
    + apply extractKeyword_nonempty.
    + intros args; apply proxy_attempt_trace.
    + intros st [k|]; rewrite proxy_fallback_trace.
      * rewrite proxy_fallbackWebSearch_trace; eexists; reflexivity.
      * exists {| a_method := []; a_path := []; a_body := None;
                  a_signal := None |}; reflexivity.
  - apply (handler_fallback_rule w Plugin.normalizeArguments Plugin.extractKeyword
             (Plugin.tikhub_attempt TIKHUB_API_KEY tool_name)
             (fun st keyword =>
                Plugin.tikhub_fallback st keyword (Plugin.extractPlatform tool_name))
             (Throws (JsError (js "Invalid arguments JSON string")))).
    + apply extractKeyword_nonempty.
    + intros args; apply plugin_attempt_trace.
    + intros st [k|]; rewrite plugin_fallback_trace.
      * rewrite plugin_fallbackWebSearch_trace; eexists; reflexivity.
      * exists {| a_method := []; a_path := []; a_body := None;
                  a_signal := None |}; reflexivity.
Qed.

(** C9 with a key, on a remote side that is down. *)
Lemma C9_hosts_agree_when_key_configured_witness :
  let H := Reference.host in
  let key := js "sk-test" in
  let tool := js "tiktok_web_fetch_search_video" in
  let args := Some (JObj [(js "keyword", JStr (js "AI"))]) in
  In (js "tikhub_call") (PluginTools.register key)
  /\ fallback_invoked (snd (run world_down (Proxy.tikhub_call key tool args))) =
     fallback_invoked (snd (run world_down (Plugin.execute key tool args))).
Proof.
  assert (Hregistered : In (js "tikhub_call") (PluginTools.register (js "sk-test")))
    by (apply includes_In; vm_compute; reflexivity).
  split; [exact Hregistered|].
  apply (@C9_hosts_agree_when_key_configured Reference.host (js "sk-test")
           (js "tiktok_web_fetch_search_video")
           (Some (JObj [(js "keyword", JStr (js "AI"))])) world_down Hregistered).
Defined.

(* ================================================================== *)
(** * Further properties: keyword and platform *)
(* ================================================================== *)

Lemma extractKeyword_loop_app (args : JSON) (ks1 ks2 : list jsstring) :
  Proxy.extractKeyword_loop args (ks1 ++ ks2) =
  match Proxy.extractKeyword_loop args ks1 with
  | Some s => Some s
  | None => Proxy.extractKeyword_loop args ks2
  end.
Proof.
  induction ks1 as [|k ks1 IH]; [reflexivity|]. simpl.
  destruct (get args k) as [[ | | | s | | ]|]; auto.
  destruct (nonempty s); auto.
Qed.

Lemma extractKeyword_loop_cons (args : JSON) (k : jsstring) (ks : list jsstring) :
  Proxy.extractKeyword_loop args (k :: ks) =
  match nonempty_string (get args k) with
  | Some s => Some s
  | None => Proxy.extractKeyword_loop args ks
  end.
Proof.
  simpl. destruct (get args k) as [[ | | | s | | ]|]; auto.
  simpl. destruct (nonempty s); auto.
Qed.

Lemma extractKeyword_loop_none (args : JSON) (ks : list jsstring) :
  Proxy.extractKeyword_loop args ks = None <->
  forall k, In k ks -> nonempty_string (get args k) = None.
Proof.
  induction ks as [|k ks IH].
  - split; [intros _ k [] | reflexivity].
  - rewrite extractKeyword_loop_cons.
    destruct (nonempty_string (get args k)) as [s|] eqn:E.
    + split; [discriminate|]. intros Hall.
      rewrite (Hall k (or_introl eq_refl)) in E; discriminate.
    + rewrite IH; split.
      * intros Hall k' [<- | Hk]; auto.
      * intros Hall k' Hk; apply Hall; right; exact Hk.
Qed.

Lemma extractKeyword_object `{H : Host} (args : JSON) :
  args <> JNull ->
  Proxy.extractKeyword args = Normal (Proxy.extractKeyword_loop args KEYWORD_KEYS).
Proof. destruct args; try reflexivity; congruence. Qed.

(** X1. In both hosts, for arguments other than [null], the keyword that
    is extracted is the value of the first key, in the order keyword,
    query, search_keyword, keywords, that holds a non-empty string: a key
    that is missing, or holds an empty string or a value that is not a
    string, is passed over, and a later key never wins over an earlier
    one that holds a non-empty string. *)
Theorem X1_extractKeyword_first_nonempty_string
    (H : Host) (args : JSON) (before after : list jsstring)
    (key s : jsstring)
    (Hargs : args <> JNull)
    (Horder : KEYWORD_KEYS = before ++ key :: after)
    (Hvalue : nonempty_string (get args key) = Some s)
    (Hbefore : forall k, In k before -> nonempty_string (get args k) = None) :
  Proxy.extractKeyword args = Normal (Some s)
  /\ Plugin.extractKeyword args = Normal (Some s).
Proof.
  assert (E : Proxy.extractKeyword args = Normal (Some s)).
  { rewrite extractKeyword_object by exact Hargs.
    rewrite Horder, extractKeyword_loop_app.
    rewrite (proj2 (extractKeyword_loop_none args before) Hbefore).
    rewrite extractKeyword_loop_cons, Hvalue; reflexivity. }
  split; exact E.
Qed.

(** X1 where [query] comes first and [keyword] second in the arguments,
    and where [search_keyword] wins because [keyword] is a number and
    [query] is empty. *)
Lemma X1_extractKeyword_first_nonempty_string_witness :
  let H := Reference.host in
  (Proxy.extractKeyword
     (JObj [(js "query", JStr (js "cats")); (js "keyword", JStr (js "AI"))]) =
     Normal (Some (js "AI"))
   /\ Plugin.extractKeyword
        (JObj [(js "query", JStr (js "cats")); (js "keyword", JStr (js "AI"))]) =
      Normal (Some (js "AI")))
  /\ (Proxy.extractKeyword
        (JObj [(js "keyword", JNum 7); (js "query", JStr []);
               (js "search_keyword", JStr (js "dogs"))]) =
        Normal (Some (js "dogs"))
      /\ Plugin.extractKeyword
           (JObj [(js "keyword", JNum 7); (js "query", JStr []);
                  (js "search_keyword", JStr (js "dogs"))]) =
         Normal (Some (js "dogs"))).
Proof.
  split.
  - apply (@X1_extractKeyword_first_nonempty_string Reference.host
             (JObj [(js "query", JStr (js "cats")); (js "keyword", JStr (js "AI"))])
             [] [js "query"; js "search_keyword"; js "keywords"]
             (js "keyword") (js "AI")).
    + discriminate.
    + reflexivity.
    + vm_compute; reflexivity.
    + intros k [].
  - apply (@X1_extractKeyword_first_nonempty_string Reference.host
             (JObj [(js "keyword", JNum 7); (js "query", JStr []);
                    (js "search_keyword", JStr (js "dogs"))])
             [js "keyword"; js "query"] [js "keywords"]
             (js "search_keyword") (js "dogs")).
    + discriminate.
    + reflexivity.
    + vm_compute; reflexivity.
    + intros k [<- | [<- | []]]; vm_compute; reflexivity.
Defined.

(** X2. In both hosts, for arguments other than [null], no keyword is
    extracted exactly when none of the four keys holds a non-empty
    string; and a keyword that is extracted is never the empty string. *)
Theorem X2_extractKeyword_none_iff
    (H : Host) (args : JSON) (Hargs : args <> JNull) :
  (Proxy.extractKeyword args = Normal None <->
   forall k, In k KEYWORD_KEYS -> nonempty_string (get args k) = None)
  /\ (Plugin.extractKeyword args = Normal None <->
      forall k, In k KEYWORD_KEYS -> nonempty_string (get args k) = None)
  /\ Proxy.extractKeyword args <> Normal (Some [])
  /\ Plugin.extractKeyword args <> Normal (Some []).
Proof.
  assert (E : Proxy.extractKeyword args = Normal None <->
              forall k, In k KEYWORD_KEYS -> nonempty_string (get args k) = None).
  { rewrite extractKeyword_object by exact Hargs.
    rewrite <- extractKeyword_loop_none. split; congruence. }
  assert (N : Proxy.extractKeyword args <> Normal (Some [])).
  { intros E'. apply extractKeyword_nonempty in E'. discriminate. }
  repeat split; try apply E; exact N.
Qed.

Lemma X2_extractKeyword_none_iff_witness :
  let H := Reference.host in
  let args := JObj [(js "count", JNum 3); (js "keyword", JStr [])] in
  args <> JNull
  /\ (Proxy.extractKeyword args = Normal None <->
      forall k, In k KEYWORD_KEYS -> nonempty_string (get args k) = None).
Proof.
  assert (Hargs : JObj [(js "count", JNum 3); (js "keyword", JStr [])] <> JNull)
    by discriminate.
  split; [exact Hargs|].
  exact (proj1 (@X2_extractKeyword_none_iff Reference.host _ Hargs)).
Defined.

Lemma split_head_app (sep : N) (p rest : jsstring) :
  ~ In sep p -> split_head sep (p ++ sep :: rest) = p.
Proof.
  induction p as [|c p IH]; simpl; intros Hp.
  - rewrite N.eqb_refl; reflexivity.
  - destruct (N.eqb_spec c sep) as [->|_]; [exfalso; auto|].
    rewrite IH; auto.
Qed.

Lemma split_head_whole (sep : N) (p : jsstring) :
  ~ In sep p -> split_head sep p = p.
Proof.
  induction p as [|c p IH]; simpl; intros Hp; [reflexivity|].
  destruct (N.eqb_spec c sep) as [->|_]; [exfalso; auto|].
  rewrite IH; auto.
Qed.

Lemma lookup_Some_In (V : Type) (fs : list (jsstring * V)) (k : jsstring) :
  (exists v, lookup fs k = Some v) <-> In k (map fst fs).
Proof.
  induction fs as [|[k' v'] r IH]; simpl.
  - split; [intros [v E]; discriminate | intros []].
  - destruct (str_eqb k' k) eqn:E.
    + apply str_eqb_eq in E; subst. split; eauto.
    + rewrite IH; split; [tauto|]. intros [E' | Hin]; [|exact Hin].
      subst; rewrite str_eqb_refl in E; discriminate.
Qed.

Lemma lookup_In_key (V : Type) (fs : list (jsstring * V)) (k : jsstring) (v : V) :
  lookup fs k = Some v -> In (k, v) fs.
Proof.
  induction fs as [|[k' v'] r IH]; simpl; [discriminate|].
  destruct (str_eqb k' k) eqn:E.
  - apply str_eqb_eq in E; subst k'. intros E'; injection E' as ->; auto.
  - intros E'; right; apply IH; exact E'.
Qed.

Lemma table_lookup (p label : jsstring) :
  lookup Proxy.PLATFORM_NAMES p = Some label <-> In (p, label) Proxy.PLATFORM_NAMES.
Proof.
  split; [apply lookup_In_key|].
  unfold Proxy.PLATFORM_NAMES; intros Hin; simpl in Hin.
  repeat (destruct Hin as [E | Hin];
          [injection E as <- <-; vm_compute; reflexivity|]).
  destruct Hin.
Qed.

Lemma table_miss (V : Type) (fs : list (jsstring * V)) (k : jsstring) :
  lookup fs k = None <-> ~ In k (map fst fs).
Proof.
  rewrite <- lookup_Some_In; split.
  - intros E [v Ev]; congruence.
  - intros Hn; destruct (lookup fs k) as [v|]; [|reflexivity].
    exfalso; apply Hn; exists v; reflexivity.
Qed.

(** X3. In both hosts [extractPlatform] reads only the part of the tool
    name before its first underscore.  When this prefix is one of the ten
    codes of the table, the platform is the label of the code.  When it
    is not, the platform is the member of [Object.prototype] of that
    name if there is one, as for [constructor] or [toString], and not
    [undefined]: it is [undefined] exactly when the prefix is neither a
    code of the table nor the name of such a member. *)
Theorem X3_extractPlatform_reads_the_prefix
    (H : Host) (p rest : jsstring) (Hprefix : ~ In 95%N p) :
  Proxy.extractPlatform (p ++ 95%N :: rest) = Proxy.extractPlatform p
  /\ Plugin.extractPlatform (p ++ 95%N :: rest) = Proxy.extractPlatform p
  /\ Plugin.extractPlatform p = Proxy.extractPlatform p
  /\ (forall label,
         Proxy.extractPlatform p = Some (Label label) <->
         In (p, label) Proxy.PLATFORM_NAMES)
  /\ (forall printed,
         Proxy.extractPlatform p = Some (Member printed) <->
         ~ In p (map fst Proxy.PLATFORM_NAMES)
         /\ Object_prototype_member p = Some printed)
  /\ (Proxy.extractPlatform p = None <->
      ~ In p (map fst Proxy.PLATFORM_NAMES)
      /\ Object_prototype_member p = None).
Proof.
  change (Plugin.extractPlatform (p ++ 95%N :: rest))
    with (Proxy.extractPlatform (p ++ 95%N :: rest)).
  change (Plugin.extractPlatform p) with (Proxy.extractPlatform p).
  unfold Proxy.extractPlatform; cbv zeta.
  rewrite split_head_app, split_head_whole by exact Hprefix.
  split; [reflexivity | split; [reflexivity | split; [reflexivity|]]].
  pose proof (table_miss Proxy.PLATFORM_NAMES p) as Hmiss.
  destruct (lookup Proxy.PLATFORM_NAMES p) as [l|] eqn:El.
  - assert (Hin : In p (map fst Proxy.PLATFORM_NAMES))
      by (apply lookup_Some_In; exists l; exact El).
    split; [|split].
    + intros label; rewrite <- table_lookup, El.
      split; intros E; congruence.
    + intros printed; split; [intros E; discriminate E|].
      intros [Hn _]; contradiction.
    + split; [intros E; discriminate E | intros [Hn _]; contradiction].
  - assert (Hn : ~ In p (map fst Proxy.PLATFORM_NAMES))
      by (apply Hmiss; reflexivity).
    split; [|split].
    + intros label; rewrite <- table_lookup, El.
      destruct (Object_prototype_member p); split; intros E; discriminate E.
    + intros printed.
      destruct (Object_prototype_member p) as [m|]; split.
      * intros E; split; [exact Hn | congruence].
      * intros [_ E]; congruence.
      * intros E; discriminate E.
      * intros [_ E]; discriminate E.
    + destruct (Object_prototype_member p) as [m|]; split.
      * intros E; discriminate E.
      * intros [_ E]; discriminate E.
      * intros _; split; [exact Hn | reflexivity].
      * intros _; reflexivity.
Qed.

(** X3 on a tool name whose prefix is [constructor]: the platform is the
    function [Object]. *)
Lemma X3_extractPlatform_reads_the_prefix_witness :
  let H := Reference.host in
  ~ In 95%N (js "constructor")
  /\ Proxy.extractPlatform (js "constructor" ++ 95%N :: js "search") =
     Proxy.extractPlatform (js "constructor")
  /\ Proxy.extractPlatform (js "constructor") =
     Some (Member (js "function Object() { [native code] }")).
Proof.
  assert (Hp : ~ In 95%N (js "constructor")).
  { vm_compute. intros Hin.
    repeat (destruct Hin as [Hin | Hin]; [discriminate Hin|]). exact Hin. }
  split; [exact Hp|]. split.
  - exact (proj1 (@X3_extractPlatform_reads_the_prefix
                    Reference.host (js "constructor") (js "search") Hp)).
  - vm_compute; reflexivity.
Defined.

(* ================================================================== *)
(** * Further properties: the emptiness test *)
(* ================================================================== *)

Lemma listing_keys_not_metadata (k : jsstring) :
  In k LISTING_KEYS -> In k METADATA_KEYS -> False.
Proof.
  intros Hl Hm.
  assert (E : forallb (fun k => negb (includes METADATA_KEYS k)) LISTING_KEYS
              = true) by (vm_compute; reflexivity).
  rewrite forallb_forall in E. specialize (E k Hl).
  apply negb_true_iff in E. apply includes_In in Hm. congruence.
Qed.

Lemma keys_nonempty_of_lookup (fs : list (jsstring * JSON)) (k : jsstring) :
  In k (keys fs) -> Nat.eqb (length (keys fs)) 0 = false.
Proof. destruct fs; simpl; [intros [] | reflexivity]. Qed.

Lemma no_empty_listing (fs : list (jsstring * JSON)) :
  (forall k, In k LISTING_KEYS -> lookup fs k <> Some (JArr [])) ->
  existsb (fun k => has fs k && is_empty_array (lookup fs k)) LISTING_KEYS
  = false.
Proof.
  intros Hno. destruct (existsb _ LISTING_KEYS) eqn:E; [|reflexivity].
  apply existsb_exists in E as (k & Hk & Hb).
  apply andb_true_iff in Hb as [_ Hb].
  apply is_empty_array_spec in Hb as (l & Hl & Hlen).
  destruct l; [|discriminate]. exfalso; exact (Hno k Hk Hl).
Qed.

(** X4. In both hosts a wrapper that holds only metadata keys (code,
    data, message, recordTime, msg) around a [data] payload is empty
    exactly when its payload is: the test looks through any number of
    such wrappers. *)
Theorem X4_isEmptyData_looks_through_wrappers
    (fs : list (jsstring * JSON)) (d : JSON)
    (Hdata : lookup fs (js "data") = Some d)
    (Hmeta : forall k, In k (keys fs) -> In k METADATA_KEYS) :
  Proxy.isEmptyData (Some (JObj fs)) = Proxy.isEmptyData (Some d)
  /\ Plugin.isEmptyData (Some (JObj fs)) = Plugin.isEmptyData (Some d).
Proof.
  assert (E : Proxy.isEmptyData (Some (JObj fs)) = Proxy.isEmptyData (Some d)).
  { unfold Proxy.isEmptyData at 1. rewrite isEmptyData_value_object.
    assert (Hin : In (js "data") (keys fs))
      by (apply lookup_Some_In; eauto).
    rewrite (@keys_nonempty_of_lookup fs (js "data") Hin).
    assert (Ehas : has fs (js "data") = true) by (apply has_lookup; eauto).
    rewrite Ehas, Hdata; cbn [andb].
    destruct (Proxy.isEmptyData (Some d)) eqn:Ed; cbn [andb].
    - assert (E2 : Nat.eqb (length (filter (fun k => negb (includes METADATA_KEYS k))
                                           (keys fs))) 0 = true).
      { apply filter_length_0; intros x Hx.
        apply negb_false_iff, includes_In, Hmeta, Hx. }
      rewrite E2; reflexivity.
    - apply no_empty_listing. intros k Hk Hl.
      apply (@listing_keys_not_metadata k Hk), Hmeta, lookup_Some_In; eauto. }
  split; exact E.
Qed.

(** X4 on a wrapper around a wrapper around an empty listing. *)
Lemma X4_isEmptyData_looks_through_wrappers_witness :
  let inner := wrapper (JObj [(js "item_list", JArr [])]) in
  Proxy.isEmptyData (Some (wrapper inner)) = Proxy.isEmptyData (Some inner)
  /\ Plugin.isEmptyData (Some (wrapper inner)) = Plugin.isEmptyData (Some inner).
Proof.
  apply (@X4_isEmptyData_looks_through_wrappers
           [ (js "code", JNum 0);
             (js "data", wrapper (JObj [(js "item_list", JArr [])]));
             (js "message", JNull);
             (js "recordTime", JStr (js "2026-01-01 00:00:00")) ]
           (wrapper (JObj [(js "item_list", JArr [])]))).
  - vm_compute; reflexivity.
  - intros k Hk. apply includes_In.
    simpl in Hk. destruct Hk as [<- | [<- | [<- | [<- | []]]]];
      vm_compute; reflexivity.
Defined.

(** X5. In both hosts an object that has a key outside the metadata keys
    and no listing key holding an empty array is never empty, whatever
    its other fields hold, an empty [data] included. *)
Theorem X5_isEmptyData_meaningful_field
    (fs : list (jsstring * JSON)) (k : jsstring)
    (Hkey : In k (keys fs))
    (Hmeaningful : ~ In k METADATA_KEYS)
    (Hlisting : forall k', In k' LISTING_KEYS -> lookup fs k' <> Some (JArr [])) :
  Proxy.isEmptyData (Some (JObj fs)) = false
  /\ Plugin.isEmptyData (Some (JObj fs)) = false.
Proof.
  assert (E : Proxy.isEmptyData (Some (JObj fs)) = false).
  { unfold Proxy.isEmptyData. rewrite isEmptyData_value_object.
    rewrite (@keys_nonempty_of_lookup fs k Hkey).
    assert (E2 : Nat.eqb (length (filter (fun k => negb (includes METADATA_KEYS k))
                                         (keys fs))) 0 = false).
    { destruct (Nat.eqb _ 0) eqn:E2; [|reflexivity].
      pose proof (proj1 (filter_length_0 _ _) E2 k Hkey) as Hk.
      apply negb_false_iff, includes_In in Hk. contradiction. }
    rewrite E2, andb_false_r. apply no_empty_listing; exact Hlisting. }
  split; exact E.
Qed.

(** X5 on a payload with an empty [data] beside a field of its own. *)
Lemma X5_isEmptyData_meaningful_field_witness :
  Proxy.isEmptyData
    (Some (JObj [(js "data", JObj []); (js "timestamp", JNum 123)])) = false
  /\ Plugin.isEmptyData
       (Some (JObj [(js "data", JObj []); (js "timestamp", JNum 123)])) = false.
Proof.
  apply (@X5_isEmptyData_meaningful_field
           [(js "data", JObj []); (js "timestamp", JNum 123)] (js "timestamp")).
  - right; left; reflexivity.
  - intros Hin. apply includes_In in Hin. vm_compute in Hin. discriminate Hin.
  - intros k' Hk' E.
    assert (Hb : is_empty_array
                   (lookup [(js "data", JObj []); (js "timestamp", JNum 123)] k')
                 = true) by (rewrite E; reflexivity).
    assert (Hall : forallb
                     (fun k' => negb (is_empty_array
                        (lookup [(js "data", JObj []); (js "timestamp", JNum 123)]
                                k')))
                     LISTING_KEYS = true) by (vm_compute; reflexivity).
    rewrite forallb_forall in Hall. specialize (Hall k' Hk').
    rewrite Hb in Hall. discriminate Hall.
Defined.

(* ================================================================== *)
(** * Further properties: classification *)
(* ================================================================== *)

Section MoreClassification.
Context `{H : Host}.

Lemma classify_error (tool_name : jsstring) (data e : JSON) :
  data <> JNull ->
  get data (js "error") = Some e ->
  truthy e = true ->
  Proxy.classify tool_name (FetchJson data) =
  Continue {| tikhubFailed := true; failReason := ToString e |}.
Proof.
  intros Hnn He Ht; unfold Proxy.classify; rewrite He, Ht.
  destruct data; try reflexivity; congruence.
Qed.

Lemma classify_result_cases (tool_name : jsstring) (data : JSON) :
  (exists r, Proxy.classify_result tool_name data = Returned r) <->
  match get data (js "result") with
  | Some result =>
    if is_object_value (Some result)
    then code_passes (get result (js "code"))
         && negb (Proxy.isEmptyData (get result (js "data"))) = true
    else True
  | None => True
  end.
Proof.
  destruct (is_object_value (get data (js "result"))) eqn:Ho.
  - destruct (get data (js "result")) as [result|] eqn:Hr; [|discriminate].
    rewrite Ho, (classify_result_structured tool_name data Hr Ho); cbv zeta.
    unfold code_passes.
    destruct (truthy_u (get result (js "code"))); cbn [negb orb andb].
    + destruct (match get result (js "code") with
                | Some (JNum n) => Qeq_bool n 200
                | _ => false
                end); cbn [negb andb].
      * destruct (Proxy.isEmptyData (get result (js "data"))); cbn [negb];
          split; try discriminate; eauto; intros [r E]; discriminate.
      * split; [intros [r E]; discriminate | discriminate].
    + destruct (Proxy.isEmptyData (get result (js "data"))); cbn [negb];
        split; try discriminate; eauto; intros [r E]; discriminate.
  - rewrite (classify_result_unstructured tool_name data Ho).
    destruct (get data (js "result")) as [result|]; [rewrite Ho|];
      split; eauto.
Qed.

End MoreClassification.

(** X6. In both hosts the TikHub attempt returns a result, instead of
    failing, exactly for a reply that was received as JSON, is not
    [null], carries no truthy top-level [error], and either has no
    [result] object, or has one whose [code] is missing, falsy or the
    number 200 and whose [data] is not empty: every thrown error, every
    response that is not ok, every body that is not JSON fails. *)
Theorem X6_classify_returns_iff
    (H : Host) (tool_name : jsstring) (o : FetchOutcome) :
  ((exists r, Proxy.classify tool_name o = Returned r) <->
   exists data, o = FetchJson data
                /\ reply_succeeds Proxy.isEmptyData data = true)
  /\ ((exists r, Plugin.classify tool_name o = Returned r) <->
      exists data, o = FetchJson data
                   /\ reply_succeeds Plugin.isEmptyData data = true).
Proof.
  assert (E : (exists r, Proxy.classify tool_name o = Returned r) <->
              exists data, o = FetchJson data
                           /\ reply_succeeds Proxy.isEmptyData data = true).
  { destruct o as [reason | status text | reason | data];
      try (split; [intros [r E]; discriminate
                  | intros (d & E & _); discriminate]).
    assert (Hdec : data = JNull \/ data <> JNull)
      by (destruct data; auto; right; discriminate).
    destruct Hdec as [-> | Hnn].
    { split; [intros [r E]; discriminate
             | intros (d & E & Hs); injection E as <-; discriminate]. }
    assert (Es : reply_succeeds Proxy.isEmptyData data =
                 negb (truthy_u (get data (js "error")))
                 && match get data (js "result") with
                    | Some result =>
                      if is_object_value (Some result)
                      then code_passes (get result (js "code"))
                           && negb (Proxy.isEmptyData (get result (js "data")))
                      else true
                    | None => true
                    end)
      by (destruct data; try reflexivity; congruence).
    destruct (truthy_u (get data (js "error"))) eqn:He.
    - destruct (get data (js "error")) as [e|] eqn:Hg; [|discriminate].
      rewrite (classify_error tool_name Hnn Hg He).
      split; [intros [r E]; discriminate|].
      intros (d & E & Hs); injection E as <-.
      rewrite Es in Hs; discriminate.
    - rewrite (classify_no_error tool_name Hnn He), classify_result_cases.
      split.
      + intros Hc; exists data; split; [reflexivity|]. rewrite Es; cbn [negb andb].
        destruct (get data (js "result")) as [result|]; [|reflexivity].
        destruct (is_object_value (Some result)); [exact Hc | reflexivity].
      + intros (d & E & Hs); injection E as <-. rewrite Es in Hs.
        cbn [negb andb] in Hs.
        destruct (get data (js "result")) as [result|]; [|exact I].
        destruct (is_object_value (Some result)); [exact Hs | exact I]. }
  split; exact E.
Qed.



(** X8. In both hosts, for a reply without truthy top-level [error] whose
    [result] is an object with a passing code, data that the emptiness
    test finds empty fail the call with the reason
    "{tool} returned empty data (platform anti-bot)"; a result without a
    [data] field is such a case, whatever else the result holds, so the
    result object itself is never the payload of a success. *)
Theorem X8_empty_or_missing_data_fails
    (H : Host) (tool_name : jsstring) (data result : JSON)
    (Herror : truthy_u (get data (js "error")) = false)
    (Hresult : get data (js "result") = Some result)
    (Hobject : is_object_value (Some result) = true)
    (Hcode : code_passes (get result (js "code")) = true)
    (Hempty : Proxy.isEmptyData (get result (js "data")) = true) :
  Proxy.classify tool_name (FetchJson data) =
    Continue {| tikhubFailed := true;
                failReason := tool_name
                              ++ js " returned empty data (platform anti-bot)" |}
  /\ Plugin.classify tool_name (FetchJson data) =
    Continue {| tikhubFailed := true;
                failReason := tool_name
                              ++ js " returned empty data (platform anti-bot)" |}.
Proof.
  assert (E : Proxy.classify tool_name (FetchJson data) =
              Continue {| tikhubFailed := true;
                          failReason := tool_name
                            ++ js " returned empty data (platform anti-bot)" |}).
  { rewrite classify_no_error; [| destruct data; discriminate | exact Herror].
    rewrite (classify_result_structured tool_name data Hresult Hobject).
    cbv zeta. unfold code_passes in Hcode.
    destruct (truthy_u (get result (js "code"))); cbn [negb orb andb] in *.
    - rewrite Hcode; cbn [negb]. rewrite Hempty; reflexivity.
    - rewrite Hempty; reflexivity. }
  split; exact E.
Qed.

(** X8 on a flat result: code 200 and a listing with one item, but no
    [data] field. *)
Lemma X8_empty_or_missing_data_fails_witness :
  let H := Reference.host in
  let tool := js "douyin_app_fetch_hot_search_list" in
  let result := JObj [(js "code", JNum 200);
                      (js "items", JArr [JObj [(js "id", JNum 1)]])] in
  Proxy.classify tool (FetchJson (JObj [(js "result", result)])) =
    Continue {| tikhubFailed := true;
                failReason := tool
                              ++ js " returned empty data (platform anti-bot)" |}
  /\ Plugin.classify tool (FetchJson (JObj [(js "result", result)])) =
    Continue {| tikhubFailed := true;
                failReason := tool
                              ++ js " returned empty data (platform anti-bot)" |}.
Proof.
  apply (@X8_empty_or_missing_data_fails Reference.host
           (js "douyin_app_fetch_hot_search_list")
           (JObj [(js "result",
                   JObj [(js "code", JNum 200);
                         (js "items", JArr [JObj [(js "id", JNum 1)]])])])
           (JObj [(js "code", JNum 200);
                  (js "items", JArr [JObj [(js "id", JNum 1)]])]));
    vm_compute; reflexivity.
Defined.

Lemma slice0_prefix (n : Z) (s : jsstring) :
  exists rest, s = slice0 n s ++ rest.
Proof.
  exists (skipn (Z.to_nat n) s). unfold slice0. symmetry. apply firstn_skipn.
Qed.

Lemma slice0_all (n : Z) (s : jsstring) :
  (len s <= n)%Z -> slice0 n s = s.
Proof. unfold len, slice0; intros Hl. apply firstn_all2. lia. Qed.

(** X9. In both hosts a response that is not ok fails the call with the
    reason "HTTP {status}: {excerpt}", where the excerpt is a prefix of
    the body of at most 200 code units, the whole body when it is no
    longer than that. *)
Theorem X9_http_failure_keeps_200_characters
    (H : Host) (tool_name : jsstring) (status : Z) (text : jsstring) :
  exists excerpt rest,
    text = excerpt ++ rest
    /\ (len excerpt <= 200)%Z
    /\ ((len text <= 200)%Z -> excerpt = text)
    /\ Proxy.classify tool_name (FetchNotOk status text) =
       Continue {| tikhubFailed := true;
                   failReason := js "HTTP " ++ dec status ++ js ": " ++ excerpt |}
    /\ Plugin.classify tool_name (FetchNotOk status text) =
       Continue {| tikhubFailed := true;
                   failReason := js "HTTP " ++ dec status ++ js ": " ++ excerpt |}.
Proof.
  destruct (slice0_prefix 200 text) as [rest Hrest].
  exists (slice0 200 text), rest.
  split; [exact Hrest|]. split.
  - rewrite len_slice0 by lia. lia.
  - split; [apply slice0_all|]. split; reflexivity.
Qed.

(* ================================================================== *)
(** * Further properties: the handler as a whole *)
(* ================================================================== *)

Section MoreHandler.
Context `{H : Host}.
Variable TIKHUB_API_KEY : jsstring.
Variable w : World.

Lemma classify_returned_or_failed (tool_name : jsstring) (o : FetchOutcome) :
  (exists text, Proxy.classify tool_name o = Returned (Result text false))
  \/ (exists reason,
         Proxy.classify tool_name o =
         Continue {| tikhubFailed := true; failReason := reason |}).
Proof.
  destruct o as [reason | status text | reason | data];
    try (right; eexists; reflexivity).
  assert (Hdec : data = JNull \/ data <> JNull)
    by (destruct data; auto; right; discriminate).
  destruct Hdec as [-> | Hnn]; [right; eexists; reflexivity|].
  destruct (truthy_u (get data (js "error"))) eqn:He.
  { destruct (get data (js "error")) as [e|] eqn:Hg; [|discriminate].
    right; eexists; apply (classify_error tool_name Hnn Hg He). }
  rewrite (classify_no_error tool_name Hnn He).
  destruct (is_object_value (get data (js "result"))) eqn:Ho.
  - destruct (get data (js "result")) as [result|] eqn:Hr; [|discriminate].
    rewrite (classify_result_structured tool_name data Hr Ho); cbv zeta.
    destruct (truthy_u (get result (js "code")) && _);
      [right; eexists; reflexivity|].
    destruct (Proxy.isEmptyData (get result (js "data")));
      [right | left]; eexists; reflexivity.
  - rewrite (classify_result_unstructured tool_name data Ho).
    left; eexists; reflexivity.
Qed.

Lemma proxy_attempt_returned_or_failed (tool_name : jsstring) (args : JSON) :
  (exists text,
      fst (run w (Proxy.tikhub_attempt TIKHUB_API_KEY tool_name args)) =
      Returned (Result text false))
  \/ (exists reason,
         fst (run w (Proxy.tikhub_attempt TIKHUB_API_KEY tool_name args)) =
         Continue {| tikhubFailed := true; failReason := reason |}).
Proof.
  unfold Proxy.tikhub_attempt; cbv zeta.
  destruct (nonempty TIKHUB_API_KEY); cbn [negb tikhubFailed].
  - cbn [run fst]. apply classify_returned_or_failed.
  - right; eexists; reflexivity.
Qed.

Lemma plugin_attempt_returned_or_failed (toolName : jsstring) (args : JSON) :
  (exists text,
      fst (run w (Plugin.tikhub_attempt TIKHUB_API_KEY toolName args)) =
      Returned (Result text false))
  \/ (exists reason,
         fst (run w (Plugin.tikhub_attempt TIKHUB_API_KEY toolName args)) =
         Continue {| tikhubFailed := true; failReason := reason |}).
Proof.
  unfold Plugin.tikhub_attempt; cbn [run fst].
  apply (classify_returned_or_failed toolName).
Qed.

End MoreHandler.

(** X10. In both hosts, whenever the TikHub attempt does not return a
    result, [tikhubFailed] is set: the handler never reaches its last
    part without a recorded failure; and a result that the attempt
    returns is never flagged as an error. *)
Theorem X10_attempt_fails_or_returns
    (H : Host) (TIKHUB_API_KEY tool_name : jsstring) (args : JSON) (w : World) :
  match fst (run w (Proxy.tikhub_attempt TIKHUB_API_KEY tool_name args)) with
  | Continue st => tikhubFailed st = true
  | Returned r => exists text, r = Result text false
  end
  /\ match fst (run w (Plugin.tikhub_attempt TIKHUB_API_KEY tool_name args)) with
     | Continue st => tikhubFailed st = true
     | Returned r => exists text, r = Result text false
     end.
Proof.
  split.
  - destruct (proxy_attempt_returned_or_failed TIKHUB_API_KEY w tool_name args)
      as [[text E] | [reason E]]; rewrite E; eauto.
  - destruct (plugin_attempt_returned_or_failed TIKHUB_API_KEY w tool_name args)
      as [[text E] | [reason E]]; rewrite E; eauto.
Qed.

Lemma message_heads :
  (exists t, js "TikHub 失败: " = 84%N :: t)
  /\ (exists t, js "Unknown error" = 85%N :: t)
  /\ js "Invalid arguments JSON string" <> js "Unknown error".
Proof.
  split; [|split].
  - eexists; vm_compute; reflexivity.
  - eexists; vm_compute; reflexivity.
  - vm_compute; discriminate.
Qed.

Section MoreFallback.
Context `{H : Host}.
Variable w : World.

Lemma proxy_fallback_result (st : Failure) (keyword : option jsstring)
    (platform : option Platform) :
  tikhubFailed st = true ->
  (exists text,
      fst (run w (Proxy.tikhub_fallback st keyword platform)) = Result text false)
  \/ fst (run w (Proxy.tikhub_fallback st keyword platform)) =
     Result (js "TikHub 失败: " ++ failReason st
             ++ (if Proxy.keyword_truthy keyword
                 then nl ++ js "网页搜索回退也失败了。"
                 else nl ++ js "该工具没有 keyword 参数，无法自动回退到网页搜索。"))
            true.
Proof.
  intros Hst; unfold Proxy.tikhub_fallback; cbv zeta; rewrite Hst.
  destruct keyword as [k|]; [|right; reflexivity].
  cbn [andb]. destruct (nonempty k) eqn:Hk; [|right; reflexivity].
  rewrite run_bind; cbn [fst].
  destruct (fst (run w (Proxy.fallbackWebSearch k platform))) as [text|];
    [|right; reflexivity].
  destruct (nonempty text); [left; eexists; reflexivity | right; reflexivity].
Qed.


End MoreFallback.

(** X11. The server never answers "Unknown error": the branch of its last
    statement that holds this message cannot be reached, since every
    path that reaches the statement has set [tikhubFailed]. *)
Theorem X11_unknown_error_is_unreachable
    (H : Host) (TIKHUB_API_KEY tool_name : jsstring)
    (arguments : option JSON) (w : World) :
  fst (run w (Proxy.tikhub_call TIKHUB_API_KEY tool_name arguments)) <>
  Result (js "Unknown error") true.
Proof.
  destruct message_heads as ((t1 & E1) & (t2 & E2) & Hinv).
  unfold Proxy.tikhub_call.
  destruct (Proxy.normalizeArguments arguments) as [args|].
  2:{ cbn [run fst]. intros E; apply Hinv; congruence. }
  destruct (Proxy.extractKeyword args) as [keyword|e]; [|discriminate].
  rewrite run_bind; cbn [fst].
  destruct (proxy_attempt_returned_or_failed TIKHUB_API_KEY w tool_name args)
    as [[text E] | [reason E]]; rewrite E.
  - cbn [run fst]; discriminate.
  - destruct (@proxy_fallback_result w
                {| tikhubFailed := true; failReason := reason |} keyword
                (Proxy.extractPlatform tool_name) eq_refl) as [[text E'] | E'];
      rewrite E'; [discriminate|].
    rewrite E1, E2. cbn [app]. intros Hc.
    assert (Hh : 84%N = 85%N) by congruence. discriminate Hh.
Qed.

Section HandlerShape.
Variable w : World.
Variable normalize : option JSON -> option JSON.
Variable extract : JSON -> Completion (option jsstring).
Variable attempt : JSON -> Prog Attempt.
Variable fallback : Failure -> option jsstring -> Prog ToolResult.
Variable malformed : ToolResult.

(** The trace of the handler is the trace of one attempt followed by the
    trace of one fallback, or a part of it. *)
Lemma handler_trace_bound (raw : option JSON) :
  (forall args,
      forallb is_event_fetch (snd (run w (attempt args))) = true
      /\ length (snd (run w (attempt args))) <= 1) ->
  (forall st keyword,
      forallb is_event_api (snd (run w (fallback st keyword))) = true
      /\ length (snd (run w (fallback st keyword))) <= 1) ->
  let t := snd (run w (handler normalize extract attempt fallback malformed raw)) in
  length (filter is_event_fetch t) <= 1
  /\ length (filter is_event_api t) <= 1
  /\ length t <= 2.
Proof.
  intros Ha Hf; unfold handler.
  destruct (normalize raw) as [args|]; [|simpl; lia].
  destruct (extract args) as [keyword|e]; [|simpl; lia].
  rewrite run_bind; cbn [snd].
  destruct (Ha args) as [Ha1 Ha2].
  assert (Hfa : forall l, forallb is_event_fetch l = true ->
                          filter is_event_api l = []
                          /\ filter is_event_fetch l = l).
  { induction l as [|[r|r] l IH]; simpl; auto; try discriminate.
    intros Hl; destruct (IH Hl) as [-> ->]; auto. }
  assert (Haf : forall l, forallb is_event_api l = true ->
                          filter is_event_fetch l = []
                          /\ filter is_event_api l = l).
  { induction l as [|[r|r] l IH]; simpl; auto; try discriminate.
    intros Hl; destruct (IH Hl) as [-> ->]; auto. }
  destruct (Hfa _ Ha1) as [Ea1 Ea2].
  rewrite !filter_app, !length_app, Ea1, Ea2.
  destruct (fst (run w (attempt args))) as [r|st].
  - cbn [run snd filter length]. lia.
  - destruct (Hf st keyword) as [Hf1 Hf2].
    destruct (Haf _ Hf1) as [Ef1 Ef2]. rewrite Ef1, Ef2. simpl length. lia.
Qed.

End HandlerShape.

(** X12. In both hosts one dispatch issues at most one request to TikHub
    and at most one request to the search service, at most two requests
    in all: the primary call is never retried. *)
Theorem X12_no_retry_of_the_primary_call
    (H : Host) (TIKHUB_API_KEY tool_name : jsstring)
    (arguments : option JSON) (w : World) :
  (let t := snd (run w (Proxy.tikhub_call TIKHUB_API_KEY tool_name arguments)) in
   length (filter is_event_fetch t) <= 1
   /\ length (filter is_event_api t) <= 1
   /\ length t <= 2)
  /\ (let t := snd (run w (Plugin.execute TIKHUB_API_KEY tool_name arguments)) in
      length (filter is_event_fetch t) <= 1
      /\ length (filter is_event_api t) <= 1
      /\ length t <= 2).
Proof.
  split.
  - apply (handler_trace_bound w Proxy.normalizeArguments Proxy.extractKeyword
             (Proxy.tikhub_attempt TIKHUB_API_KEY tool_name)
             (fun st keyword =>
                Proxy.tikhub_fallback st keyword (Proxy.extractPlatform tool_name))
             (Result (js "Invalid arguments JSON string") true)).
    + intros args; apply proxy_attempt_trace.
    + intros st [k|]; rewrite proxy_fallback_trace; [|simpl; auto].
      destruct (tikhubFailed st && nonempty k); [|simpl; auto].
      rewrite proxy_fallbackWebSearch_trace; simpl; auto.
  - apply (handler_trace_bound w Plugin.normalizeArguments Plugin.extractKeyword
             (Plugin.tikhub_attempt TIKHUB_API_KEY tool_name)
             (fun st keyword =>
                Plugin.tikhub_fallback st keyword (Plugin.extractPlatform tool_name))
             (Throws (JsError (js "Invalid arguments JSON string")))).
    + intros args; apply plugin_attempt_trace.
    + intros st [k|]; rewrite plugin_fallback_trace; [|simpl; auto].
      destruct (tikhubFailed st && nonempty k); [|simpl; auto].
      rewrite plugin_fallbackWebSearch_trace; simpl; auto.
Qed.


(* ================================================================== *)
(** * Further properties: the tools over the REST API *)
(* ================================================================== *)

Lemma run_rest_bind (R A B : Type) (service : ApiRequest -> Reply R)
    (p : Rest R A) (f : A -> Rest R B) :
  run_rest service (rest_bind p f) =
  (fst (run_rest service (f (fst (run_rest service p)))),
   snd (run_rest service p)
   ++ snd (run_rest service (f (fst (run_rest service p))))).
Proof.
  induction p as [a | req k IH]; simpl.
  - destruct (run_rest service (f a)); reflexivity.
  - rewrite IH; destruct (run_rest service (k (service req))); reflexivity.
Qed.

Lemma starts_with_app (sub rest : jsstring) :
  starts_with sub (sub ++ rest) = true.
Proof.
  induction sub as [|c sub IH]; simpl; [reflexivity|].
  rewrite N.eqb_refl; exact IH.
Qed.

Lemma str_includes_here (sub rest : jsstring) :
  str_includes (sub ++ rest) sub = true.
Proof.
  destruct (sub ++ rest) eqn:E; simpl; rewrite <- E, starts_with_app;
    reflexivity.
Qed.

Lemma str_includes_later (before s sub : jsstring) :
  str_includes s sub = true -> str_includes (before ++ s) sub = true.
Proof.
  intros Hs; induction before as [|c before IH]; simpl; [exact Hs|].
  rewrite IH; apply orb_true_r.
Qed.

Lemma str_includes_middle (before sub after : jsstring) :
  str_includes (before ++ sub ++ after) sub = true.
Proof. apply str_includes_later, str_includes_here. Qed.

Lemma join_In (sep l : jsstring) (lines : list jsstring) :
  In l lines -> exists before after, join sep lines = before ++ l ++ after.
Proof.
  induction lines as [|a lines IH]; [intros []|].
  intros [-> | Hin].
  - destruct lines as [|b lines].
    + exists [], []; simpl; rewrite app_nil_r; reflexivity.
    + exists [], (sep ++ join sep (b :: lines)); reflexivity.
  - destruct (IH Hin) as (before & after & E).
    destruct lines as [|b lines]; [destruct Hin|].
    exists (a ++ sep ++ before), after.
    change (join sep (a :: b :: lines)) with (a ++ sep ++ join sep (b :: lines)).
    rewrite E, <- !app_assoc; reflexivity.
Qed.

Lemma join_includes (sep l : jsstring) (lines : list jsstring) :
  In l lines -> str_includes (join sep lines) l = true.
Proof.
  intros Hin; destruct (join_In sep l lines Hin) as (before & after & ->).
  apply str_includes_middle.
Qed.

Lemma is_indented_prefix (s : jsstring) : is_indented (js "   " ++ s) = true.
Proof.
  unfold is_indented; destruct (js "   " ++ s) eqn:E; [reflexivity|].
  rewrite <- E; apply starts_with_app.
Qed.

Lemma starts_with_app_l (sub a b : jsstring) :
  starts_with sub a = true -> starts_with sub (a ++ b) = true.
Proof.
  revert a; induction sub as [|c sub IH]; intros [|d a]; simpl;
    try reflexivity; try discriminate.
  intros E; apply andb_true_iff in E; destruct E as [E1 E2].
  rewrite E1, (IH a E2); reflexivity.
Qed.

Lemma is_indented_app (a b : jsstring) :
  nonempty a = true -> is_indented a = true -> is_indented (a ++ b) = true.
Proof.
  destruct a as [|c a]; [discriminate|]. intros _ E.
  exact (starts_with_app_l (js "   ") (c :: a) b E).
Qed.

Lemma result_lines_block (i : nat) (r : SearchResult) :
  opens_block (i + 1) (title r) (url r) (Proxy.result_lines i r).
Proof.
  unfold opens_block, Proxy.result_lines; cbn [app].
  eexists; split; [reflexivity|].
  assert (Hc : is_indented (js "   --- Page Content ---") = true)
    by (vm_compute; reflexivity).
  destruct (snippet r) as [s|]; destruct (content r) as [c|];
    try destruct (nonempty s); try destruct (nonempty c);
    cbn [app forallb is_indented]; rewrite ?is_indented_prefix, ?Hc;
    reflexivity.
Qed.

Lemma results_blocks (i : nat) (rs : list SearchResult) :
  exists blocks,
    Proxy.results_lines i rs = concat blocks
    /\ length blocks = length rs
    /\ forall k r,
         nth_error rs k = Some r ->
         exists block,
           nth_error blocks k = Some block
           /\ opens_block (i + k + 1) (title r) (url r) block.
Proof.
  revert i; induction rs as [|a rs IH]; intros i.
  - exists []; split; [reflexivity | split; [reflexivity|]].
    intros [|k] r E; discriminate E.
  - destruct (IH (S i)) as (blocks & Ec & El & Hk).
    exists (Proxy.result_lines i a :: blocks).
    split; [cbn [Proxy.results_lines concat]; rewrite Ec; reflexivity|].
    split; [cbn [length]; rewrite El; reflexivity|].
    intros [|k] r E; cbn [nth_error] in E |- *.
    + assert (Er : a = r) by congruence; subst a.
      eexists; split; [reflexivity|].
      rewrite Nat.add_0_r; apply result_lines_block.
    + destruct (Hk k r E) as (block & Eb & Hb).
      exists block; split; [exact Eb|].
      replace (i + S k + 1) with (S i + k + 1) by lia. exact Hb.
Qed.

(** X14. In both hosts, when the fallback search gives a text, the text
    is made of the marker, the line of the search, an empty line and one
    block of lines for every result of the search service, in their
    order: the block of the result of rank [k], counted from 1, opens
    with the line "{k}. {title}" and the line of its URL, and holds
    after them only lines that are empty or indented, so that no result
    is dropped, moved or renumbered. *)
Theorem X14_fallback_text_lists_every_result
    (w : World) (keyword : jsstring) (platform : option Platform)
    (data : SearchResponse) (results : list SearchResult)
    (Hreply : search_stack w
                {| a_method := js "POST"; a_path := js "/search";
                   a_body := Some (Proxy.search_body
                                     (Proxy.fallback_query keyword platform));
                   a_signal := None |} = ApiJson data)
    (Hreply' : search_stack w
                 {| a_method := js "POST"; a_path := js "/search";
                    a_body := Some (Plugin.search_body
                                      (Plugin.fallback_query keyword platform));
                    a_signal := Some 28000%Z |} = ApiJson data)
    (Hresults : sr_results data = Some results)
    (Hsome : results <> []) :
  exists blocks,
    let text :=
      join nl ([ Proxy.fallback_marker;
                 js "Search: " ++ dquote ++ sr_query data ++ dquote
                 ++ js " (" ++ dec (Z.of_nat (length results))
                 ++ js " results via " ++ sr_provider data ++ js ")";
                 [] ]
               ++ concat blocks) in
    fst (run w (Proxy.fallbackWebSearch keyword platform)) = Some text
    /\ fst (run w (Plugin.fallbackWebSearch keyword platform)) = Some text
    /\ listed_in_order title url results blocks.
Proof.
  assert (Hne : Nat.eqb (length results) 0 = false)
    by (destruct results; [congruence | reflexivity]).
  destruct (results_blocks 0 results) as (blocks & Ec & El & Hk).
  exists blocks; cbv zeta; split; [|split].
  - unfold Proxy.fallbackWebSearch, Proxy.api; cbn [bind run fst].
    rewrite Hreply; cbn [bind run fst]. rewrite Hresults, Hne, <- Ec.
    reflexivity.
  - unfold Plugin.fallbackWebSearch, Plugin.apiCall; cbn [bind run fst].
    rewrite Hreply'; cbn [bind run fst].
    rewrite Hresults, Hne, <- Ec. reflexivity.
  - split; [exact El|]. intros k r E. exact (Hk k r E).
Qed.

(** X14 on a search with two results. *)
Lemma X14_fallback_text_lists_every_result_witness :
  let found :=
    {| sr_query := js "TikTok AI"; sr_provider := js "tavily";
       sr_results :=
         Some [ {| title := js "T1"; url := js "http://a";
                   snippet := Some (js "snip"); content := None |};
                {| title := js "T2"; url := js "http://b";
                   snippet := None; content := Some (js "body") |} ] |} in
  let results :=
    [ {| title := js "T1"; url := js "http://a";
         snippet := Some (js "snip"); content := None |};
      {| title := js "T2"; url := js "http://b";
         snippet := None; content := Some (js "body") |} ] in
  let w := {| tikhub := fun _ => FetchThrows [];
              search_stack := fun _ => ApiJson found |} in
  exists blocks,
    let text :=
      join nl ([ Proxy.fallback_marker;
                 js "Search: " ++ dquote ++ sr_query found ++ dquote
                 ++ js " (" ++ dec (Z.of_nat (length results))
                 ++ js " results via " ++ sr_provider found ++ js ")";
                 [] ]
               ++ concat blocks) in
    fst (run w (Proxy.fallbackWebSearch (js "AI") (Some (Label (js "TikTok"))))) =
      Some text
    /\ fst (run w (Plugin.fallbackWebSearch (js "AI")
                     (Some (Label (js "TikTok"))))) = Some text
    /\ listed_in_order title url results blocks.
Proof.
  apply (@X14_fallback_text_lists_every_result
           {| tikhub := fun _ => FetchThrows [];
              search_stack :=
                fun _ => ApiJson
                  {| sr_query := js "TikTok AI"; sr_provider := js "tavily";
                     sr_results :=
                       Some [ {| title := js "T1"; url := js "http://a";
                                 snippet := Some (js "snip"); content := None |};
                              {| title := js "T2"; url := js "http://b";
                                 snippet := None; content := Some (js "body") |} ] |} |}
           (js "AI") (Some (Label (js "TikTok")))
           {| sr_query := js "TikTok AI"; sr_provider := js "tavily";
              sr_results :=
                Some [ {| title := js "T1"; url := js "http://a";
                          snippet := Some (js "snip"); content := None |};
                       {| title := js "T2"; url := js "http://b";
                          snippet := None; content := Some (js "body") |} ] |}
           [ {| title := js "T1"; url := js "http://a";
                snippet := Some (js "snip"); content := None |};
             {| title := js "T2"; url := js "http://b";
                snippet := None; content := Some (js "body") |} ]);
    [reflexivity | reflexivity | reflexivity | discriminate].
Defined.

Section WebSearch.
Context `{H : Host} `{U : UrlHost}.
Variable service : ApiRequest -> Reply SearchPage.
Variable params : SearchParams.

Lemma plugin_web_search_run :
  run_rest service (PluginTools.web_search params) =
  match service (first_request params (Some 28000%Z)) with
  | ReplyJson data =>
    (Result (join nl ([PluginTools.search_line data; []]
                      ++ PluginTools.hits_lines 0 (page_results data))) false,
     [first_request params (Some 28000%Z)])
  | o =>
    let msg := match failure_message (js "POST") (js "/search") o with
               | Some m => m
               | None => []
               end in
    if PluginTools.retries params msg then
      (match service (second_request params) with
       | ReplyJson data =>
         Result (join nl ([PluginTools.ENRICH_TIMED_OUT;
                           PluginTools.search_line data; []]
                          ++ PluginTools.short_hits_lines 0 (page_results data)))
                false
       | _ => Throws (JsError (js "Search failed: " ++ msg))
       end,
       [first_request params (Some 28000%Z); second_request params])
    else (Throws (JsError (js "Search failed: " ++ msg)),
          [first_request params (Some 28000%Z)])
  end.
Proof.
  unfold PluginTools.web_search, PluginTools.apiCall.
  cbv zeta; cbn [rest_bind run_rest].
  fold (first_request params (Some 28000%Z)).
  destruct (service (first_request params (Some 28000%Z))) as [m | st tx | m | data];
    cbn [rest_bind run_rest message_of failure_message];
    try reflexivity;
    match goal with
    | |- context [PluginTools.retries params ?msg] =>
      destruct (PluginTools.retries params msg)
    end;
    cbn [rest_bind run_rest]; try reflexivity;
    fold (second_request params);
    destruct (service (second_request params)); reflexivity.
Qed.

End WebSearch.

(** X15. [execute] of [web_search] in the plugin issues one request, with
    the timeout of 28000 ms, and at most one more.  The second request
    is issued exactly when the first one failed, [enrich] was true and
    the message of the failure holds "TimeoutError" or "abort"; it asks
    for the same query with [enrich] false, the count of the caller (5
    when it is missing or 0), none of the other options, and a timeout of
    10000 ms. *)
Theorem X15_web_search_retries_once_without_enrich
    (service : ApiRequest -> Reply SearchPage) (params : SearchParams) :
  let t := snd (run_rest service (PluginTools.web_search params)) in
  let first := first_request params (Some 28000%Z) in
  (t = [first] \/ t = [first; second_request params])
  /\ (t = [first; second_request params] <->
      exists msg,
        failure_message (js "POST") (js "/search") (service first) = Some msg
        /\ sp_enrich params = Some true
        /\ (str_includes msg (js "TimeoutError") = true
            \/ str_includes msg (js "abort") = true))
  /\ a_body (second_request params) =
     Some (JObj [ (js "query", JStr (sp_query params));
                  (js "count",
                   JNum match sp_count params with
                        | Some c => if (c =? 0)%Z then 5%Z else c
                        | None => 5%Z
                        end);
                  (js "enrich", JBool false) ]).
Proof.
  cbv zeta. rewrite plugin_web_search_run.
  assert (Hr : forall msg,
             PluginTools.retries params msg = true <->
             sp_enrich params = Some true
             /\ (str_includes msg (js "TimeoutError") = true
                 \/ str_includes msg (js "abort") = true)).
  { intros msg; unfold PluginTools.retries.
    rewrite andb_true_iff, orb_true_iff.
    destruct (sp_enrich params) as [[|]|]; split; intros [E1 E2];
      try discriminate; auto. }
  split; [|split; [|reflexivity]].
  - destruct (service (first_request params (Some 28000%Z))); cbv zeta;
      try (destruct (PluginTools.retries params _)); cbn [snd]; auto.
  - destruct (service (first_request params (Some 28000%Z)))
      as [m | st tx | m | data] eqn:E; cbv zeta;
      cbn [failure_message];
      try (match goal with
           | |- context [PluginTools.retries params ?msg] =>
             destruct (PluginTools.retries params msg) eqn:Er
           end; cbn [snd];
           (split;
            [ intros Hc;
              first [ discriminate Hc
                    | eexists; split; [reflexivity | apply Hr; exact Er] ]
            | first [ intros _; reflexivity
                    | intros (msg & Em & He);
                      assert (Er' : PluginTools.retries params msg = true)
                        by (apply Hr; exact He);
                      congruence ] ])).
    cbn [snd]. split; [intros Hc; discriminate Hc
                      | intros (msg & Em & _); discriminate Em].
Qed.

(** X16. When [execute] of [web_search] in the plugin fails, it throws
    "Search failed: " followed by the message of the first failure, also
    when the retry failed for another reason; it never returns a result
    flagged as an error.  A first request that is answered gives a
    result, and so does a retry that is answered, with a text that opens
    with the notice of the timeout. *)
Theorem X16_web_search_reports_the_first_failure
    (service : ApiRequest -> Reply SearchPage) (params : SearchParams) :
  let out := fst (run_rest service (PluginTools.web_search params)) in
  let first := first_request params (Some 28000%Z) in
  (forall text, out <> Result text true)
  /\ (forall e,
         out = Throws e ->
         exists msg,
           failure_message (js "POST") (js "/search") (service first) = Some msg
           /\ e = JsError (js "Search failed: " ++ msg))
  /\ (forall data, service first = ReplyJson data ->
                   exists text, out = Result text false)
  /\ (forall data msg,
         failure_message (js "POST") (js "/search") (service first) = Some msg ->
         PluginTools.retries params msg = true ->
         service (second_request params) = ReplyJson data ->
         exists rest, out = Result (PluginTools.ENRICH_TIMED_OUT ++ rest) false).
Proof.
  cbv zeta. rewrite plugin_web_search_run.
  split; [|split; [|split]].
  - intros text.
    destruct (service (first_request params (Some 28000%Z))); cbv zeta;
      try (destruct (PluginTools.retries params _);
           [destruct (service (second_request params))|]);
      cbn [fst]; intros Hc; discriminate Hc.
  - intros e.
    destruct (service (first_request params (Some 28000%Z)))
      as [m | st tx | m | data]; cbv zeta; cbn [failure_message];
      try (match goal with
           | |- context [PluginTools.retries params ?msg] =>
             destruct (PluginTools.retries params msg)
           end;
           [destruct (service (second_request params))|];
           cbn [fst]; intros E;
           first [ discriminate E
                 | eexists; split; [reflexivity | congruence] ]).
    cbn [fst]; intros Hc; discriminate Hc.
  - intros data E; rewrite E; cbn [fst]; eexists; reflexivity.
  - intros data msg Em Er E2.
    destruct (join_cons_prefix nl PluginTools.ENRICH_TIMED_OUT
                ([PluginTools.search_line data; []]
                 ++ PluginTools.short_hits_lines 0 (page_results data)))
      as [tail Et].
    exists tail.
    destruct (service (first_request params (Some 28000%Z)))
      as [m | st tx | m | d]; cbn [failure_message] in Em |- *; cbv zeta.
    + assert (E : m = msg) by congruence. subst m.
      rewrite Er, E2; cbn [fst]; f_equal; exact Et.
    + assert (E : js "POST" ++ js " " ++ js "/search" ++ js " → "
                  ++ dec st ++ js ": " ++ tx = msg) by congruence.
      rewrite E, Er, E2; cbn [fst]; f_equal; exact Et.
    + assert (E : m = msg) by congruence. subst m.
      rewrite Er, E2; cbn [fst]; f_equal; exact Et.
    + discriminate Em.
Qed.

Lemma forallb_includes (allowed l : list jsstring) :
  forallb (includes allowed) l = true -> forall k, In k l -> In k allowed.
Proof.
  intros Hall k Hk. rewrite forallb_forall in Hall.
  apply includes_In, Hall, Hk.
Qed.

(** X17. In both hosts the body of the request of [web_search] holds the
    query and, under its own name, each optional parameter that is
    defined in the parameters passed to the handler, and nothing else: an
    undefined parameter is not sent, none is renamed, and no key is
    added. *)
Theorem X17_web_search_body_forwards_the_parameters (params : SearchParams) :
  let body := ProxyTools.web_search_body params in
  lookup body (js "query") = Some (JStr (sp_query params))
  /\ lookup body (js "count") = option_num_json (sp_count params)
  /\ lookup body (js "enrich") = option_bool_json (sp_enrich params)
  /\ lookup body (js "max_chars") = option_num_json (sp_max_chars params)
  /\ lookup body (js "provider") = option_str_json (sp_provider params)
  /\ lookup body (js "render") = option_bool_json (sp_render params)
  /\ lookup body (js "concurrency") = option_num_json (sp_concurrency params)
  /\ (forall k, In k (keys body) -> In k SEARCH_BODY_KEYS)
  /\ PluginTools.web_search_body params = body.
Proof.
  destruct params as [q [c|] [e|] [m|] [p|] [r|] [n|]];
    (cbv zeta; repeat match goal with |- _ /\ _ => split end;
     [ vm_compute; reflexivity | vm_compute; reflexivity
     | vm_compute; reflexivity | vm_compute; reflexivity
     | vm_compute; reflexivity | vm_compute; reflexivity
     | vm_compute; reflexivity
     | apply forallb_includes; vm_compute; reflexivity
     | vm_compute; reflexivity ]).
Qed.

Lemma hit_lines_block (i : nat) (r : SearchHit) :
  opens_block (i + 1) (hit_title r) (hit_url r) (ProxyTools.hit_lines i r).
Proof.
  unfold opens_block, ProxyTools.hit_lines; cbn [app].
  eexists; split; [reflexivity|].
  assert (Hc : is_indented (js "   --- Page Content ---") = true)
    by (vm_compute; reflexivity).
  assert (He : forall e, is_indented (js "   [Fetch error: " ++ e ++ js "]") = true).
  { intros e; apply is_indented_app; vm_compute; reflexivity. }
  destruct (hit_snippet r) as [s|]; destruct (hit_content r) as [c|];
    destruct (hit_fetch_error r) as [e|]; cbn [truthy_string];
    try destruct (nonempty s); try destruct (nonempty c);
    try destruct (nonempty e);
    cbn [app forallb is_indented]; rewrite ?is_indented_prefix, ?Hc, ?He;
    reflexivity.
Qed.

Lemma hits_blocks (i : nat) (rs : list SearchHit) :
  exists blocks,
    ProxyTools.hits_lines i rs = concat blocks
    /\ length blocks = length rs
    /\ forall k r,
         nth_error rs k = Some r ->
         exists block,
           nth_error blocks k = Some block
           /\ opens_block (i + k + 1) (hit_title r) (hit_url r) block.
Proof.
  revert i; induction rs as [|a rs IH]; intros i.
  - exists []; split; [reflexivity | split; [reflexivity|]].
    intros [|k] r E; discriminate E.
  - destruct (IH (S i)) as (blocks & Ec & El & Hk).
    exists (ProxyTools.hit_lines i a :: blocks).
    split; [cbn [ProxyTools.hits_lines concat]; rewrite Ec; reflexivity|].
    split; [cbn [length]; rewrite El; reflexivity|].
    intros [|k] r E; cbn [nth_error] in E |- *.
    + assert (Er : a = r) by congruence; subst a.
      eexists; split; [reflexivity|].
      rewrite Nat.add_0_r; apply hit_lines_block.
    + destruct (Hk k r E) as (block & Eb & Hb).
      exists block; split; [exact Eb|].
      replace (i + S k + 1) with (S i + k + 1) by lia. exact Hb.
Qed.

(** X18. The handler of [web_search] in the server issues exactly one
    request, without signal, and does not catch its failure: the error
    of the helper is thrown as it is, "POST /search → {status}: {body}"
    for a response that is not ok; there is no retry and no error
    result. *)
Theorem X18_server_web_search_propagates_failure
    (service : ApiRequest -> Reply SearchPage) (params : SearchParams) :
  let request :=
    {| a_method := js "POST"; a_path := js "/search";
       a_body := Some (JObj (ProxyTools.web_search_body params));
       a_signal := None |} in
  let out := run_rest service (ProxyTools.web_search params) in
  snd out = [request]
  /\ match failure_message (js "POST") (js "/search") (service request) with
     | Some msg => fst out = Throws (JsError msg)
     | None => exists text, fst out = Result text false
     end.
Proof.
  cbv zeta. unfold ProxyTools.web_search, ProxyTools.api.
  cbn [rest_bind run_rest].
  destruct (service _) as [m | st tx | m | data];
    cbn [rest_bind run_rest fst snd failure_message]; split;
    try reflexivity.
  eexists; reflexivity.
Qed.

(** X19. In both hosts, when the search service answers, the text of
    [web_search] is made of the line of the search, an empty line and
    one block of lines for every result, in their order: the block of
    the result of rank [k], counted from 1, opens with the line
    "{k}. {title}" and the line of its URL, and holds after them only
    lines that are empty or indented; the two hosts give the same
    text. *)
Theorem X19_web_search_lists_every_result
    (service : ApiRequest -> Reply SearchPage) (params : SearchParams)
    (data : SearchPage)
    (Hserver : service {| a_method := js "POST"; a_path := js "/search";
                          a_body := Some (JObj (ProxyTools.web_search_body params));
                          a_signal := None |} = ReplyJson data)
    (Hplugin : service (first_request params (Some 28000%Z)) = ReplyJson data) :
  exists blocks,
    let text :=
      join nl ([ js "Search: " ++ dquote ++ page_query data ++ dquote
                 ++ js " (" ++ dec (Z.of_nat (length (page_results data)))
                 ++ js " results via " ++ page_provider data ++ js ")";
                 [] ]
               ++ concat blocks) in
    fst (run_rest service (ProxyTools.web_search params)) = Result text false
    /\ fst (run_rest service (PluginTools.web_search params)) = Result text false
    /\ listed_in_order hit_title hit_url (page_results data) blocks.
Proof.
  destruct (hits_blocks 0 (page_results data)) as (blocks & Ec & El & Hk).
  exists blocks; cbv zeta; split; [|split].
  - unfold ProxyTools.web_search, ProxyTools.api. cbn [rest_bind run_rest].
    rewrite Hserver. cbn [rest_bind run_rest fst]. rewrite Ec. reflexivity.
  - rewrite plugin_web_search_run, Hplugin. cbn [fst].
    change (PluginTools.hits_lines 0 (page_results data))
      with (ProxyTools.hits_lines 0 (page_results data)).
    rewrite Ec. reflexivity.
  - split; [exact El|]. intros k r E. exact (Hk k r E).
Qed.

(** X19 on a page with two results. *)
Lemma X19_web_search_lists_every_result_witness :
  let page :=
    {| page_query := js "rust"; page_provider := js "serper";
       page_results :=
         [ {| hit_title := js "The Rust Book"; hit_url := js "https://doc.rust-lang.org";
              hit_snippet := Some (js "Learn Rust"); hit_content := None;
              hit_fetch_error := None |};
           {| hit_title := js "Crates"; hit_url := js "https://crates.io";
              hit_snippet := None; hit_content := None;
              hit_fetch_error := Some (js "timeout") |} ] |} in
  let params :=
    {| sp_query := js "rust"; sp_count := Some 2%Z; sp_enrich := None;
       sp_max_chars := None; sp_provider := None; sp_render := None;
       sp_concurrency := None |} in
  exists blocks,
    let text :=
      join nl ([ js "Search: " ++ dquote ++ page_query page ++ dquote
                 ++ js " (" ++ dec (Z.of_nat (length (page_results page)))
                 ++ js " results via " ++ page_provider page ++ js ")";
                 [] ]
               ++ concat blocks) in
    fst (run_rest (fun _ => ReplyJson page) (ProxyTools.web_search params)) =
      Result text false
    /\ fst (run_rest (fun _ => ReplyJson page) (PluginTools.web_search params)) =
      Result text false
    /\ listed_in_order hit_title hit_url (page_results page) blocks.
Proof.
  apply (@X19_web_search_lists_every_result
           (fun _ => ReplyJson
              {| page_query := js "rust"; page_provider := js "serper";
                 page_results :=
                   [ {| hit_title := js "The Rust Book";
                        hit_url := js "https://doc.rust-lang.org";
                        hit_snippet := Some (js "Learn Rust"); hit_content := None;
                        hit_fetch_error := None |};
                     {| hit_title := js "Crates"; hit_url := js "https://crates.io";
                        hit_snippet := None; hit_content := None;
                        hit_fetch_error := Some (js "timeout") |} ] |})
           {| sp_query := js "rust"; sp_count := Some 2%Z; sp_enrich := None;
              sp_max_chars := None; sp_provider := None; sp_render := None;
              sp_concurrency := None |}
           {| page_query := js "rust"; page_provider := js "serper";
              page_results :=
                [ {| hit_title := js "The Rust Book";
                     hit_url := js "https://doc.rust-lang.org";
                     hit_snippet := Some (js "Learn Rust"); hit_content := None;
                     hit_fetch_error := None |};
                  {| hit_title := js "Crates"; hit_url := js "https://crates.io";
                     hit_snippet := None; hit_content := None;
                     hit_fetch_error := Some (js "timeout") |} ] |});
    reflexivity.
Defined.

(* ================================================================== *)
(** * Further properties: [web_fetch] and the login link *)
(* ================================================================== *)

(** X20. In both hosts, when [JSON.parse] rejects the [headers] string of
    [web_fetch], no request is issued and the handler ends with "Invalid
    headers JSON string": as an error result in the server, as a thrown
    error in the plugin. *)
Theorem X20_web_fetch_rejects_bad_headers
    (H : Host) (U : UrlHost) (API_KEY PUBLIC_URL : jsstring)
    (service : ApiRequest -> Reply FetchPage)
    (params : FetchParams) (headers : jsstring)
    (Hgiven : fp_headers params = Some headers)
    (Hparse : JSON_parse headers = None) :
  run_rest service (ProxyTools.web_fetch params) =
    (Result (js "Invalid headers JSON string") true, [])
  /\ run_rest service (PluginTools.web_fetch API_KEY PUBLIC_URL params) =
    (Throws (JsError (js "Invalid headers JSON string")), []).
Proof.
  unfold ProxyTools.web_fetch, PluginTools.web_fetch,
    ProxyTools.web_fetch_body, PluginTools.web_fetch_body; cbv zeta.
  rewrite Hgiven, Hparse. split; reflexivity.
Qed.

(** X20 for an empty [headers] string. *)
Lemma X20_web_fetch_rejects_bad_headers_witness :
  let params :=
    {| fp_url := js "https://example.com"; fp_render := None;
       fp_max_chars := None; fp_timeout := None; fp_bypass_cache := None;
       fp_headers := Some [] |} in
  run_rest (fun _ => ReplyJson login_page)
           (@ProxyTools.web_fetch Reference.host ReferenceUrl.host params) =
    (Result (js "Invalid headers JSON string") true, [])
  /\ run_rest (fun _ => ReplyJson login_page)
              (@PluginTools.web_fetch Reference.host ReferenceUrl.host
                 (js "k") (js "https://s.example") params) =
    (Throws (JsError (js "Invalid headers JSON string")), []).
Proof.
  apply (@X20_web_fetch_rejects_bad_headers
           Reference.host ReferenceUrl.host (js "k") (js "https://s.example")
           (fun _ => ReplyJson login_page)
           {| fp_url := js "https://example.com"; fp_render := None;
              fp_max_chars := None; fp_timeout := None; fp_bypass_cache := None;
              fp_headers := Some [] |}
           []);
    [reflexivity | vm_compute; reflexivity].
Defined.

Lemma web_fetch_body_same `{H : Host} (params : FetchParams) :
  PluginTools.web_fetch_body params = ProxyTools.web_fetch_body params.
Proof. reflexivity. Qed.

Lemma web_fetch_body_parsed `{H : Host} (params : FetchParams)
    (body : list (jsstring * JSON)) :
  ProxyTools.web_fetch_body params = Some body ->
  lookup body (js "url") = Some (JStr (fp_url params))
  /\ lookup body (js "render") = option_bool_json (fp_render params)
  /\ lookup body (js "max_chars") = option_num_json (fp_max_chars params)
  /\ lookup body (js "timeout") = option_num_json (fp_timeout params)
  /\ lookup body (js "bypass_cache") = option_bool_json (fp_bypass_cache params)
  /\ lookup body (js "headers") = parsed_headers params.
Proof.
  unfold ProxyTools.web_fetch_body, parsed_headers; cbv zeta.
  destruct params as [u [r|] [m|] [t|] [b|] [h|]]; cbn [fp_url fp_render
    fp_max_chars fp_timeout fp_bypass_cache fp_headers];
    try destruct (JSON_parse h) as [v|]; intros E; try discriminate E;
    (assert (E' : body = _) by (symmetry; injection E as E; exact E));
    rewrite E'; clear E E';
    (repeat match goal with |- _ /\ _ => split end); vm_compute; reflexivity.
Qed.

(** X21. In both hosts [web_fetch] issues exactly one request, [POST
    /fetch], the server without signal and the plugin with the signal of
    28 seconds, and its body holds the URL, each defined option under its
    own name, and under [headers] the value that [JSON.parse] gave for
    the string of the caller, whatever its type. *)
Theorem X21_web_fetch_sends_the_parsed_headers
    (H : Host) (U : UrlHost) (API_KEY PUBLIC_URL : jsstring)
    (service : ApiRequest -> Reply FetchPage)
    (params : FetchParams) (body : list (jsstring * JSON))
    (Hbody : ProxyTools.web_fetch_body params = Some body) :
  snd (run_rest service (ProxyTools.web_fetch params)) = [fetch_request body None]
  /\ snd (run_rest service (PluginTools.web_fetch API_KEY PUBLIC_URL params)) =
     [fetch_request body (Some 28000%Z)]
  /\ lookup body (js "url") = Some (JStr (fp_url params))
  /\ lookup body (js "render") = option_bool_json (fp_render params)
  /\ lookup body (js "max_chars") = option_num_json (fp_max_chars params)
  /\ lookup body (js "timeout") = option_num_json (fp_timeout params)
  /\ lookup body (js "bypass_cache") = option_bool_json (fp_bypass_cache params)
  /\ lookup body (js "headers") = parsed_headers params.
Proof.
  split; [|split; [|exact (web_fetch_body_parsed params Hbody)]].
  - unfold ProxyTools.web_fetch; rewrite Hbody.
    unfold ProxyTools.api; cbn [rest_bind run_rest].
    fold (fetch_request body None).
    destruct (service _) as [m | st tx | m | data]; cbn [rest_bind run_rest snd];
      try reflexivity.
    destruct (pg_needs_login data) as [[|]|]; try reflexivity.
    destruct (URL_hostname (pg_url data)); reflexivity.
  - unfold PluginTools.web_fetch; rewrite web_fetch_body_same, Hbody.
    unfold PluginTools.apiCall; cbv zeta; cbn [rest_bind run_rest].
    fold (fetch_request body (Some 28000%Z)).
    destruct (service _) as [m | st tx | m | data]; cbn [rest_bind run_rest snd];
      try reflexivity.
    destruct (pg_needs_login data) as [[|]|]; try reflexivity.
    destruct (URL_hostname (pg_url data)); reflexivity.
Qed.

(** X21 for headers that are the JSON text of a number. *)
Lemma X21_web_fetch_sends_the_parsed_headers_witness :
  let params :=
    {| fp_url := js "https://example.com"; fp_render := None;
       fp_max_chars := Some 100%Z; fp_timeout := None; fp_bypass_cache := None;
       fp_headers := Some (js "5") |} in
  let body := [ (js "url", JStr (js "https://example.com"));
                (js "max_chars", JNum 100); (js "headers", JNum 5) ] in
  let service := fun _ : ApiRequest => ReplyThrows (R := FetchPage) (js "fetch failed") in
  snd (run_rest service
         (@ProxyTools.web_fetch Reference.host ReferenceUrl.host params)) =
    [fetch_request body None]
  /\ snd (run_rest service
            (@PluginTools.web_fetch Reference.host ReferenceUrl.host
               (js "k") (js "https://s.example") params)) =
     [fetch_request body (Some 28000%Z)]
  /\ lookup body (js "url") = Some (JStr (fp_url params))
  /\ lookup body (js "render") = option_bool_json (fp_render params)
  /\ lookup body (js "max_chars") = option_num_json (fp_max_chars params)
  /\ lookup body (js "timeout") = option_num_json (fp_timeout params)
  /\ lookup body (js "bypass_cache") = option_bool_json (fp_bypass_cache params)
  /\ lookup body (js "headers") = @parsed_headers Reference.host params.
Proof.
  apply (@X21_web_fetch_sends_the_parsed_headers
           Reference.host ReferenceUrl.host (js "k") (js "https://s.example")
           (fun _ : ApiRequest => ReplyThrows (R := FetchPage) (js "fetch failed"))
           {| fp_url := js "https://example.com"; fp_render := None;
              fp_max_chars := Some 100%Z; fp_timeout := None;
              fp_bypass_cache := None; fp_headers := Some (js "5") |}
           [ (js "url", JStr (js "https://example.com"));
             (js "max_chars", JNum 100); (js "headers", JNum 5) ]).
  vm_compute; reflexivity.
Defined.

Lemma line_heads :
  (exists t, js "Title: " = 84%N :: t)
  /\ (exists t, js "URL: " = 85%N :: t)
  /\ (exists t, js "Status: " = 83%N :: t)
  /\ (exists t, js "(cached)" = 40%N :: t)
  /\ (exists t, LOGIN_REQUIRED = 42%N :: t).
Proof.
  repeat split; eexists; vm_compute; reflexivity.
Qed.

Lemma join_head (sep : jsstring) (c : N) (p : jsstring) (rest : list jsstring) :
  exists t, join sep ((c :: p) :: rest) = c :: t.
Proof.
  destruct rest as [|q rest]; eexists; reflexivity.
Qed.

Ltac first_line_differs :=
  cbn [app];
  match goal with
  | |- starts_with _ (join ?sep ((?c :: ?p) :: ?rest)) = false =>
    let t := fresh "t" in
    let E := fresh "E" in
    first [ reflexivity
          | destruct (join_head sep c p rest) as [t E]; rewrite E; reflexivity ]
  end.

Lemma page_text_has_no_marker (data : FetchPage) :
  starts_with LOGIN_REQUIRED (join nl (ProxyTools.page_lines data)) = false.
Proof.
  destruct line_heads as ((t1 & E1) & (t2 & E2) & (t3 & E3) & (t4 & E4)
                          & (t5 & E5)).
  unfold ProxyTools.page_lines. rewrite E1, E2, E3, E4, E5.
  destruct (truthy_string (pg_title data)); [first_line_differs|].
  destruct (nonempty (pg_url data)); [first_line_differs|].
  destruct (pg_status_code data) as [c|].
  - destruct (c =? 0)%Z; [|first_line_differs].
    destruct (pg_cached data) as [[|]|]; [first_line_differs| |]; reflexivity.
  - destruct (pg_cached data) as [[|]|]; [first_line_differs| |]; reflexivity.
Qed.

Lemma page_lines_same : PluginTools.page_lines = ProxyTools.page_lines.
Proof. reflexivity. Qed.

(** X22. In both hosts, when the service answers [web_fetch], the text
    opens with "** LOGIN REQUIRED **" exactly when the reply has
    [needs_login] set: a page that needs no login gives the same text in
    both hosts, and this text never opens with the marker, whatever the
    title and the content of the page; a page that needs a login and
    whose [url] is not a URL makes the handler throw. *)
Theorem X22_login_marker_opens_the_text_iff_login_needed
    (H : Host) (U : UrlHost) (API_KEY PUBLIC_URL : jsstring)
    (service : ApiRequest -> Reply FetchPage)
    (params : FetchParams) (body : list (jsstring * JSON)) (data : FetchPage)
    (Hbody : ProxyTools.web_fetch_body params = Some body)
    (Hserver : service (fetch_request body None) = ReplyJson data)
    (Hplugin : service (fetch_request body (Some 28000%Z)) = ReplyJson data) :
  let server := fst (run_rest service (ProxyTools.web_fetch params)) in
  let plugin :=
    fst (run_rest service (PluginTools.web_fetch API_KEY PUBLIC_URL params)) in
  match pg_needs_login data with
  | Some true =>
    match URL_hostname (pg_url data) with
    | Abrupt e => server = Throws e /\ plugin = Throws e
    | Normal _ =>
      exists text text',
        server = Result text false /\ plugin = Result text' false
        /\ starts_with LOGIN_REQUIRED text = true
        /\ starts_with LOGIN_REQUIRED text' = true
    end
  | _ =>
    exists text,
      server = Result text false /\ plugin = Result text false
      /\ starts_with LOGIN_REQUIRED text = false
  end.
Proof.
  cbv zeta.
  assert (Es : fst (run_rest service (ProxyTools.web_fetch params)) =
               match pg_needs_login data with
               | Some true =>
                 match URL_hostname (pg_url data) with
                 | Abrupt e => Throws e
                 | Normal hostname =>
                   Result (join nl (ProxyTools.login_lines
                                      data (strip_www hostname))) false
                 end
               | _ => Result (join nl (ProxyTools.page_lines data)) false
               end).
  { unfold ProxyTools.web_fetch; rewrite Hbody.
    unfold ProxyTools.api; cbn [rest_bind run_rest].
    fold (fetch_request body None). rewrite Hserver.
    cbn [rest_bind run_rest].
    destruct (pg_needs_login data) as [[|]|]; try reflexivity.
    destruct (URL_hostname (pg_url data)); reflexivity. }
  assert (Ep : fst (run_rest service
                      (PluginTools.web_fetch API_KEY PUBLIC_URL params)) =
               match pg_needs_login data with
               | Some true =>
                 match URL_hostname (pg_url data) with
                 | Abrupt e => Throws e
                 | Normal hostname =>
                   Result (join nl (PluginTools.login_lines
                                      API_KEY PUBLIC_URL
                                      data (strip_www hostname))) false
                 end
               | _ => Result (join nl (ProxyTools.page_lines data)) false
               end).
  { unfold PluginTools.web_fetch; rewrite web_fetch_body_same, Hbody.
    unfold PluginTools.apiCall; cbv zeta; cbn [rest_bind run_rest].
    fold (fetch_request body (Some 28000%Z)). rewrite Hplugin.
    cbn [rest_bind run_rest]. rewrite page_lines_same.
    destruct (pg_needs_login data) as [[|]|]; try reflexivity.
    destruct (URL_hostname (pg_url data)); reflexivity. }
  rewrite Es, Ep; clear Es Ep.
  destruct (pg_needs_login data) as [[|]|].
  - destruct (URL_hostname (pg_url data)) as [hostname | e]; [|split; reflexivity].
    do 2 eexists; split; [reflexivity | split; [reflexivity | split]].
    + unfold ProxyTools.login_lines; cbn [join]; apply starts_with_app.
    + unfold PluginTools.login_lines; cbv zeta; cbn [join];
        apply starts_with_app.
  - eexists; split; [reflexivity | split; [reflexivity|]].
    apply page_text_has_no_marker.
  - eexists; split; [reflexivity | split; [reflexivity|]].
    apply page_text_has_no_marker.
Qed.

(** X22 for a page behind a login. *)
Lemma X22_login_marker_opens_the_text_iff_login_needed_witness :
  let service := fun _ : ApiRequest => ReplyJson login_page in
  exists text text',
    fst (run_rest service
           (@ProxyTools.web_fetch Reference.host ReferenceUrl.host
              login_page_params)) = Result text false
    /\ fst (run_rest service
              (@PluginTools.web_fetch Reference.host ReferenceUrl.host
                 (js "k") (js "https://s.example") login_page_params)) =
       Result text' false
    /\ starts_with LOGIN_REQUIRED text = true
    /\ starts_with LOGIN_REQUIRED text' = true.
Proof.
  exact (@X22_login_marker_opens_the_text_iff_login_needed
           Reference.host ReferenceUrl.host (js "k") (js "https://s.example")
           (fun _ : ApiRequest => ReplyJson login_page) login_page_params
           [ (js "url", JStr (js "https://www.youtube.com/feed/history"));
             (js "render", JBool true) ]
           login_page
           ltac:(vm_compute; reflexivity) eq_refl eq_refl).
Defined.

Lemma nonempty_app (a b : jsstring) :
  nonempty a = true -> nonempty (a ++ b) = true.
Proof. destruct a; [discriminate | reflexivity]. Qed.

Lemma https_nonempty : nonempty (js "https://") = true.
Proof. vm_compute; reflexivity. Qed.

(** X23. When a page needs a login, the text of [web_fetch] in the plugin
    holds the link to the Cookie Catcher for [https://] followed by the
    host name of the page without a leading [www.]; it is the same link
    that [cookie_catcher_link] returns when it is called with this
    address: the public URL, the encoded key and the encoded address. *)
Theorem X23_login_text_carries_the_catcher_link
    (H : Host) (U : UrlHost) (API_KEY PUBLIC_URL : jsstring)
    (service : ApiRequest -> Reply FetchPage)
    (params : FetchParams) (body : list (jsstring * JSON)) (data : FetchPage)
    (hostname : jsstring)
    (Hbody : PluginTools.web_fetch_body params = Some body)
    (Hreply : service (fetch_request body (Some 28000%Z)) = ReplyJson data)
    (Hlogin : pg_needs_login data = Some true)
    (Hhost : URL_hostname (pg_url data) = Normal hostname) :
  let target := js "https://" ++ strip_www hostname in
  let link := PUBLIC_URL ++ js "/cookie-catcher?key=" ++ encodeURIComponent API_KEY
              ++ js "&url=" ++ encodeURIComponent target in
  (exists text,
      fst (run_rest service (PluginTools.web_fetch API_KEY PUBLIC_URL params)) =
      Result text false
      /\ str_includes text link = true)
  /\ PluginTools.cookie_catcher_link API_KEY PUBLIC_URL (Some target) =
     Result (js "请在浏览器中打开以下链接登录，Cookie 会自动保存：" ++ nl ++ link
             ++ nl ++ nl ++ js "登录完成后告诉我，我会重新抓取。") false.
Proof.
  cbv zeta; split.
  - eexists; split.
    + unfold PluginTools.web_fetch; rewrite Hbody.
      unfold PluginTools.apiCall; cbv zeta; cbn [rest_bind run_rest].
      fold (fetch_request body (Some 28000%Z)). rewrite Hreply.
      cbn [rest_bind run_rest]. rewrite Hlogin, Hhost. reflexivity.
    + apply join_includes. unfold PluginTools.login_lines; cbv zeta.
      do 5 right; left; reflexivity.
  - unfold PluginTools.cookie_catcher_link; cbv zeta; cbn [truthy_string].
    rewrite (@nonempty_app _ (strip_www hostname) https_nonempty).
    rewrite (@nonempty_app _ (strip_www hostname) https_nonempty).
    rewrite <- !app_assoc. reflexivity.
Qed.

(** X23 for a page of [www.youtube.com]. *)
Lemma X23_login_text_carries_the_catcher_link_witness :
  let target := js "https://" ++ strip_www (js "www.youtube.com") in
  let link := js "https://s.example" ++ js "/cookie-catcher?key="
              ++ @encodeURIComponent ReferenceUrl.host (js "k")
              ++ js "&url=" ++ @encodeURIComponent ReferenceUrl.host target in
  (exists text,
      fst (run_rest (fun _ : ApiRequest => ReplyJson login_page)
             (@PluginTools.web_fetch Reference.host ReferenceUrl.host
                (js "k") (js "https://s.example") login_page_params)) =
      Result text false
      /\ str_includes text link = true)
  /\ @PluginTools.cookie_catcher_link ReferenceUrl.host
       (js "k") (js "https://s.example") (Some target) =
     Result (js "请在浏览器中打开以下链接登录，Cookie 会自动保存：" ++ nl ++ link
             ++ nl ++ nl ++ js "登录完成后告诉我，我会重新抓取。") false.
Proof.
  exact (@X23_login_text_carries_the_catcher_link
           Reference.host ReferenceUrl.host (js "k") (js "https://s.example")
           (fun _ : ApiRequest => ReplyJson login_page) login_page_params
           [ (js "url", JStr (js "https://www.youtube.com/feed/history"));
             (js "render", JBool true) ]
           login_page (js "www.youtube.com")
           ltac:(vm_compute; reflexivity) eq_refl eq_refl
           ltac:(vm_compute; reflexivity)).
Defined.

(* ================================================================== *)
(** * Further properties: the two hosts of [tikhub_call] side by side *)
(* ================================================================== *)

Section Correspondence.
Context `{H : Host}.
Variable w : World.
Hypothesis Hblind : signal_blind w.

Lemma fallbackWebSearch_blind (keyword : jsstring) (platform : option Platform) :
  fst (run w (Plugin.fallbackWebSearch keyword platform)) =
  fst (run w (Proxy.fallbackWebSearch keyword platform)).
Proof.
  unfold Plugin.fallbackWebSearch, Proxy.fallbackWebSearch,
    Plugin.apiCall, Proxy.api; cbv zeta; cbn [bind run].
  change (Plugin.search_body (Plugin.fallback_query keyword platform))
    with (Proxy.search_body (Proxy.fallback_query keyword platform)).
  rewrite (Hblind (js "POST") (js "/search")
                  (Some (Proxy.search_body (Proxy.fallback_query keyword platform)))
                  (Some 28000%Z) None).
  destruct (search_stack w _) as [m | st tx | m | data]; cbn [bind run fst];
    try reflexivity.
  destruct (sr_results data) as [results|]; [|reflexivity].
  destruct (Nat.eqb (length results) 0); reflexivity.
Qed.

Lemma fallback_surface (st : Failure) (keyword : option jsstring)
    (platform : option Platform) :
  tikhubFailed st = true ->
  fst (run w (Plugin.tikhub_fallback st keyword platform)) =
  surface (fst (run w (Proxy.tikhub_fallback st keyword platform))).
Proof.
  intros Hst; unfold Plugin.tikhub_fallback, Proxy.tikhub_fallback; cbv zeta.
  rewrite Hst. destruct keyword as [k|]; [|reflexivity].
  cbn [andb Plugin.keyword_truthy Proxy.keyword_truthy].
  destruct (nonempty k) eqn:Hk; [|reflexivity].
  rewrite !run_bind; cbn [fst]. rewrite fallbackWebSearch_blind.
  destruct (fst (run w (Proxy.fallbackWebSearch k platform))) as [text|];
    [|reflexivity].
  destruct (nonempty text); reflexivity.
Qed.

End Correspondence.

(** X24. Whenever the plugin has registered [tikhub_call], that is, with
    a TikHub key configured, and the search service answers without
    regard to the signal of a request, the plugin gives on every call
    what the server gives, an error result of the server being thrown as
    an error with the same message: same text on success and on
    fallback, same message on failure. *)
Theorem X24_plugin_gives_what_the_server_gives
    (H : Host) (TIKHUB_API_KEY tool_name : jsstring)
    (arguments : option JSON) (w : World)
    (Hregistered : In (js "tikhub_call") (PluginTools.register TIKHUB_API_KEY))
    (Hblind : signal_blind w) :
  fst (run w (Plugin.execute TIKHUB_API_KEY tool_name arguments)) =
  surface (fst (run w (Proxy.tikhub_call TIKHUB_API_KEY tool_name arguments))).
Proof.
  apply registered_key in Hregistered.
  unfold Plugin.execute, Proxy.tikhub_call; cbv zeta.
  change (Plugin.normalizeArguments arguments)
    with (Proxy.normalizeArguments arguments).
  destruct (Proxy.normalizeArguments arguments) as [args|]; [|reflexivity].
  change (Plugin.extractKeyword args) with (Proxy.extractKeyword args).
  destruct (Proxy.extractKeyword args) as [keyword | e]; [|reflexivity].
  rewrite !run_bind; cbn [fst].
  assert (Ea : fst (run w (Plugin.tikhub_attempt TIKHUB_API_KEY tool_name args)) =
               fst (run w (Proxy.tikhub_attempt TIKHUB_API_KEY tool_name args))).
  { unfold Plugin.tikhub_attempt, Proxy.tikhub_attempt; cbv zeta.
    rewrite Hregistered; cbn [negb tikhubFailed run fst]. reflexivity. }
  rewrite Ea.
  destruct (proxy_attempt_returned_or_failed TIKHUB_API_KEY w tool_name args)
    as [[text E] | [reason E]]; rewrite E.
  - reflexivity.
  - change (Plugin.extractPlatform tool_name)
      with (Proxy.extractPlatform tool_name).
    apply fallback_surface; [exact Hblind | reflexivity].
Qed.

(** X24 for a key, with TikHub unreachable and a search without result. *)
Lemma X24_plugin_gives_what_the_server_gives_witness :
  let arguments := Some (JObj [(js "keyword", JStr (js "AI"))]) in
  fst (run world_down
         (@Plugin.execute Reference.host (js "key")
            (js "tiktok_web_fetch_search_video") arguments)) =
  surface (fst (run world_down
                  (@Proxy.tikhub_call Reference.host (js "key")
                     (js "tiktok_web_fetch_search_video") arguments))).
Proof.
  apply (@X24_plugin_gives_what_the_server_gives
           Reference.host (js "key") (js "tiktok_web_fetch_search_video")
           (Some (JObj [(js "keyword", JStr (js "AI"))])) world_down).
  - apply includes_In; vm_compute; reflexivity.
  - intros method path body s1 s2; reflexivity.
Defined.

(* ================================================================== *)
(** * The text returned for a successful call *)
(* ================================================================== *)

Section SuccessText.
Context `{H : Host}.

(** What the attempt returns for a reply that is taken as a success. *)
Lemma classify_success (tool_name : jsstring) (data : JSON) :
  reply_succeeds Proxy.isEmptyData data = true ->
  exists (payload : JSON) (header marker : jsstring),
    ((exists result,
         get data (js "result") = Some result
         /\ is_object_value (Some result) = true
         /\ get result (js "data") = Some payload
         /\ header = js "TikHub " ++ tool_name ++ js " result:" ++ nl ++ nl
         /\ marker = nl ++ nl ++ js "... (truncated, result too large)")
     \/ (is_object_value (get data (js "result")) = false
         /\ payload = data
         /\ header = []
         /\ marker = nl ++ nl ++ js "... (truncated)"))
    /\ Proxy.classify tool_name (FetchJson data) =
       Returned
         (Result (header
                  ++ (if (50000 <? len (JSON_stringify payload))%Z
                      then slice0 50000 (JSON_stringify payload) ++ marker
                      else JSON_stringify payload))
                 false).
Proof.
  intros Hs.
  assert (Hnn : data <> JNull) by (intros ->; discriminate Hs).
  assert (Hx : negb (truthy_u (get data (js "error")))
               && match get data (js "result") with
                  | Some result =>
                    if is_object_value (Some result)
                    then code_passes (get result (js "code"))
                         && negb (Proxy.isEmptyData (get result (js "data")))
                    else true
                  | None => true
                  end = true)
    by (destruct data; solve [discriminate Hs | exact Hs]).
  apply andb_true_iff in Hx; destruct Hx as [He Hr].
  apply negb_true_iff in He.
  rewrite (classify_no_error tool_name Hnn He).
  destruct (is_object_value (get data (js "result"))) eqn:Ho.
  - destruct (get data (js "result")) as [result|] eqn:Hg; [|discriminate Ho].
    rewrite Ho in Hr. apply andb_true_iff in Hr; destruct Hr as [Hc Hd].
    apply negb_true_iff in Hd.
    destruct (isEmptyData_false_payload _ Hd) as (d & Ed & Hdn).
    rewrite (classify_result_structured tool_name data Hg Ho); cbv zeta.
    assert (Ec : truthy_u (get result (js "code"))
                 && negb match get result (js "code") with
                         | Some (JNum n) => Qeq_bool n 200
                         | _ => false
                         end = false).
    { unfold code_passes in Hc.
      destruct (truthy_u (get result (js "code"))); [|reflexivity].
      cbn [negb orb] in Hc; rewrite Hc; reflexivity. }
    rewrite Ec, Hd, Ed.
    assert (Em : match d with JNull => result | _ => d end = d)
      by (destruct d; congruence).
    rewrite Em.
    exists d, (js "TikHub " ++ tool_name ++ js " result:" ++ nl ++ nl),
           (nl ++ nl ++ js "... (truncated, result too large)").
    split; [left; exists result; repeat split; assumption|].
    unfold shown, marker_structured; rewrite <- !app_assoc; reflexivity.
  - rewrite (classify_result_unstructured tool_name data Ho).
    exists data, [], (nl ++ nl ++ js "... (truncated)").
    split; [right; repeat split; reflexivity|]. reflexivity.
Qed.

End SuccessText.

(** C10. In both hosts, for every call whose arguments normalise to a
    value other than [null] and to which TikHub, called with a
    configured key, gives a reply that is taken as a success, the handler
    issues no other request and returns to its caller a text made of a
    header and of the JSON serialisation of the payload, kept whole when
    it has at most 50000 characters and otherwise cut to exactly its
    first 50000 characters and followed by a fixed marker.  The payload
    is [result.data] under the header "TikHub {tool} result:" when the
    reply has a [result] object, the whole reply under no header
    otherwise. *)
Theorem C10_returned_text_is_bounded
    (H : Host) (TIKHUB_API_KEY tool_name : jsstring)
    (arguments : option JSON) (w : World) (args data : JSON)
    (Hkey : nonempty TIKHUB_API_KEY = true)
    (Hargs : Proxy.normalizeArguments arguments = Some args)
    (Hnn : args <> JNull)
    (Hreply : tikhub w (primary_request TIKHUB_API_KEY tool_name args) =
              FetchJson data)
    (Hsuccess : reply_succeeds Proxy.isEmptyData data = true) :
  exists (payload : JSON) (header marker : jsstring),
    ((exists result,
         get data (js "result") = Some result
         /\ is_object_value (Some result) = true
         /\ get result (js "data") = Some payload
         /\ header = js "TikHub " ++ tool_name ++ js " result:" ++ nl ++ nl
         /\ marker = nl ++ nl ++ js "... (truncated, result too large)")
     \/ (is_object_value (get data (js "result")) = false
         /\ payload = data
         /\ header = []
         /\ marker = nl ++ nl ++ js "... (truncated)"))
    /\ let s := JSON_stringify payload in
       let text :=
         header ++ (if (50000 <? len s)%Z then slice0 50000 s ++ marker else s) in
       run w (Proxy.tikhub_call TIKHUB_API_KEY tool_name arguments) =
         (Result text false,
          [EvFetch (primary_request TIKHUB_API_KEY tool_name args)])
       /\ run w (Plugin.execute TIKHUB_API_KEY tool_name arguments) =
          (Result text false,
           [EvFetch (primary_request TIKHUB_API_KEY tool_name args)])
       /\ ((50000 < len s)%Z -> len (slice0 50000 s) = 50000%Z)
       /\ (len text <= len header + 50000 + len marker)%Z.
Proof.
  destruct (classify_success tool_name data Hsuccess)
    as (payload & header & marker & Hcases & Ec).
  exists payload, header, marker. split; [exact Hcases|]. cbv zeta.
  assert (Ep : run w (Proxy.tikhub_call TIKHUB_API_KEY tool_name arguments) =
               (Result (header
                        ++ (if (50000 <? len (JSON_stringify payload))%Z
                            then slice0 50000 (JSON_stringify payload) ++ marker
                            else JSON_stringify payload)) false,
                [EvFetch (primary_request TIKHUB_API_KEY tool_name args)])).
  { unfold Proxy.tikhub_call. rewrite Hargs, (extractKeyword_object Hnn).
    cbv zeta. unfold Proxy.tikhub_attempt; cbv zeta.
    rewrite Hkey; cbn [negb tikhubFailed bind run].
    change {| f_url := Proxy.TIKHUB_URL; f_method := js "POST";
              f_authorization := js "Bearer " ++ TIKHUB_API_KEY;
              f_content_type := js "application/json";
              f_tool_name := tool_name; f_arguments := args;
              f_signal := Some 25000%Z |}
      with (primary_request TIKHUB_API_KEY tool_name args).
    rewrite Hreply, Ec. reflexivity. }
  assert (Eq : run w (Plugin.execute TIKHUB_API_KEY tool_name arguments) =
               (Result (header
                        ++ (if (50000 <? len (JSON_stringify payload))%Z
                            then slice0 50000 (JSON_stringify payload) ++ marker
                            else JSON_stringify payload)) false,
                [EvFetch (primary_request TIKHUB_API_KEY tool_name args)])).
  { unfold Plugin.execute.
    change (Plugin.normalizeArguments arguments)
      with (Proxy.normalizeArguments arguments).
    rewrite Hargs.
    change (Plugin.extractKeyword args) with (Proxy.extractKeyword args).
    rewrite (extractKeyword_object Hnn).
    cbv zeta. unfold Plugin.tikhub_attempt; cbn [bind run].
    change {| f_url := Plugin.TIKHUB_URL; f_method := js "POST";
              f_authorization := js "Bearer " ++ TIKHUB_API_KEY;
              f_content_type := js "application/json";
              f_tool_name := tool_name; f_arguments := args;
              f_signal := Some 25000%Z |}
      with (primary_request TIKHUB_API_KEY tool_name args).
    rewrite Hreply.
    change (Plugin.classify tool_name (FetchJson data))
      with (Proxy.classify tool_name (FetchJson data)).
    rewrite Ec. reflexivity. }
  split; [exact Ep | split; [exact Eq | split]].
  - exact (proj2 (shown_bounded (JSON_stringify payload) marker)).
  - rewrite len_app.
    pose proof (proj1 (shown_bounded (JSON_stringify payload) marker)) as Hb.
    rewrite <- Z.add_assoc. apply Z.add_le_mono_l. exact Hb.
Qed.

Lemma quote_body_letters (n : nat) :
  Reference.quote_body (repeat 97%N n) = repeat 97%N n.
Proof.
  induction n as [|n IH]; [reflexivity|].
  cbn [repeat Reference.quote_body N.eqb N.ltb N.compare Pos.eqb Pos.compare
       Pos.compare_cont app].
  rewrite IH; reflexivity.
Qed.

(** C10 on a reply whose data are a string of 50001 letters: its
    serialisation has 50003 characters, so that the text is cut. *)
Lemma C10_returned_text_is_bounded_witness :
  let H := Reference.host in
  let key := js "sk-test" in
  let tool := js "tiktok_web_fetch_search_video" in
  let args := JObj [(js "keyword", JStr (js "AI"))] in
  let long := JStr (repeat 97%N (Z.to_nat 50001)) in
  let data := JObj [(js "result",
                     JObj [(js "code", JNum 200); (js "data", long)])] in
  let w := {| tikhub := fun _ => FetchJson data;
              search_stack := fun _ => ApiThrows [] |} in
  len (JSON_stringify long) = 50003%Z
  /\ exists (payload : JSON) (header marker : jsstring),
       ((exists result,
            get data (js "result") = Some result
            /\ is_object_value (Some result) = true
            /\ get result (js "data") = Some payload
            /\ header = js "TikHub " ++ tool ++ js " result:" ++ nl ++ nl
            /\ marker = nl ++ nl ++ js "... (truncated, result too large)")
        \/ (is_object_value (get data (js "result")) = false
            /\ payload = data
            /\ header = []
            /\ marker = nl ++ nl ++ js "... (truncated)"))
       /\ let s := JSON_stringify payload in
          let text :=
            header
            ++ (if (50000 <? len s)%Z then slice0 50000 s ++ marker else s) in
          run w (Proxy.tikhub_call key tool (Some args)) =
            (Result text false, [EvFetch (primary_request key tool args)])
          /\ run w (Plugin.execute key tool (Some args)) =
             (Result text false, [EvFetch (primary_request key tool args)])
          /\ ((50000 < len s)%Z -> len (slice0 50000 s) = 50000%Z)
          /\ (len text <= len header + 50000 + len marker)%Z.
Proof.
  split.
  - cbn [JSON_stringify Reference.host Reference.stringify
         Reference.stringify_at]; cbv zeta.
    unfold Reference.quote. rewrite quote_body_letters.
    unfold len, dquote. rewrite !length_app, repeat_length.
    cbn [length]. lia.
  - apply (@C10_returned_text_is_bounded
             Reference.host (js "sk-test") (js "tiktok_web_fetch_search_video")
             (Some (JObj [(js "keyword", JStr (js "AI"))]))
             {| tikhub :=
                  fun _ => FetchJson
                    (JObj [(js "result",
                            JObj [(js "code", JNum 200);
                                  (js "data",
                                   JStr (repeat 97%N (Z.to_nat 50001)))])]);
                search_stack := fun _ => ApiThrows [] |}
             (JObj [(js "keyword", JStr (js "AI"))])
             (JObj [(js "result",
                     JObj [(js "code", JNum 200);
                           (js "data", JStr (repeat 97%N (Z.to_nat 50001)))])]));
      [ vm_compute; reflexivity | reflexivity | discriminate | reflexivity
      | vm_compute; reflexivity ].
Defined.
